(** * streamSocket: a single-shot TCP client and server

    A shallow embedding of [client.c] and [server.c].  Each program is a
    computation in a small state-and-exit monad over a [World]: the part
    of the operating system one process sees (standard input, console
    output, its descriptor table, the system calls it has made, the bytes
    it put on and took off its connection) together with the answers the
    operating system is going to give ([Os]).  The C functions keep their
    names; [Client] and [Server] hold the two translation units.

    Conventions.  [int] is 32 bits and [long] and [size_t] are 64 bits
    (LP64).  An array is the list of its bytes; a library call that
    reads or writes past the end of an array is [Undefined], and a run
    that reaches one [Goes_wrong].  A successful [send] puts all its
    bytes on the connection; [recv] copies as many of the pending bytes
    as it was given room for.  A new descriptor is the lowest free
    one. *)

From Stdlib Require Import ZArith List String Ascii Bool Lia DecimalString Finite.
From Stdlib Require DecimalPos.
Import ListNotations.

Local Open Scope string_scope.
Local Open Scope Z_scope.

(** ** Bytes, arrays and C strings *)

Definition byte := ascii.
Definition bytes := list byte.

Definition NUL : byte := Ascii.zero.
Definition NL : byte := "010"%char.

Definition is_nul (c : byte) : bool := Ascii.eqb c NUL.

(** A C string argument (an element of [argv], a string literal) is held
    as its characters, without the terminator. *)
Definition chars (s : string) : bytes := list_ascii_of_string s.
Definition text (b : bytes) : string := string_of_list_ascii b.

(** [literal s] is the array a string literal denotes: its characters and the
    terminating null byte. *)
Definition literal (s : string) : bytes := (chars s ++ [NUL])%list.

(** Writing [data] at the start of the array [a]. *)
Definition overwrite (a data : bytes) : bytes :=
  (data ++ skipn (List.length data) a)%list.

(** [a[i] = c]. *)
Fixpoint store (a : bytes) (i : nat) (c : byte) : bytes :=
  match a, i with
  | [], _ => []
  | _ :: r, O => c :: r
  | x :: r, S j => x :: store r j c
  end.

(** The characters of the array before its first null byte; [None] when
    the array holds no null byte, where C reads past its end. *)
Fixpoint cstring (a : bytes) : option bytes :=
  match a with
  | [] => None
  | c :: r => if is_nul c then Some []
              else option_map (cons c) (cstring r)
  end.

Definition strlen (a : bytes) : option nat := option_map (@List.length byte) (cstring a).

(** [strcspn(a, reject)]: the length of the longest prefix of the string
    in [a] with no character of [reject]. *)
Fixpoint strcspn (a : bytes) (reject : bytes) : option nat :=
  match a with
  | [] => None
  | c :: r => if is_nul c || existsb (Ascii.eqb c) reject then Some O
              else option_map S (strcspn r reject)
  end.

(** ** C integers *)

Definition INT_MIN : Z := - 2 ^ 31.
Definition INT_MAX : Z := 2 ^ 31 - 1.
Definition LONG_MIN : Z := - 2 ^ 63.
Definition LONG_MAX : Z := 2 ^ 63 - 1.

(** Conversion of a [long] (or of a [size_t] count) to [int]: the low 32
    bits, read as a signed number. *)
Definition to_int (x : Z) : Z := (x + 2 ^ 31) mod 2 ^ 32 - 2 ^ 31.

(** Conversion of an [int] to [size_t] (64 bits). *)
Definition to_size_t (x : Z) : nat := Z.to_nat (x mod 2 ^ 64).

(** [%d] and [%lu]. *)
Definition dec (x : Z) : string := NilZero.string_of_int (Z.to_int x).

(** ** strtol and atoi *)

Definition isspace (c : byte) : bool :=
  let n := nat_of_ascii c in
  Nat.eqb n 32 || (Nat.leb 9 n && Nat.leb n 13).

Definition digit_of (c : byte) : option Z :=
  let n := nat_of_ascii c in
  if Nat.leb 48 n && Nat.leb n 57 then Some (Z.of_nat n - 48) else None.

Fixpoint skip_spaces (s : bytes) : bytes :=
  match s with
  | c :: r => if isspace c then skip_spaces r else s
  | [] => []
  end.

(** The value of the longest run of decimal digits at the start of [s]
    (0 when there is none). *)
Fixpoint digits (acc : Z) (s : bytes) : Z :=
  match s with
  | c :: r => match digit_of c with
              | Some d => digits (10 * acc + d) r
              | None => acc
              end
  | [] => acc
  end.

(** [strtol(s, NULL, 10)] on an LP64 platform: white space, an optional
    sign, then digits; out-of-range values are clamped to [LONG_MIN] and
    [LONG_MAX]; trailing characters are not looked at. *)
Definition strtol (s : string) : Z :=
  let s1 := skip_spaces (chars s) in
  let v :=
    match s1 with
    | c :: r =>
        if Ascii.eqb c "-" then - digits 0 r
        else if Ascii.eqb c "+" then digits 0 r
        else digits 0 s1
    | [] => 0
    end in
  Z.max LONG_MIN (Z.min LONG_MAX v).

(** [atoi(s)] is [(int) strtol(s, NULL, 10)]. *)
Definition atoi (s : string) : Z := to_int (strtol s).

(** ** The world of one process *)

Inductive syscall : Type :=
| Socket (ret : Z)
| Setsockopt (sd ret : Z)
| Bind (sd port ret : Z)
| Listen (sd backlog ret : Z)
| Accept (sd ret : Z)
| Connect (sd : Z) (addr : string) (port ret : Z)
| Send (sd : Z) (data : bytes) (ret : Z)
| Recv (sd : Z) (len : nat) (ret : Z)
| Close (sd : Z).

(** What the operating system is going to answer.  Each call below is
    made at most once by either program, so one field per call is a
    complete description. *)
Record Os : Type := {
  os_socket_ok : bool;
  os_setsockopt_ok : bool;
  os_bind_ok : bool;
  os_listen_ok : bool;
  os_accept_ok : bool;
  os_connect_ok : bool;
  os_send_ok : bool;
  (** [None]: [recv] fails; [Some d]: [d] is what the peer's byte stream
      holds when [recv] returns ([[]] when the peer has closed). *)
  os_recv : option bytes;
  os_peer_addr : string;          (* inet_ntoa of the accepted peer *)
  os_peer_port : Z;               (* ntohs of the accepted peer's port *)
  os_strerror : string;           (* the text perror appends *)
  os_indeterminate : bytes        (* what uninitialised arrays hold *)
}.

Record World : Type := {
  w_os : Os;
  w_stdin : bytes;                (* input not read yet *)
  w_stdout : list string;         (* one entry per printf *)
  w_stderr : list string;
  w_fds : list Z;                 (* open descriptors *)
  w_trace : list syscall;         (* system calls, oldest first *)
  w_sent : bytes;                 (* bytes put on the connection *)
  w_received : bytes              (* bytes taken off the connection *)
}.

(** ** The monad: state, [exit], and undefined behaviour *)

Inductive result (A : Type) : Type :=
| Ret (a : A)
| Exit (status : Z)
| Undefined.
Arguments Ret {A} a.
Arguments Exit {A} status.
Arguments Undefined {A}.

Definition M (A : Type) : Type := World -> result A * World.

Definition ret {A} (a : A) : M A := fun w => (Ret a, w).

Definition bind {A B} (m : M A) (k : A -> M B) : M B :=
  fun w => match m w with
           | (Ret a, w') => k a w'
           | (Exit s, w') => (Exit s, w')
           | (Undefined, w') => (Undefined, w')
           end.

Declare Scope prog_scope.
Delimit Scope prog_scope with prog.
Notation "x <- m ;; k" := (bind m (fun x => k))
  (at level 100, m at next level, right associativity) : prog_scope.
Notation "' ( x , y ) <- m ;; k" := (bind m (fun p => let '(x, y) := p in k))
  (at level 100, m at next level, x name, y name, right associativity) : prog_scope.
Notation "m ;; k" := (bind m (fun _ => k))
  (at level 100, right associativity) : prog_scope.
Local Open Scope prog_scope.

Definition exit {A} (status : Z) : M A := fun w => (Exit status, w).
Definition undefined {A} : M A := fun w => (Undefined, w).

(** A library call that reads an array up to its terminator. *)
Definition defined {A} (o : option A) : M A :=
  match o with Some a => ret a | None => undefined end.

Definition ask {A} (f : Os -> A) : M A := fun w => (Ret (f (w_os w)), w).

Definition printf (s : string) : M unit := fun w =>
  (Ret tt, {| w_os := w_os w; w_stdin := w_stdin w;
              w_stdout := (w_stdout w ++ [s])%list; w_stderr := w_stderr w;
              w_fds := w_fds w; w_trace := w_trace w;
              w_sent := w_sent w; w_received := w_received w |}).

Definition fprintf_stderr (s : string) : M unit := fun w =>
  (Ret tt, {| w_os := w_os w; w_stdin := w_stdin w;
              w_stdout := w_stdout w; w_stderr := (w_stderr w ++ [s])%list;
              w_fds := w_fds w; w_trace := w_trace w;
              w_sent := w_sent w; w_received := w_received w |}).

Definition perror (s : string) : M unit :=
  e <- ask os_strerror ;;
  fprintf_stderr (s ++ ": " ++ e ++ String NL "").

Definition log (c : syscall) : M unit := fun w =>
  (Ret tt, {| w_os := w_os w; w_stdin := w_stdin w;
              w_stdout := w_stdout w; w_stderr := w_stderr w;
              w_fds := w_fds w; w_trace := (w_trace w ++ [c])%list;
              w_sent := w_sent w; w_received := w_received w |}).

Definition set_fds (f : list Z -> list Z) : M unit := fun w =>
  (Ret tt, {| w_os := w_os w; w_stdin := w_stdin w;
              w_stdout := w_stdout w; w_stderr := w_stderr w;
              w_fds := f (w_fds w); w_trace := w_trace w;
              w_sent := w_sent w; w_received := w_received w |}).

(** An array with automatic storage and no initialiser. *)
Definition uninitialised (n : nat) : M bytes :=
  g <- ask os_indeterminate ;;
  ret (firstn n (g ++ repeat NUL n)%list).

Definition endl : string := String NL "".

(** ** The C library and the system calls *)

(** [strcpy(dest, src)] writes the characters of [src] and a null byte,
    however long [dest] is: past the end of [dest] the behaviour is
    undefined. *)
Definition strcpy (dest : bytes) (src : string) : M bytes :=
  if (List.length (literal src) <=? List.length dest)%nat
  then ret (overwrite dest (literal src))
  else undefined.

(** [memset(a, 0, n)]. *)
Definition memset0 (a : bytes) (n : nat) : M bytes :=
  if (n <=? List.length a)%nat then ret (overwrite a (repeat NUL n))
  else undefined.

(** [a[i] = c], undefined outside the array. *)
Definition assign (a : bytes) (i : nat) (c : byte) : M bytes :=
  if (i <? List.length a)%nat then ret (store a i c) else undefined.

(** The characters [fgets] takes from the input: at most [k], up to and
    including the first newline. *)
Fixpoint read_line (k : nat) (inp : bytes) : bytes * bytes :=
  match k, inp with
  | S k', c :: r =>
      if Ascii.eqb c NL then ([c], r)
      else let (l, rest) := read_line k' r in (c :: l, rest)
  | _, _ => ([], inp)
  end.

Definition set_stdin (rest : bytes) : M unit := fun w =>
  (Ret tt, {| w_os := w_os w; w_stdin := rest;
              w_stdout := w_stdout w; w_stderr := w_stderr w;
              w_fds := w_fds w; w_trace := w_trace w;
              w_sent := w_sent w; w_received := w_received w |}).

(** [fgets(buffer, n, stdin)].  At end of file nothing is stored (and
    NULL, which no caller looks at, is returned). *)
Definition fgets (buffer : bytes) (n : nat) : M bytes := fun w =>
  match w_stdin w with
  | [] => (Ret buffer, w)
  | _ =>
      let (l, rest) := read_line (n - 1) (w_stdin w) in
      if (List.length l + 1 <=? List.length buffer)%nat then
        (Ret (overwrite buffer (l ++ [NUL])%list), snd (set_stdin rest w))
      else (Undefined, w)
  end.

Definition fd_open (fds : list Z) (fd : Z) : bool := existsb (Z.eqb fd) fds.

(** A new descriptor is the lowest number that is not open. *)
Definition lowest_free (fds : list Z) : Z :=
  match find (fun k => negb (fd_open fds k))
             (map Z.of_nat (seq 0 (S (List.length fds)))) with
  | Some k => k
  | None => Z.of_nat (S (List.length fds))
  end.

Definition get_fds : M (list Z) := fun w => (Ret (w_fds w), w).

Definition new_fd : M Z :=
  fds <- get_fds ;;
  let sd := lowest_free fds in
  set_fds (cons sd) ;;
  ret sd.

Definition put_on_wire (data : bytes) : M unit := fun w =>
  (Ret tt, {| w_os := w_os w; w_stdin := w_stdin w;
              w_stdout := w_stdout w; w_stderr := w_stderr w;
              w_fds := w_fds w; w_trace := w_trace w;
              w_sent := (w_sent w ++ data)%list; w_received := w_received w |}).

Definition take_off_wire (data : bytes) : M unit := fun w =>
  (Ret tt, {| w_os := w_os w; w_stdin := w_stdin w;
              w_stdout := w_stdout w; w_stderr := w_stderr w;
              w_fds := w_fds w; w_trace := w_trace w;
              w_sent := w_sent w; w_received := (w_received w ++ data)%list |}).

Definition status_of (ok : bool) : Z := if ok then 0 else -1.

Definition socket : M Z :=
  ok <- ask os_socket_ok ;;
  sd <- (if ok then new_fd else ret (-1)) ;;
  log (Socket sd) ;;
  ret sd.

Definition setsockopt (sd : Z) : M Z :=
  ok <- ask os_setsockopt_ok ;;
  log (Setsockopt sd (status_of ok)) ;;
  ret (status_of ok).

Definition bind_ (sd port : Z) : M Z :=
  ok <- ask os_bind_ok ;;
  log (Bind sd port (status_of ok)) ;;
  ret (status_of ok).

Definition listen (sd backlog : Z) : M Z :=
  ok <- ask os_listen_ok ;;
  log (Listen sd backlog (status_of ok)) ;;
  ret (status_of ok).

Definition accept (sd : Z) : M Z :=
  ok <- ask os_accept_ok ;;
  new_sd <- (if ok then new_fd else ret (-1)) ;;
  log (Accept sd new_sd) ;;
  ret new_sd.

Definition connect (sd : Z) (addr : string) (port : Z) : M Z :=
  ok <- ask os_connect_ok ;;
  log (Connect sd addr port (status_of ok)) ;;
  ret (status_of ok).

(** [send(sd, data, len, 0)], [data] being the [len] bytes handed over: a
    successful call puts all of them on the connection. *)
Definition send (sd : Z) (data : bytes) : M Z :=
  ok <- ask os_send_ok ;;
  let rc := if ok then Z.of_nat (List.length data) else -1 in
  (if ok then put_on_wire data else ret tt) ;;
  log (Send sd data rc) ;;
  ret rc.

(** [recv(sd, buffer, len, 0)]: at most [len] of the pending bytes are
    copied to the start of [buffer]; a copy that does not fit in the array
    is undefined. *)
Definition recv (sd : Z) (buffer : bytes) (len : nat) : M (Z * bytes) :=
  pending <- ask os_recv ;;
  match pending with
  | None => log (Recv sd len (-1)) ;; ret (-1, buffer)
  | Some d =>
      let got := firstn len d in
      if (List.length got <=? List.length buffer)%nat then
        take_off_wire got ;;
        log (Recv sd len (Z.of_nat (List.length got))) ;;
        ret (Z.of_nat (List.length got), overwrite buffer got)
      else undefined
  end.

Definition close (sd : Z) : M unit :=
  set_fds (List.filter (fun fd => negb (Z.eqb fd sd))) ;;
  log (Close sd).

(** How a process ends: with an exit status, or in undefined
    behaviour. *)
Inductive outcome : Type :=
| Exited (status : Z)
| Goes_wrong.

Definition run (main : M Z) (w : World) : outcome * World :=
  match main w with
  | (Ret v, w') => (Exited v, w')
  | (Exit s, w') => (Exited s, w')
  | (Undefined, w') => (Goes_wrong, w')
  end.

(** ** client.c *)

Module Client.

Definition BUFFER_SIZE : Z := 100.

Definition parse_arguments (argc : Z) (argv : list string) (serverIP : bytes)
  : M (bytes * Z) :=
  (if argc <? 3 then
     fprintf_stderr ("usage is: client <ipaddr> <portnumber>" ++ endl) ;;
     exit 1
   else ret tt) ;;
  serverIP <- strcpy serverIP (nth 1 argv "") ;;
  let port := to_int (strtol (nth 2 argv "")) in
  (if (port <=? 0) || (port >? 65535) then
     fprintf_stderr ("Error: Invalid port number '" ++ nth 2 argv "" ++
                     "'. Must be between 1 and 65535." ++ endl) ;;
     exit 1
   else ret tt) ;;
  ret (serverIP, port).

Definition create_client_socket (serverIP : bytes) (port : Z) : M Z :=
  sd <- socket ;;
  (if sd <? 0 then perror "Error: socket() failed" ;; exit 1 else ret tt) ;;
  addr <- defined (cstring serverIP) ;;
  rc <- connect sd (text addr) port ;;
  (if rc <? 0 then
     perror "Error: connect() failed" ;; close sd ;; exit 1
   else ret tt) ;;
  printf ("Connected to server at " ++ text addr ++ ":" ++ dec port ++ endl) ;;
  ret sd.

Definition send_message (sd : Z) : M Z :=
  buffer <- uninitialised (Z.to_nat BUFFER_SIZE) ;;
  printf "Enter a message to send: " ;;
  buffer <- fgets buffer (Z.to_nat BUFFER_SIZE) ;;
  i <- defined (strcspn buffer [NL]) ;;
  buffer <- assign buffer i NUL ;;
  s <- defined (cstring buffer) ;;
  printf ("You are sending '" ++ text s ++ "'" ++ endl) ;;
  n <- defined (strlen buffer) ;;
  printf ("The length of the string is " ++ dec (Z.of_nat n) ++ " bytes" ++ endl) ;;
  rc <- send sd (firstn (n + 1) buffer) ;;
  if rc <? 0 then
    perror "Error: send() failed" ;; ret (-1)
  else
    printf ("Sent " ++ dec rc ++ " bytes to the server" ++ endl) ;; ret 0.

(** The final contents of the local array are returned next to the
    function's value, so that they can be spoken about. *)
Definition receive_response (sd : Z) : M (Z * bytes) :=
  buffer <- uninitialised (Z.to_nat BUFFER_SIZE) ;;
  buffer <- memset0 buffer (Z.to_nat BUFFER_SIZE) ;;
  '(rc, buffer) <- recv sd buffer (to_size_t (BUFFER_SIZE - 1)) ;;
  if rc <? 0 then
    perror "Error: recv() failed" ;; ret (-1, buffer)
  else if rc =? 0 then
    printf ("Server closed the connection without responding." ++ endl) ;;
    ret (-1, buffer)
  else
    buffer <- assign buffer (Z.to_nat rc) NUL ;;
    s <- defined (cstring buffer) ;;
    printf ("Server response: " ++ text s ++ endl) ;;
    ret (0, buffer).

Definition cleanup (sd : Z) : M unit :=
  (if sd >=? 0 then close sd else ret tt) ;;
  printf ("Connection closed." ++ endl).

Definition main (argv : list string) : M Z :=
  let argc := Z.of_nat (List.length argv) in
  serverIP <- uninitialised 29 ;;
  '(serverIP, port) <- parse_arguments argc argv serverIP ;;
  sd <- create_client_socket serverIP port ;;
  r <- send_message sd ;;
  (if r =? 0 then receive_response sd ;; ret tt else ret tt) ;;
  cleanup sd ;;
  ret 0.

End Client.

(** ** server.c *)

Module Server.

Definition BUFFER_SIZE : Z := 100.
Definition BACKLOG : Z := 5.
Definition RESPONSE : string := "Server acknowledged your message!".

Definition parse_arguments (argc : Z) (argv : list string) : M Z :=
  (if argc <? 2 then
     fprintf_stderr ("usage is: server <portnumber>" ++ endl) ;;
     exit 1
   else ret tt) ;;
  let port := atoi (nth 1 argv "") in
  (if (port <=? 0) || (port >? 65535) then
     fprintf_stderr ("Error: Invalid port number '" ++ nth 1 argv "" ++
                     "'. Must be between 1 and 65535." ++ endl) ;;
     exit 1
   else ret tt) ;;
  ret port.

Definition create_server_socket (port : Z) : M Z :=
  sd <- socket ;;
  (if sd <? 0 then perror "Error: socket() failed" ;; exit 1 else ret tt) ;;
  rc <- setsockopt sd ;;
  (if rc <? 0 then
     perror "Error: setsockopt() failed" ;; close sd ;; exit 1
   else ret tt) ;;
  rc <- bind_ sd port ;;
  (if rc <? 0 then
     perror "Error: bind() failed" ;; close sd ;; exit 1
   else ret tt) ;;
  rc <- listen sd BACKLOG ;;
  (if rc <? 0 then
     perror "Error: listen() failed" ;; close sd ;; exit 1
   else ret tt) ;;
  printf ("Server is listening on port " ++ dec port ++ "..." ++ endl) ;;
  ret sd.

Definition accept_client (server_sd : Z) : M Z :=
  printf ("Waiting for a client to connect..." ++ endl) ;;
  new_sd <- accept server_sd ;;
  (if new_sd <? 0 then
     perror "Error: accept() failed" ;; close server_sd ;; exit 1
   else ret tt) ;;
  addr <- ask os_peer_addr ;;
  peer_port <- ask os_peer_port ;;
  printf ("Client connected successfully from " ++ addr ++ ":" ++
          dec peer_port ++ endl) ;;
  ret new_sd.

(** [buffer] is the caller's array; its new contents are returned next
    to the function's value. *)
Definition receive_message (client_sd : Z) (buffer : bytes) (buf_size : Z)
  : M (Z * bytes) :=
  buffer <- memset0 buffer (to_size_t buf_size) ;;
  '(rc, buffer) <- recv client_sd buffer (to_size_t (buf_size - 1)) ;;
  if rc <? 0 then
    perror "Error: recv() failed" ;; ret (-1, buffer)
  else if rc =? 0 then
    printf ("Client disconnected before sending data." ++ endl) ;;
    ret (0, buffer)
  else
    buffer <- assign buffer (Z.to_nat rc) NUL ;;
    printf ("Received " ++ dec rc ++ " bytes" ++ endl) ;;
    s <- defined (cstring buffer) ;;
    printf ("Message: " ++ text s ++ endl) ;;
    ret (rc, buffer).

Definition send_response (client_sd : Z) : M Z :=
  let response := literal RESPONSE in
  n <- defined (strlen response) ;;
  rc <- send client_sd (firstn (n + 1) response) ;;
  if rc <? 0 then
    perror "Error: send() failed" ;; ret (-1)
  else
    printf ("Response sent: " ++ RESPONSE ++ endl) ;; ret 0.

Definition cleanup (server_sd client_sd : Z) : M unit :=
  (if client_sd >=? 0 then close client_sd else ret tt) ;;
  (if server_sd >=? 0 then close server_sd else ret tt) ;;
  printf ("Server shut down. All sockets closed." ++ endl).

Definition main (argv : list string) : M Z :=
  let argc := Z.of_nat (List.length argv) in
  buffer <- uninitialised (Z.to_nat BUFFER_SIZE) ;;
  port <- parse_arguments argc argv ;;
  server_sd <- create_server_socket port ;;
  client_sd <- accept_client server_sd ;;
  '(bytes, buffer) <- receive_message client_sd buffer BUFFER_SIZE ;;
  (if bytes >? 0 then send_response client_sd ;; ret tt else ret tt) ;;
  cleanup server_sd client_sd ;;
  ret 0.

End Server.

(** ** Concrete worlds *)

Definition friendly_os (pending : option bytes) : Os :=
  {| os_socket_ok := true; os_setsockopt_ok := true; os_bind_ok := true;
     os_listen_ok := true; os_accept_ok := true; os_connect_ok := true;
     os_send_ok := true; os_recv := pending;
     os_peer_addr := "127.0.0.1"; os_peer_port := 50000;
     os_strerror := "Input/output error"; os_indeterminate := chars "?!" |}.

Definition fresh_world (os : Os) (input : bytes) : World :=
  {| w_os := os; w_stdin := input; w_stdout := []; w_stderr := [];
     w_fds := [0; 1; 2]; w_trace := []; w_sent := []; w_received := [] |}.

Definition hello_line : bytes := (chars "hello" ++ [NL])%list.

(** ** Notions used in the statements *)

(** [keeps proj m]: whatever [m] does, and however it ends, the [proj]
    part of the world is as it was. *)
Definition keeps {A B} (proj : World -> B) (m : M A) : Prop :=
  forall w, proj (snd (m w)) = proj w.

(** The descriptor table once [sd] is closed. *)
Definition without (sd : Z) (fds : list Z) : list Z :=
  List.filter (fun fd => negb (Z.eqb fd sd)) fds.

(** [m] never calls [exit]. *)
Definition no_exit {A} (m : M A) : Prop := forall w s, fst (m w) <> Exit s.

(** Decimal digits. *)
Definition is_digit (c : byte) : bool :=
  match digit_of c with Some _ => true | None => false end.

(** No decimal number at the start of the argument, once white space and
    a sign are passed: [strtol] and [atoi] convert nothing. *)
Definition no_number (s : string) : bool :=
  match skip_spaces (chars s) with
  | c :: r =>
      let after_sign := if Ascii.eqb c "-" || Ascii.eqb c "+" then r else c :: r in
      match after_sign with
      | d :: _ => negb (is_digit d)
      | [] => true
      end
  | [] => true
  end.

(** The argument is a decimal numeral and nothing else. *)
Definition is_decimal (s : string) : bool :=
  match chars s with
  | [] => false
  | l => forallb is_digit l
  end.

(** The line both [parse_arguments] print for a rejected port. *)
Definition invalid_port_message (arg : string) : string :=
  "Error: Invalid port number '" ++ arg ++ "'. Must be between 1 and 65535." ++ endl.

(** The test of both [parse_arguments] on the converted port. *)
Definition bad_port (arg : string) : bool :=
  (atoi arg <=? 0) || (atoi arg >? 65535).

(** The characters before the first null byte, for an array that has
    one. *)
Fixpoint c_str (a : bytes) : bytes :=
  match a with
  | [] => []
  | c :: r => if is_nul c then [] else c :: c_str r
  end.

(** The array after [memset], [recv] of [got] and the assignment of the
    terminator. *)
Definition received_buffer (n : nat) (got : bytes) : bytes :=
  (got ++ repeat NUL (n - List.length got))%list.


(** The calls that move bytes over the connection. *)
Definition is_io (c : syscall) : bool :=
  match c with
  | Send _ _ _ | Recv _ _ _ => true
  | _ => false
  end.

(** The [send] and [recv] calls made so far. *)
Definition io (w : World) : list syscall := List.filter is_io (w_trace w).

(** The set-up steps of the server return, or end the process with
    status 1. *)
Definition returns_or_exits_1 {A} (m : M A) : Prop :=
  forall w, match fst (m w) with
            | Ret _ => True
            | Exit s => s = 1
            | Undefined => False
            end.

(** The three ways a run of the server can go, seen from its
    connection: it exits with status 1 before any [recv]; or its one
    [recv] fails or finds nothing and it exits with status 0 without
    a [send]; or the [recv] returns [rc > 0] and one [send] of the
    response follows. *)
Inductive server_exchange (w : World) (o : outcome) (w' : World) : Prop :=
| set_up_failed :
    o = Exited 1 -> io w' = io w -> w_sent w' = w_sent w ->
    server_exchange w o w'
| nothing_received sd rc :
    o = Exited 0 -> rc <= 0 ->
    io w' = (io w ++ [Recv sd 99 rc])%list -> w_sent w' = w_sent w ->
    server_exchange w o w'
| answered sd rc :
    o = Exited 0 -> 0 < rc ->
    io w' = (io w ++ [Recv sd 99 rc; Send sd (literal Server.RESPONSE) 34])%list ->
    w_sent w' = (w_sent w ++ literal Server.RESPONSE)%list ->
    server_exchange w o w'
| answer_failed sd rc :
    o = Exited 0 -> 0 < rc ->
    io w' = (io w ++ [Recv sd 99 rc; Send sd (literal Server.RESPONSE) (-1)])%list ->
    w_sent w' = w_sent w ->
    server_exchange w o w'.

(** A character of a line of text: neither the terminator nor the end
    of the line. *)
Definition plain (c : byte) : bool := negb (is_nul c) && negb (Ascii.eqb c NL).

(** Every system call that can fail without a peer succeeds. *)
Definition all_ok (os : Os) : bool :=
  os_socket_ok os && os_setsockopt_ok os && os_bind_ok os && os_listen_ok os
  && os_accept_ok os && os_connect_ok os && os_send_ok os.

(** Systems in which one call fails. *)
Definition send_fails : Os :=
  {| os_socket_ok := true; os_setsockopt_ok := true; os_bind_ok := true;
     os_listen_ok := true; os_accept_ok := true; os_connect_ok := true;
     os_send_ok := false; os_recv := None;
     os_peer_addr := "127.0.0.1"; os_peer_port := 50000;
     os_strerror := "Broken pipe"; os_indeterminate := [] |}.

Definition accept_fails : Os :=
  {| os_socket_ok := true; os_setsockopt_ok := true; os_bind_ok := true;
     os_listen_ok := true; os_accept_ok := false; os_connect_ok := true;
     os_send_ok := true; os_recv := None;
     os_peer_addr := ""; os_peer_port := 0;
     os_strerror := "Too many open files"; os_indeterminate := [] |}.

(** ** Notions used in the further properties *)

(** The calls by which the server gets a listening socket [s]. *)
Definition set_up (s port : Z) : list syscall :=
  [Socket s; Setsockopt s 0; Bind s port 0; Listen s Server.BACKLOG 0].

(** The runs of the server: how the process ends and the system calls
    it makes, by the first thing that fails.  [s] is the listening
    socket and [c] the accepted one. *)
Inductive server_run (os : Os) (argv : list string) (s c : Z)
  : outcome -> list syscall -> Prop :=
| rejected_arguments :
    (Z.of_nat (List.length argv) <? 2) || bad_port (nth 1 argv "") = true ->
    server_run os argv s c (Exited 1) []
| socket_failed :
    (Z.of_nat (List.length argv) <? 2) || bad_port (nth 1 argv "") = false ->
    os_socket_ok os = false ->
    server_run os argv s c (Exited 1) [Socket (-1)]
| setsockopt_failed :
    (Z.of_nat (List.length argv) <? 2) || bad_port (nth 1 argv "") = false ->
    os_socket_ok os = true -> os_setsockopt_ok os = false ->
    server_run os argv s c (Exited 1) [Socket s; Setsockopt s (-1); Close s]
| bind_failed :
    (Z.of_nat (List.length argv) <? 2) || bad_port (nth 1 argv "") = false ->
    os_socket_ok os = true -> os_setsockopt_ok os = true ->
    os_bind_ok os = false ->
    server_run os argv s c (Exited 1)
      [Socket s; Setsockopt s 0; Bind s (atoi (nth 1 argv "")) (-1); Close s]
| listen_failed :
    (Z.of_nat (List.length argv) <? 2) || bad_port (nth 1 argv "") = false ->
    os_socket_ok os = true -> os_setsockopt_ok os = true ->
    os_bind_ok os = true -> os_listen_ok os = false ->
    server_run os argv s c (Exited 1)
      [Socket s; Setsockopt s 0; Bind s (atoi (nth 1 argv "")) 0;
       Listen s Server.BACKLOG (-1); Close s]
| accept_failed :
    (Z.of_nat (List.length argv) <? 2) || bad_port (nth 1 argv "") = false ->
    os_socket_ok os = true -> os_setsockopt_ok os = true ->
    os_bind_ok os = true -> os_listen_ok os = true ->
    os_accept_ok os = false ->
    server_run os argv s c (Exited 1)
      (set_up s (atoi (nth 1 argv "")) ++ [Accept s (-1); Close s])
| no_message rc :
    (Z.of_nat (List.length argv) <? 2) || bad_port (nth 1 argv "") = false ->
    os_socket_ok os = true -> os_setsockopt_ok os = true ->
    os_bind_ok os = true -> os_listen_ok os = true ->
    os_accept_ok os = true ->
    rc <= 0 ->
    server_run os argv s c (Exited 0)
      (set_up s (atoi (nth 1 argv "")) ++
       [Accept s c; Recv c 99 rc; Close c; Close s])
| message rc :
    (Z.of_nat (List.length argv) <? 2) || bad_port (nth 1 argv "") = false ->
    os_socket_ok os = true -> os_setsockopt_ok os = true ->
    os_bind_ok os = true -> os_listen_ok os = true ->
    os_accept_ok os = true ->
    0 < rc ->
    server_run os argv s c (Exited 0)
      (set_up s (atoi (nth 1 argv "")) ++
       [Accept s c; Recv c 99 rc;
        Send c (literal Server.RESPONSE) (if os_send_ok os then 34 else -1);
        Close c; Close s]).

(** [c] hands out the descriptor [sd]; [c] closes it. *)
Definition opens (sd : Z) (c : syscall) : bool :=
  match c with
  | Socket r | Accept _ r => r =? sd
  | _ => false
  end.

Definition closes (sd : Z) (c : syscall) : bool :=
  match c with
  | Close x => x =? sd
  | _ => false
  end.

(** The longest prefix of [l] without a null byte or a newline. *)
Fixpoint plain_prefix (l : bytes) : bytes :=
  match l with
  | c :: r => if plain c then c :: plain_prefix r else []
  | [] => []
  end.

(** The array of [send_message] when [fgets] has returned: the line
    read and its terminator, over what the array held before; at end of
    input, what the array held before. *)
Definition line_buffer (w : World) : bytes :=
  let a := firstn 100 (os_indeterminate (w_os w) ++ repeat NUL 100)%list in
  match w_stdin w with
  | [] => a
  | _ => overwrite a (fst (read_line 99 (w_stdin w)) ++ [NUL])%list
  end.

(** The input [fgets] leaves unread. *)
Definition unread (w : World) : bytes :=
  match w_stdin w with
  | [] => []
  | _ => snd (read_line 99 (w_stdin w))
  end.

(** The string [connect] is given: the characters of the address
    argument (up to a null byte, which an argument does not hold). *)
Definition address_of (argv : list string) : string :=
  text (c_str (literal (nth 1 argv ""))).

(** The arguments pass [parse_arguments] of the client. *)
Definition client_arguments_ok (argv : list string) : bool :=
  negb (Z.of_nat (List.length argv) <? 3)
  && (String.length (nth 1 argv "") <=? 28)%nat
  && negb (bad_port (nth 2 argv "")).

(** The runs of the client: how the process ends and the system calls
    it makes.  [s] is its socket and [w] the world it starts in. *)
Inductive client_run (w : World) (argv : list string) (s : Z)
  : outcome -> list syscall -> Prop :=
| usage_error :
    (Z.of_nat (List.length argv) <? 3) = true ->
    client_run w argv s (Exited 1) []
| address_overflow :
    (Z.of_nat (List.length argv) <? 3) = false ->
    (28 < String.length (nth 1 argv ""))%nat ->
    client_run w argv s Goes_wrong []
| port_rejected :
    (Z.of_nat (List.length argv) <? 3) = false ->
    (String.length (nth 1 argv "") <= 28)%nat ->
    bad_port (nth 2 argv "") = true ->
    client_run w argv s (Exited 1) []
| client_socket_failed :
    client_arguments_ok argv = true ->
    os_socket_ok (w_os w) = false ->
    client_run w argv s (Exited 1) [Socket (-1)]
| connect_failed :
    client_arguments_ok argv = true ->
    os_socket_ok (w_os w) = true -> os_connect_ok (w_os w) = false ->
    client_run w argv s (Exited 1)
      [Socket s; Connect s (address_of argv) (atoi (nth 2 argv "")) (-1); Close s]
| no_line :
    client_arguments_ok argv = true ->
    os_socket_ok (w_os w) = true -> os_connect_ok (w_os w) = true ->
    forallb plain (line_buffer w) = true ->
    client_run w argv s Goes_wrong
      [Socket s; Connect s (address_of argv) (atoi (nth 2 argv "")) 0]
| send_failed :
    client_arguments_ok argv = true ->
    os_socket_ok (w_os w) = true -> os_connect_ok (w_os w) = true ->
    forallb plain (line_buffer w) = false ->
    os_send_ok (w_os w) = false ->
    client_run w argv s (Exited 0)
      [Socket s; Connect s (address_of argv) (atoi (nth 2 argv "")) 0;
       Send s (plain_prefix (line_buffer w) ++ [NUL])%list (-1); Close s]
| exchanged rc :
    client_arguments_ok argv = true ->
    os_socket_ok (w_os w) = true -> os_connect_ok (w_os w) = true ->
    forallb plain (line_buffer w) = false ->
    os_send_ok (w_os w) = true ->
    rc = match os_recv (w_os w) with
         | Some d => Z.of_nat (List.length (firstn 99 d))
         | None => -1
         end ->
    client_run w argv s (Exited 0)
      [Socket s; Connect s (address_of argv) (atoi (nth 2 argv "")) 0;
       Send s (plain_prefix (line_buffer w) ++ [NUL])%list
         (Z.of_nat (List.length (plain_prefix (line_buffer w)) + 1));
       Recv s 99 rc; Close s].

(** What the client prints about the answer, [pending] being what its
    [recv] finds. *)
Definition response_lines (pending : option bytes) : list string :=
  match pending with
  | None => []
  | Some d =>
      if Z.of_nat (List.length (firstn 99 d)) =? 0
      then ["Server closed the connection without responding." ++ endl]
      else ["Server response: " ++ text (c_str (firstn 99 d ++ [NUL])%list) ++ endl]
  end.

(** The console of a client that connects and sends the message [m]. *)
Definition client_console (argv : list string) (m : bytes) (pending : option bytes)
  : list string :=
  let connected :=
    "Connected to server at " ++ address_of argv ++ ":" ++
    dec (atoi (nth 2 argv "")) ++ endl in
  let sending := "You are sending '" ++ text m ++ "'" ++ endl in
  let length_is :=
    "The length of the string is " ++ dec (Z.of_nat (List.length m)) ++
    " bytes" ++ endl in
  let sent :=
    "Sent " ++ dec (Z.of_nat (List.length m + 1)) ++ " bytes to the server" ++ endl in
  ([connected; "Enter a message to send: "; sending; length_is; sent]
   ++ response_lines pending ++ [("Connection closed." ++ endl)%string])%list.

(** What the server prints about the message, [pending] being what its
    [recv] finds. *)
Definition message_lines (pending : option bytes) : list string :=
  match pending with
  | None => []
  | Some d =>
      if Z.of_nat (List.length (firstn 99 d)) =? 0
      then ["Client disconnected before sending data." ++ endl]
      else ["Received " ++ dec (Z.of_nat (List.length (firstn 99 d))) ++
            " bytes" ++ endl;
            "Message: " ++ text (c_str (firstn 99 d ++ [NUL])%list) ++ endl;
            "Response sent: " ++ Server.RESPONSE ++ endl]
  end.

(** The console of a server that accepts a client. *)
Definition server_console (os : Os) (argv : list string) : list string :=
  let listening :=
    "Server is listening on port " ++ dec (atoi (nth 1 argv "")) ++ "..." ++ endl in
  let connected :=
    "Client connected successfully from " ++ os_peer_addr os ++ ":" ++
    dec (os_peer_port os) ++ endl in
  ([listening; ("Waiting for a client to connect..." ++ endl)%string; connected]
   ++ message_lines (os_recv os)
   ++ [("Server shut down. All sockets closed." ++ endl)%string])%list.

(** The line [perror] prints. *)
Definition perror_line (os : Os) (what : string) : string :=
  what ++ ": " ++ os_strerror os ++ endl.

(** What a run of the server writes on standard error: one line for the
    first thing that fails, if any. *)
Definition server_errors (os : Os) (argv : list string) : list string :=
  if Z.of_nat (List.length argv) <? 2 then ["usage is: server <portnumber>" ++ endl]
  else if bad_port (nth 1 argv "") then [invalid_port_message (nth 1 argv "")]
  else if negb (os_socket_ok os) then [perror_line os "Error: socket() failed"]
  else if negb (os_setsockopt_ok os) then [perror_line os "Error: setsockopt() failed"]
  else if negb (os_bind_ok os) then [perror_line os "Error: bind() failed"]
  else if negb (os_listen_ok os) then [perror_line os "Error: listen() failed"]
  else if negb (os_accept_ok os) then [perror_line os "Error: accept() failed"]
  else match os_recv os with
       | None => [perror_line os "Error: recv() failed"]
       | Some d =>
           if negb (Z.of_nat (List.length (firstn 99 d)) =? 0) && negb (os_send_ok os)
           then [perror_line os "Error: send() failed"]
           else []
       end.

(** What a run of the client writes on standard error. *)
Definition client_errors (w : World) (argv : list string) : list string :=
  let os := w_os w in
  if Z.of_nat (List.length argv) <? 3
  then ["usage is: client <ipaddr> <portnumber>" ++ endl]
  else if negb (String.length (nth 1 argv "") <=? 28)%nat then []
  else if bad_port (nth 2 argv "") then [invalid_port_message (nth 2 argv "")]
  else if negb (os_socket_ok os) then [perror_line os "Error: socket() failed"]
  else if negb (os_connect_ok os) then [perror_line os "Error: connect() failed"]
  else if forallb plain (line_buffer w) then []
  else if negb (os_send_ok os) then [perror_line os "Error: send() failed"]
  else match os_recv os with
       | None => [perror_line os "Error: recv() failed"]
       | Some _ => []
       end.

(** * Properties *)

(** ** Descriptors *)

Lemma fd_open_In (fds : list Z) (fd : Z) : fd_open fds fd = true <-> In fd fds.
Proof.
  unfold fd_open. rewrite existsb_exists. split.
  - intros [x [Hx E]]. apply Z.eqb_eq in E. now subst.
  - intros H. exists fd. split; [assumption | apply Z.eqb_refl].
Qed.

Lemma lowest_free_spec (fds : list Z) :
  0 <= lowest_free fds /\ ~ In (lowest_free fds) fds.
Proof.
  unfold lowest_free.
  destruct (find _ _) as [k|] eqn:F.
  - apply find_some in F. destruct F as [Hin Hfree].
    apply in_map_iff in Hin. destruct Hin as [n [<- _]].
    split; [lia|]. intros Hopen. apply fd_open_In in Hopen.
    rewrite Hopen in Hfree. discriminate.
  - exfalso.
    assert (Hall : incl (map Z.of_nat (seq 0 (S (List.length fds)))) fds).
    { intros k Hk. apply fd_open_In.
      apply (find_none _ _ F) in Hk. now apply negb_false_iff in Hk. }
    apply NoDup_incl_length in Hall.
    + rewrite length_map, length_seq in Hall. lia.
    + apply Injective_map_NoDup; [|apply seq_NoDup].
      intros a b. apply Nat2Z.inj.
Qed.

Lemma lowest_free_not_negative (fds : list Z) : (lowest_free fds <? 0) = false.
Proof. apply Z.ltb_ge, lowest_free_spec. Qed.

Lemma filter_absent (fds : list Z) (sd : Z) :
  ~ In sd fds -> List.filter (fun fd => negb (Z.eqb fd sd)) fds = fds.
Proof.
  intros H. apply forallb_filter_id, forallb_forall.
  intros x Hx. apply negb_true_iff, Z.eqb_neq. intros ->. contradiction.
Qed.

(** Closing a descriptor that was just handed out gives the table back. *)
Lemma close_new (fds : list Z) :
  List.filter (fun fd => negb (Z.eqb fd (lowest_free fds))) (lowest_free fds :: fds) = fds.
Proof.
  simpl. rewrite Z.eqb_refl. simpl.
  apply filter_absent, lowest_free_spec.
Qed.

(** ** Frames: what a computation leaves alone *)

Lemma keeps_run {A B} (proj : World -> B) (m : M A) w r w' :
  keeps proj m -> m w = (r, w') -> proj w' = proj w.
Proof. intros K E. specialize (K w). now rewrite E in K. Qed.

Section Frame.
Context {B : Type} (proj : World -> B).

Lemma keeps_ret {A} (a : A) : keeps proj (ret a).
Proof. intros w. reflexivity. Qed.

Lemma keeps_exit {A} s : keeps proj (@exit A s).
Proof. intros w. reflexivity. Qed.

Lemma keeps_undefined {A} : keeps proj (@undefined A).
Proof. intros w. reflexivity. Qed.

Lemma keeps_defined {A} (o : option A) : keeps proj (defined o).
Proof. destruct o; intros w; reflexivity. Qed.

Lemma keeps_ask {A} (f : Os -> A) : keeps proj (ask f).
Proof. intros w. reflexivity. Qed.

Lemma keeps_bind {A C} (m : M A) (k : A -> M C) :
  keeps proj m -> (forall a, keeps proj (k a)) -> keeps proj (bind m k).
Proof.
  intros Km Kk w. unfold bind.
  destruct (m w) as [[a | s | ] w1] eqn:E; simpl;
    try (now apply (keeps_run proj m w _ w1 Km E)).
  rewrite Kk. now apply (keeps_run proj m w _ w1 Km E).
Qed.

Lemma keeps_uninitialised n : keeps proj (uninitialised n).
Proof. intros w. reflexivity. Qed.

Lemma keeps_strcpy dest src : keeps proj (strcpy dest src).
Proof. unfold strcpy. destruct (_ <=? _)%nat; intros w; reflexivity. Qed.

Lemma keeps_memset0 a n : keeps proj (memset0 a n).
Proof. unfold memset0. destruct (_ <=? _)%nat; intros w; reflexivity. Qed.

Lemma keeps_assign a i c : keeps proj (assign a i c).
Proof. unfold assign. destruct (_ <? _)%nat; intros w; reflexivity. Qed.
End Frame.

Create HintDb frame.
#[local] Hint Resolve keeps_ret keeps_exit keeps_undefined keeps_defined keeps_ask
  keeps_uninitialised keeps_strcpy keeps_memset0 keeps_assign : frame.

(** Splits a computation along its [bind]s and its tests, and leaves the
    primitive steps to the [frame] hints. *)
Ltac frame :=
  repeat first
    [ solve [auto with frame]
    | apply keeps_bind; [ | intros ]
    | match goal with
      | |- keeps _ (if ?b then _ else _) => destruct b
      | |- keeps _ (match ?o with Some _ => _ | None => _ end) => destruct o
      | |- keeps _ (let '(_, _) := ?p in _) => destruct p
      end ].

(** *** The answers of the operating system are never changed *)

Lemma os_printf s : keeps w_os (printf s).
Proof. intros w. reflexivity. Qed.
Lemma os_fprintf_stderr s : keeps w_os (fprintf_stderr s).
Proof. intros w. reflexivity. Qed.
Lemma os_log c : keeps w_os (log c).
Proof. intros w. reflexivity. Qed.
Lemma os_set_fds f : keeps w_os (set_fds f).
Proof. intros w. reflexivity. Qed.
Lemma os_get_fds : keeps w_os get_fds.
Proof. intros w. reflexivity. Qed.
Lemma os_put_on_wire d : keeps w_os (put_on_wire d).
Proof. intros w. reflexivity. Qed.
Lemma os_take_off_wire d : keeps w_os (take_off_wire d).
Proof. intros w. reflexivity. Qed.
Lemma os_fgets b n : keeps w_os (fgets b n).
Proof.
  intros w. unfold fgets. destruct (w_stdin w); [reflexivity|].
  destruct (read_line _ _). destruct (_ <=? _)%nat; reflexivity.
Qed.
#[local] Hint Resolve os_printf os_fprintf_stderr os_log os_set_fds os_get_fds
  os_put_on_wire os_take_off_wire os_fgets : frame.

Lemma os_perror s : keeps w_os (perror s).
Proof. unfold perror. frame. Qed.
Lemma os_new_fd : keeps w_os new_fd.
Proof. unfold new_fd. frame. Qed.
#[local] Hint Resolve os_perror os_new_fd : frame.

Lemma os_socket : keeps w_os socket.
Proof. unfold socket. frame. Qed.
Lemma os_setsockopt sd : keeps w_os (setsockopt sd).
Proof. unfold setsockopt. frame. Qed.
Lemma os_bind_ sd p : keeps w_os (bind_ sd p).
Proof. unfold bind_. frame. Qed.
Lemma os_listen sd b : keeps w_os (listen sd b).
Proof. unfold listen. frame. Qed.
Lemma os_accept sd : keeps w_os (accept sd).
Proof. unfold accept. frame. Qed.
Lemma os_connect sd a p : keeps w_os (connect sd a p).
Proof. unfold connect. frame. Qed.
Lemma os_send sd d : keeps w_os (send sd d).
Proof. unfold send. frame. Qed.
Lemma os_recv_ sd b n : keeps w_os (recv sd b n).
Proof. unfold recv. frame. Qed.
Lemma os_close sd : keeps w_os (close sd).
Proof. unfold close. frame. Qed.
#[local] Hint Resolve os_socket os_setsockopt os_bind_ os_listen os_accept
  os_connect os_send os_recv_ os_close : frame.

Lemma os_client_parse_arguments argc argv ip :
  keeps w_os (Client.parse_arguments argc argv ip).
Proof. unfold Client.parse_arguments. frame. Qed.
Lemma os_create_client_socket ip port :
  keeps w_os (Client.create_client_socket ip port).
Proof. unfold Client.create_client_socket. frame. Qed.
Lemma os_send_message sd : keeps w_os (Client.send_message sd).
Proof. unfold Client.send_message. frame. Qed.
Lemma os_receive_response sd : keeps w_os (Client.receive_response sd).
Proof. unfold Client.receive_response. frame. Qed.
Lemma os_client_cleanup sd : keeps w_os (Client.cleanup sd).
Proof. unfold Client.cleanup. frame. Qed.

Lemma os_server_parse_arguments argc argv :
  keeps w_os (Server.parse_arguments argc argv).
Proof. unfold Server.parse_arguments. frame. Qed.
Lemma os_create_server_socket port :
  keeps w_os (Server.create_server_socket port).
Proof. unfold Server.create_server_socket. frame. Qed.
Lemma os_accept_client sd : keeps w_os (Server.accept_client sd).
Proof. unfold Server.accept_client. frame. Qed.
Lemma os_receive_message sd b n : keeps w_os (Server.receive_message sd b n).
Proof. unfold Server.receive_message. frame. Qed.
Lemma os_send_response sd : keeps w_os (Server.send_response sd).
Proof. unfold Server.send_response. frame. Qed.
Lemma os_server_cleanup s c : keeps w_os (Server.cleanup s c).
Proof. unfold Server.cleanup. frame. Qed.
#[local] Hint Resolve os_client_parse_arguments os_create_client_socket
  os_send_message os_receive_response os_client_cleanup
  os_server_parse_arguments os_create_server_socket os_accept_client
  os_receive_message os_send_response os_server_cleanup : frame.

(** *** Which steps leave the descriptor table alone *)

Lemma fds_printf s : keeps w_fds (printf s).
Proof. intros w. reflexivity. Qed.
Lemma fds_fprintf_stderr s : keeps w_fds (fprintf_stderr s).
Proof. intros w. reflexivity. Qed.
Lemma fds_log c : keeps w_fds (log c).
Proof. intros w. reflexivity. Qed.
Lemma fds_put_on_wire d : keeps w_fds (put_on_wire d).
Proof. intros w. reflexivity. Qed.
Lemma fds_take_off_wire d : keeps w_fds (take_off_wire d).
Proof. intros w. reflexivity. Qed.
Lemma fds_fgets b n : keeps w_fds (fgets b n).
Proof.
  intros w. unfold fgets. destruct (w_stdin w); [reflexivity|].
  destruct (read_line _ _). destruct (_ <=? _)%nat; reflexivity.
Qed.
#[local] Hint Resolve fds_printf fds_fprintf_stderr fds_log fds_put_on_wire
  fds_take_off_wire fds_fgets : frame.

Lemma fds_perror s : keeps w_fds (perror s).
Proof. unfold perror. frame. Qed.
#[local] Hint Resolve fds_perror : frame.

Lemma fds_setsockopt sd : keeps w_fds (setsockopt sd).
Proof. unfold setsockopt. frame. Qed.
Lemma fds_bind_ sd p : keeps w_fds (bind_ sd p).
Proof. unfold bind_. frame. Qed.
Lemma fds_listen sd b : keeps w_fds (listen sd b).
Proof. unfold listen. frame. Qed.
Lemma fds_connect sd a p : keeps w_fds (connect sd a p).
Proof. unfold connect. frame. Qed.
Lemma fds_send sd d : keeps w_fds (send sd d).
Proof. unfold send. frame. Qed.
Lemma fds_recv sd b n : keeps w_fds (recv sd b n).
Proof. unfold recv. frame. Qed.
#[local] Hint Resolve fds_setsockopt fds_bind_ fds_listen fds_connect
  fds_send fds_recv : frame.

Lemma fds_client_parse_arguments argc argv ip :
  keeps w_fds (Client.parse_arguments argc argv ip).
Proof. unfold Client.parse_arguments. frame. Qed.
Lemma fds_send_message sd : keeps w_fds (Client.send_message sd).
Proof. unfold Client.send_message. frame. Qed.
Lemma fds_receive_response sd : keeps w_fds (Client.receive_response sd).
Proof. unfold Client.receive_response. frame. Qed.
Lemma fds_server_parse_arguments argc argv :
  keeps w_fds (Server.parse_arguments argc argv).
Proof. unfold Server.parse_arguments. frame. Qed.
Lemma fds_receive_message sd b n : keeps w_fds (Server.receive_message sd b n).
Proof. unfold Server.receive_message. frame. Qed.
Lemma fds_send_response sd : keeps w_fds (Server.send_response sd).
Proof. unfold Server.send_response. frame. Qed.

(** *** Opening and closing *)

(** Unfolds the monad and the primitive steps, so that a run on a world
    [w] becomes a case analysis on the answers in [w_os w]. *)
Ltac steps :=
  unfold socket, setsockopt, bind_, listen, accept, connect, close, new_fd,
    get_fds, perror, status_of, bind, ret, exit, undefined, ask, log, set_fds,
    printf, fprintf_stderr;
  simpl.

(** [socket] and the calls that follow it in [create_client_socket]:
    either the function returns the new descriptor, which is then the one
    more entry of the table, or the process exits with the table as it
    found it. *)
Lemma create_client_socket_fds serverIP port w :
  match Client.create_client_socket serverIP port w with
  | (Ret sd, w') => sd = lowest_free (w_fds w) /\ w_fds w' = sd :: w_fds w
  | (Exit _, w') => w_fds w' = w_fds w
  | (Undefined, _) => True
  end.
Proof.
  unfold Client.create_client_socket. steps.
  destruct (os_socket_ok (w_os w)); simpl; [|reflexivity].
  rewrite lowest_free_not_negative. simpl.
  destruct (cstring serverIP); simpl; [|exact I].
  destruct (os_connect_ok (w_os w)); simpl.
  - split; reflexivity.
  - apply close_new.
Qed.

Lemma create_server_socket_fds port w :
  match Server.create_server_socket port w with
  | (Ret sd, w') => sd = lowest_free (w_fds w) /\ w_fds w' = sd :: w_fds w
  | (Exit _, w') => w_fds w' = w_fds w
  | (Undefined, _) => False
  end.
Proof.
  unfold Server.create_server_socket. steps.
  destruct (os_socket_ok (w_os w)); simpl; [|reflexivity].
  rewrite lowest_free_not_negative. simpl.
  destruct (os_setsockopt_ok (w_os w)); simpl; [|apply close_new].
  destruct (os_bind_ok (w_os w)); simpl; [|apply close_new].
  destruct (os_listen_ok (w_os w)); simpl; [|apply close_new].
  split; reflexivity.
Qed.

Lemma accept_client_fds server_sd w :
  match Server.accept_client server_sd w with
  | (Ret sd, w') => sd = lowest_free (w_fds w) /\ w_fds w' = sd :: w_fds w
  | (Exit _, w') => w_fds w' = without server_sd (w_fds w)
  | (Undefined, _) => False
  end.
Proof.
  unfold Server.accept_client. steps.
  destruct (os_accept_ok (w_os w)); simpl; [|reflexivity].
  rewrite lowest_free_not_negative. simpl.
  split; reflexivity.
Qed.

Lemma client_cleanup_fds sd w :
  0 <= sd ->
  fst (Client.cleanup sd w) = Ret tt /\
  w_fds (snd (Client.cleanup sd w)) = without sd (w_fds w).
Proof.
  intros H. unfold Client.cleanup. steps.
  apply Z.geb_le in H. rewrite H. split; reflexivity.
Qed.

Lemma server_cleanup_fds server_sd client_sd w :
  0 <= server_sd -> 0 <= client_sd ->
  fst (Server.cleanup server_sd client_sd w) = Ret tt /\
  w_fds (snd (Server.cleanup server_sd client_sd w)) =
    without server_sd (without client_sd (w_fds w)).
Proof.
  intros Hs Hc. unfold Server.cleanup. steps.
  apply Z.geb_le in Hs, Hc. rewrite Hs, Hc. split; reflexivity.
Qed.

(** ** Steps that cannot end the process *)

Lemma no_exit_run {A} (m : M A) w s w' : no_exit m -> m w <> (Exit s, w').
Proof. intros N E. apply (N w s). now rewrite E. Qed.

Lemma no_exit_ret {A} (a : A) : no_exit (ret a).
Proof. intros w s. discriminate. Qed.
Lemma no_exit_undefined {A} : no_exit (@undefined A).
Proof. intros w s. discriminate. Qed.
Lemma no_exit_defined {A} (o : option A) : no_exit (defined o).
Proof. destruct o; intros w s; discriminate. Qed.
Lemma no_exit_ask {A} (f : Os -> A) : no_exit (ask f).
Proof. intros w s. discriminate. Qed.
Lemma no_exit_printf s : no_exit (printf s).
Proof. intros w s'. discriminate. Qed.
Lemma no_exit_fprintf_stderr s : no_exit (fprintf_stderr s).
Proof. intros w s'. discriminate. Qed.
Lemma no_exit_log c : no_exit (log c).
Proof. intros w s. discriminate. Qed.
Lemma no_exit_set_fds f : no_exit (set_fds f).
Proof. intros w s. discriminate. Qed.
Lemma no_exit_put_on_wire d : no_exit (put_on_wire d).
Proof. intros w s. discriminate. Qed.
Lemma no_exit_take_off_wire d : no_exit (take_off_wire d).
Proof. intros w s. discriminate. Qed.
Lemma no_exit_memset0 a n : no_exit (memset0 a n).
Proof. unfold memset0. destruct (_ <=? _)%nat; intros w s; discriminate. Qed.
Lemma no_exit_assign a i c : no_exit (assign a i c).
Proof. unfold assign. destruct (_ <? _)%nat; intros w s; discriminate. Qed.
Lemma no_exit_fgets b n : no_exit (fgets b n).
Proof.
  intros w s. unfold fgets. destruct (w_stdin w); [discriminate|].
  destruct (read_line _ _). destruct (_ <=? _)%nat; discriminate.
Qed.

Lemma no_exit_bind {A C} (m : M A) (k : A -> M C) :
  no_exit m -> (forall a, no_exit (k a)) -> no_exit (bind m k).
Proof.
  intros Nm Nk w s. unfold bind.
  destruct (m w) as [[a | s1 | ] w1] eqn:E; simpl.
  - apply Nk.
  - exfalso. exact (no_exit_run m w s1 w1 Nm E).
  - discriminate.
Qed.

#[local] Hint Resolve no_exit_ret no_exit_undefined no_exit_defined no_exit_ask
  no_exit_printf no_exit_fprintf_stderr no_exit_log no_exit_set_fds
  no_exit_put_on_wire no_exit_take_off_wire no_exit_memset0 no_exit_assign
  no_exit_fgets : frame.

Ltac returns :=
  repeat first
    [ solve [auto with frame]
    | apply no_exit_bind; [ | intros ]
    | match goal with
      | |- no_exit (if ?b then _ else _) => destruct b
      | |- no_exit (match ?o with Some _ => _ | None => _ end) => destruct o
      | |- no_exit (let '(_, _) := ?p in _) => destruct p
      end ].

Lemma no_exit_uninitialised n : no_exit (uninitialised n).
Proof. unfold uninitialised. returns. Qed.
Lemma no_exit_perror s : no_exit (perror s).
Proof. unfold perror. returns. Qed.
#[local] Hint Resolve no_exit_uninitialised no_exit_perror : frame.
Lemma no_exit_send sd d : no_exit (send sd d).
Proof. unfold send. returns. Qed.
Lemma no_exit_recv sd b n : no_exit (recv sd b n).
Proof. unfold recv. returns. Qed.
Lemma no_exit_close sd : no_exit (close sd).
Proof. unfold close. returns. Qed.
#[local] Hint Resolve no_exit_send no_exit_recv no_exit_close : frame.

Lemma no_exit_send_message sd : no_exit (Client.send_message sd).
Proof. unfold Client.send_message. returns. Qed.
Lemma no_exit_receive_response sd : no_exit (Client.receive_response sd).
Proof. unfold Client.receive_response. returns. Qed.
Lemma no_exit_client_cleanup sd : no_exit (Client.cleanup sd).
Proof. unfold Client.cleanup. returns. Qed.
Lemma no_exit_receive_message sd b n : no_exit (Server.receive_message sd b n).
Proof. unfold Server.receive_message. returns. Qed.
Lemma no_exit_send_response sd : no_exit (Server.send_response sd).
Proof. unfold Server.send_response. returns. Qed.
Lemma no_exit_server_cleanup s c : no_exit (Server.cleanup s c).
Proof. unfold Server.cleanup. returns. Qed.
#[local] Hint Resolve no_exit_send_message no_exit_receive_response
  no_exit_client_cleanup no_exit_receive_message no_exit_send_response
  no_exit_server_cleanup : frame.

(** ** Taking a run apart *)

Lemma bind_inv {A C} (m : M A) (k : A -> M C) w r w' :
  bind m k w = (r, w') ->
  (exists a w1, m w = (Ret a, w1) /\ k a w1 = (r, w')) \/
  (exists s, m w = (Exit s, w') /\ r = Exit s) \/
  (m w = (Undefined, w') /\ r = Undefined).
Proof.
  unfold bind. destruct (m w) as [[a | s | ] w1]; intros E.
  - left. now exists a, w1.
  - right. left. exists s. now inversion E.
  - right. right. now inversion E.
Qed.

Lemma run_inv (m : M Z) w st w' :
  run m w = (Exited st, w') -> m w = (Ret st, w') \/ m w = (Exit st, w').
Proof.
  unfold run. destruct (m w) as [[a | s | ] w1]; intros E; inversion E; auto.
Qed.

(** ** Every socket is closed before the process exits *)

(** One step of a run: the first computation of a [bind] returned, ended
    the process, or went wrong. *)
Ltac unbind H a w1 E :=
  apply bind_inv in H;
  destruct H as [(a & w1 & E & H) | [(? & E & ?) | (E & ?)]].

Lemma client_main_fds argv w st w' :
  run (Client.main argv) w = (Exited st, w') -> w_fds w' = w_fds w.
Proof.
  intros H.
  assert (exists r, Client.main argv w = (r, w') /\ r <> Undefined) as (r & M & Hr).
  { apply run_inv in H. destruct H as [H | H]; rewrite H; eexists; split;
      try reflexivity; discriminate. }
  clear H. unfold Client.main in M.
  unbind M ip0 w0 E0; [ | | congruence ].
  2: { now apply no_exit_run in E0; [| apply no_exit_uninitialised]. }
  apply (keeps_run w_fds) in E0; [| apply keeps_uninitialised].
  unbind M p w1 E1; [ | | congruence ].
  2: { apply (keeps_run w_fds) in E1; [congruence | apply fds_client_parse_arguments]. }
  apply (keeps_run w_fds) in E1; [| apply fds_client_parse_arguments].
  destruct p as [ip port].
  pose proof (create_client_socket_fds ip port w1) as F2.
  unbind M sd w2 E2; [ | | congruence ]; rewrite E2 in F2.
  2: { congruence. }
  destruct F2 as [Hsd F2].
  unbind M r3 w3 E3; [ | | congruence ].
  2: { now apply no_exit_run in E3; [| apply no_exit_send_message]. }
  apply (keeps_run w_fds) in E3; [| apply fds_send_message].
  unbind M u w4 E4; [ | | congruence ].
  2: { apply no_exit_run in E4; [easy | returns]. }
  apply (keeps_run w_fds) in E4; [| frame; apply fds_receive_response].
  unbind M u5 w5 E5; [ | | congruence ].
  2: { now apply no_exit_run in E5; [| apply no_exit_client_cleanup]. }
  inversion M; subst w'.
  assert (0 <= sd) as Hpos by (subst sd; apply lowest_free_spec).
  destruct (client_cleanup_fds sd w4 Hpos) as [_ Hf].
  rewrite E5 in Hf. simpl in Hf.
  rewrite Hf, E4, E3, F2, Hsd, E1, E0. apply close_new.
Qed.

Lemma server_tail_returns client_sd (bytes : Z) :
  no_exit (if bytes >? 0 then _ <- Server.send_response client_sd ;; ret tt
           else ret tt).
Proof. returns. Qed.

Lemma server_main_fds argv w st w' :
  run (Server.main argv) w = (Exited st, w') -> w_fds w' = w_fds w.
Proof.
  intros H.
  assert (exists r, Server.main argv w = (r, w') /\ r <> Undefined) as (r & M & Hr).
  { apply run_inv in H. destruct H as [H | H]; rewrite H; eexists; split;
      try reflexivity; discriminate. }
  clear H. unfold Server.main in M.
  unbind M buf0 w0 E0; [ | | congruence ].
  2: { now apply no_exit_run in E0; [| apply no_exit_uninitialised]. }
  apply (keeps_run w_fds) in E0; [| apply keeps_uninitialised].
  unbind M port w1 E1; [ | | congruence ];
    (apply (keeps_run w_fds) in E1; [| apply fds_server_parse_arguments]).
  2: { congruence. }
  pose proof (create_server_socket_fds port w1) as F2.
  unbind M server_sd w2 E2; [ | | congruence ]; rewrite E2 in F2.
  2: { congruence. }
  destruct F2 as [Hs F2].
  pose proof (accept_client_fds server_sd w2) as F3.
  unbind M client_sd w3 E3; [ | | congruence ]; rewrite E3 in F3.
  2: { rewrite F3, F2, Hs, E1, E0. apply close_new. }
  destruct F3 as [Hc F3].
  unbind M p w4 E4; [ | | congruence ].
  2: { now apply no_exit_run in E4; [| apply no_exit_receive_message]. }
  apply (keeps_run w_fds) in E4; [| apply fds_receive_message].
  destruct p as [bytes buf].
  unbind M u w5 E5; [ | | congruence ].
  2: { now apply no_exit_run in E5; [| apply server_tail_returns]. }
  apply (keeps_run w_fds) in E5; [| frame; apply fds_send_response].
  unbind M u6 w6 E6; [ | | congruence ].
  2: { now apply no_exit_run in E6; [| apply no_exit_server_cleanup]. }
  inversion M; subst w'.
  assert (0 <= server_sd) as Hsp by (subst server_sd; apply lowest_free_spec).
  assert (0 <= client_sd) as Hcp by (subst client_sd; apply lowest_free_spec).
  destruct (server_cleanup_fds server_sd client_sd w5 Hsp Hcp) as [_ Hf].
  rewrite E6 in Hf. simpl in Hf.
  rewrite Hf, E5, E4, F3, Hc, F2.
  unfold without at 2. rewrite close_new.
  rewrite Hs, E1, E0. apply close_new.
Qed.

(** C7. On every run of the client and on every run of the server that
    ends in an exit -- by returning from [main] or through [exit(1)] on
    any of the error paths -- the table of open descriptors is again what
    it was when the process started: every socket that [socket] or
    [accept] handed out has been closed. *)
Theorem sockets_closed_before_exit argv w st w' :
  run (Client.main argv) w = (Exited st, w') \/
  run (Server.main argv) w = (Exited st, w') ->
  w_fds w' = w_fds w.
Proof.
  intros [H | H].
  - exact (client_main_fds argv w st w' H).
  - exact (server_main_fds argv w st w' H).
Qed.

(** ** Port validation *)

Lemma digits_no_digit acc s :
  match s with d :: _ => negb (is_digit d) | [] => true end = true ->
  digits acc s = acc.
Proof.
  destruct s as [|d r]; [reflexivity|]. unfold is_digit. simpl.
  destruct (digit_of d); [discriminate | reflexivity].
Qed.

Lemma no_number_atoi s : no_number s = true -> atoi s = 0.
Proof.
  unfold no_number, atoi, strtol.
  destruct (skip_spaces (chars s)) as [|c r]; [reflexivity|].
  destruct (Ascii.eqb c "-") eqn:Em; cbn [orb].
  - intros H. now rewrite (digits_no_digit 0 r H).
  - destruct (Ascii.eqb c "+") eqn:Ep.
    + intros H. now rewrite (digits_no_digit 0 r H).
    + intros H. now rewrite (digits_no_digit 0 (c :: r) H).
Qed.

Lemma uninitialised_length n w :
  exists a, uninitialised n w = (Ret a, w) /\ List.length a = n.
Proof.
  unfold uninitialised, bind, ask, ret. eexists. split; [reflexivity|].
  rewrite length_firstn, length_app, repeat_length. lia.
Qed.

Lemma chars_length s : List.length (chars s) = String.length s.
Proof. induction s as [|c s IH]; simpl; [reflexivity | now rewrite IH]. Qed.

Lemma literal_length s : List.length (literal s) = S (String.length s).
Proof.
  unfold literal. rewrite length_app, chars_length. simpl. lia.
Qed.

Lemma rejected_port p : p <= 0 \/ 65535 < p -> (p <=? 0) || (p >? 65535) = true.
Proof.
  intros [H | H]; apply orb_true_iff; [left | right]; lia.
Qed.

Lemma client_rejects_port prog ip arg rest w :
  (String.length ip <= 28)%nat ->
  atoi arg <= 0 \/ 65535 < atoi arg ->
  run (Client.main (prog :: ip :: arg :: rest)) w =
    (Exited 1, snd (fprintf_stderr (invalid_port_message arg) w)).
Proof.
  intros Hip Hport. unfold run, Client.main.
  destruct (uninitialised_length 29 w) as (a & Ea & La).
  unfold bind at 1. rewrite Ea.
  unfold Client.parse_arguments.
  replace (Z.of_nat (List.length (prog :: ip :: arg :: rest)) <? 3) with false
    by (symmetry; apply Z.ltb_ge; simpl List.length; lia).
  unfold strcpy. simpl nth. rewrite literal_length, La.
  replace (S (String.length ip) <=? 29)%nat with true
    by (symmetry; apply Nat.leb_le; lia).
  fold (atoi arg). rewrite (rejected_port _ Hport).
  reflexivity.
Qed.

Lemma server_rejects_port prog arg rest w :
  atoi arg <= 0 \/ 65535 < atoi arg ->
  run (Server.main (prog :: arg :: rest)) w =
    (Exited 1, snd (fprintf_stderr (invalid_port_message arg) w)).
Proof.
  intros Hport. unfold run, Server.main.
  destruct (uninitialised_length 100 w) as (a & Ea & La).
  unfold bind at 1. change (Z.to_nat Server.BUFFER_SIZE) with 100%nat. rewrite Ea.
  unfold Server.parse_arguments.
  replace (Z.of_nat (List.length (prog :: arg :: rest)) <? 2) with false
    by (symmetry; apply Z.ltb_ge; simpl List.length; lia).
  simpl nth. rewrite (rejected_port _ Hport).
  reflexivity.
Qed.

Lemma to_int_of_int x : INT_MIN <= x <= INT_MAX -> to_int x = x.
Proof.
  unfold to_int, INT_MIN, INT_MAX. intros H.
  rewrite Z.mod_small by lia. lia.
Qed.

(** C2, as the code has it.  A port argument in which [strtol] / [atoi]
    find no number, or whose number as [strtol] reads it (sign and
    leading digits, what follows being ignored) fits an [int] and is not
    in 1..65535, makes both programs print the validation error on
    standard error and exit with status 1 without having made a system
    call.  (For the client the address argument fits its array: it is
    copied before the port is looked at.)  Of a number that does not fit
    an [int] nothing is said here. *)
Theorem invalid_port_is_rejected prog ip arg rest w :
  (String.length ip <= 28)%nat ->
  no_number arg = true \/
  (INT_MIN <= strtol arg <= INT_MAX /\ (strtol arg <= 0 \/ 65535 < strtol arg)) ->
  let w' := snd (fprintf_stderr (invalid_port_message arg) w) in
  run (Client.main (prog :: ip :: arg :: rest)) w = (Exited 1, w') /\
  run (Server.main (prog :: arg :: rest)) w = (Exited 1, w') /\
  w_stderr w' = (w_stderr w ++ [invalid_port_message arg])%list /\
  w_trace w' = w_trace w.
Proof.
  intros Hip Hport w'.
  assert (atoi arg <= 0 \/ 65535 < atoi arg) as Hbad.
  { destruct Hport as [H | [Hint H]].
    - left. rewrite (no_number_atoi arg H). lia.
    - unfold atoi. now rewrite (to_int_of_int _ Hint). }
  repeat split.
  - now apply client_rejects_port.
  - now apply server_rejects_port.
Qed.

Lemma invalid_port_is_rejected_witness :
  let w := fresh_world (friendly_os None) [] in
  fst (run (Client.main ["client"; "127.0.0.1"; "70000"]) w) = Exited 1 /\
  fst (run (Server.main ["server"; "70000"]) w) = Exited 1.
Proof.
  intros w.
  assert (INT_MIN <= strtol "70000" <= INT_MAX /\
          (strtol "70000" <= 0 \/ 65535 < strtol "70000")) as H70000
    by (vm_compute; intuition discriminate).
  destruct (invalid_port_is_rejected "client" "127.0.0.1" "70000" [] w)
    as (Hc & _).
  - simpl. lia.
  - right. exact H70000.
  - destruct (invalid_port_is_rejected "server" "" "70000" [] w)
      as (_ & Hs & _).
    + simpl. lia.
    + right. exact H70000.
    + split; [rewrite Hc | rewrite Hs]; reflexivity.
Defined.

(** C2, as stated, fails: [80abc] is not a number, yet both programs
    take it for port 80 and go on to create their socket. *)
Lemma port_with_trailing_text_is_accepted :
  is_decimal "80abc" = false /\
  (let r := run (Client.main ["client"; "127.0.0.1"; "80abc"])
                (fresh_world (friendly_os (Some (literal Server.RESPONSE))) hello_line) in
   fst r = Exited 0 /\ w_stderr (snd r) = [] /\
   firstn 2 (w_trace (snd r)) = [Socket 3; Connect 3 "127.0.0.1" 80 0]) /\
  (let r := run (Server.main ["server"; "80abc"])
                (fresh_world (friendly_os (Some (literal "hello"))) []) in
   fst r = Exited 0 /\ w_stderr (snd r) = [] /\
   firstn 3 (w_trace (snd r)) = [Socket 3; Setsockopt 3 0; Bind 3 80 0]).
Proof. vm_compute. repeat split; reflexivity. Qed.

(** A numeral beyond the range of [int] is cut to its low 32 bits before
    it is compared: [strtol] reads 4294967297, which is no port, and the
    programs take it for port 1. *)
Example port_beyond_int :
  strtol "4294967297" = 4294967297 /\
  atoi "4294967297" = 1 /\
  fst (run (Server.main ["server"; "4294967297"])
           (fresh_world (friendly_os (Some (literal "hello"))) [])) = Exited 0.
Proof. vm_compute. repeat split; reflexivity. Qed.

(** ** Exit status of the client *)

Lemma client_parse_arguments_result argc argv ip0 w :
  match fst (Client.parse_arguments argc argv ip0 w) with
  | Ret (_, port) =>
      (argc <? 3) = false /\ bad_port (nth 2 argv "") = false
  | Exit s => s = 1 /\ (argc <? 3) || bad_port (nth 2 argv "") = true
  | Undefined => True
  end.
Proof.
  unfold Client.parse_arguments, strcpy, bad_port, atoi. steps.
  destruct (argc <? 3); simpl; [now split|].
  destruct (_ <=? _)%nat; simpl; [|exact I].
  destruct ((_ <=? 0) || _); simpl; now split.
Qed.

Lemma create_client_socket_result ip port w :
  match fst (Client.create_client_socket ip port w) with
  | Ret _ => os_socket_ok (w_os w) = true /\ os_connect_ok (w_os w) = true
  | Exit s => s = 1 /\ os_socket_ok (w_os w) && os_connect_ok (w_os w) = false
  | Undefined => True
  end.
Proof.
  unfold Client.create_client_socket, defined. steps.
  destruct (os_socket_ok (w_os w)); simpl; [|now split].
  rewrite lowest_free_not_negative. simpl.
  destruct (cstring ip); simpl; [|exact I].
  destruct (os_connect_ok (w_os w)); simpl; now split.
Qed.

Lemma client_tail_returns sd (r : Z) :
  no_exit (if r =? 0 then _ <- Client.receive_response sd ;; ret tt else ret tt).
Proof. returns. Qed.

Lemma client_main_result argv w :
  match fst (Client.main argv w) with
  | Ret v => v = 0 /\
      (Z.of_nat (List.length argv) <? 3) || bad_port (nth 2 argv "")
        || negb (os_socket_ok (w_os w)) || negb (os_connect_ok (w_os w)) = false
  | Exit s => s = 1 /\
      (Z.of_nat (List.length argv) <? 3) || bad_port (nth 2 argv "")
        || negb (os_socket_ok (w_os w)) || negb (os_connect_ok (w_os w)) = true
  | Undefined => True
  end.
Proof.
  unfold Client.main.
  unfold bind at 1.
  destruct (uninitialised 29 w) as [[ip0 | s | ] w0] eqn:E0;
    [ | now apply no_exit_run in E0; [| apply no_exit_uninitialised] | exact I ].
  pose proof (keeps_run w_os _ _ _ _ (keeps_uninitialised w_os 29) E0) as O0.
  unfold bind at 1.
  pose proof (client_parse_arguments_result (Z.of_nat (List.length argv)) argv ip0 w0) as P1.
  destruct (Client.parse_arguments _ argv ip0 w0) as [[[ip port] | s | ] w1] eqn:E1;
    simpl in P1; [ | destruct P1 as [-> ->]; now split | exact I ].
  destruct P1 as [-> ->]. cbn [orb].
  pose proof (keeps_run w_os _ _ _ _ (os_client_parse_arguments _ _ _) E1) as O1.
  unfold bind at 1.
  pose proof (create_client_socket_result ip port w1) as P2.
  rewrite O1, O0 in P2.
  destruct (Client.create_client_socket ip port w1) as [[sd | s | ] w2] eqn:E2;
    simpl in P2; [ | | exact I ].
  2: { destruct P2 as [-> P2]. split; [reflexivity|].
       now destruct (os_socket_ok (w_os w)), (os_connect_ok (w_os w)). }
  destruct P2 as [-> ->]. cbn [orb negb].
  unfold bind at 1.
  destruct (Client.send_message sd w2) as [[r3 | s | ] w3] eqn:E3;
    [ | now apply no_exit_run in E3; [| apply no_exit_send_message] | exact I ].
  unfold bind at 1.
  destruct ((if r3 =? 0 then _ <- Client.receive_response sd ;; ret tt else ret tt) w3)
    as [[u | s | ] w4] eqn:E4;
    [ | now apply no_exit_run in E4; [| apply client_tail_returns] | exact I ].
  unfold bind at 1.
  destruct (Client.cleanup sd w4) as [[u5 | s | ] w5] eqn:E5;
    [ | now apply no_exit_run in E5; [| apply no_exit_client_cleanup] | exact I ].
  simpl. now split.
Qed.

(** C4, as stated, fails: [send] fails, or the server closes without
    answering, and the client still exits with status 0. *)
Lemma failed_send_exits_with_0 :
  (let r := run (Client.main ["client"; "127.0.0.1"; "9000"])
                (fresh_world send_fails hello_line) in
   In (Send 3 (literal "hello") (-1)) (w_trace (snd r)) /\
   fst r = Exited 0) /\
  (let r := run (Client.main ["client"; "127.0.0.1"; "9000"])
                (fresh_world (friendly_os (Some [])) hello_line) in
   In (Recv 3 99 0) (w_trace (snd r)) /\
   In ("Server closed the connection without responding." ++ endl) (w_stdout (snd r)) /\
   fst r = Exited 0) /\
  (let r := run (Client.main ["client"; "127.0.0.1"; "9000"])
                (fresh_world (friendly_os None) hello_line) in
   In (Recv 3 99 (-1)) (w_trace (snd r)) /\
   fst r = Exited 0).
Proof. vm_compute. intuition. Qed.

(** ** Arrays *)

Lemma cstring_terminated a : In NUL a -> cstring a = Some (c_str a).
Proof.
  induction a as [|c r IH]; simpl; [contradiction|].
  intros [-> | H].
  - reflexivity.
  - destruct (is_nul c); [reflexivity|]. now rewrite IH.
Qed.

Lemma c_str_no_nul l r :
  Forall (fun c => is_nul c = false) l -> c_str (l ++ NUL :: r)%list = l.
Proof.
  induction 1 as [|c l Hc _ IH]; simpl; [reflexivity|].
  now rewrite Hc, IH.
Qed.

Lemma store_at_end l c r c' :
  store (l ++ c :: r)%list (List.length l) c' = (l ++ c' :: r)%list.
Proof. induction l as [|x l IH]; simpl; [reflexivity | now rewrite IH]. Qed.

Lemma skipn_repeat {A} (x : A) k n : skipn k (repeat x n) = repeat x (n - k).
Proof.
  revert n. induction k as [|k IH]; intros n; simpl.
  - now rewrite Nat.sub_0_r.
  - destruct n; simpl; [reflexivity | apply IH].
Qed.

Lemma overwrite_all a data :
  List.length data = List.length a -> overwrite a data = data.
Proof.
  intros H. unfold overwrite. rewrite H, skipn_all. apply app_nil_r.
Qed.

Lemma to_size_t_of_int x : 0 <= x <= INT_MAX -> to_size_t x = Z.to_nat x.
Proof.
  unfold to_size_t, INT_MAX. intros H. rewrite Z.mod_small; [reflexivity | lia].
Qed.

Lemma received_buffer_terminated n got :
  (List.length got < n)%nat -> In NUL (received_buffer n got).
Proof.
  intros H. unfold received_buffer. apply in_or_app. right.
  destruct (n - List.length got)%nat eqn:E; [lia | now left].
Qed.

Lemma received_buffer_length n got :
  (List.length got <= n)%nat -> List.length (received_buffer n got) = n.
Proof.
  intros H. unfold received_buffer. rewrite length_app, repeat_length. lia.
Qed.

Lemma store_received_buffer n got :
  (List.length got < n)%nat ->
  store (received_buffer n got) (List.length got) NUL = received_buffer n got.
Proof.
  intros H. unfold received_buffer.
  destruct (n - List.length got)%nat eqn:E; [lia|]. simpl repeat.
  apply store_at_end.
Qed.

(** ** One receive operation *)

Lemma memset0_all buffer w :
  memset0 buffer (List.length buffer) w = (Ret (repeat NUL (List.length buffer)), w).
Proof.
  unfold memset0. rewrite Nat.leb_refl.
  now rewrite overwrite_all by (now rewrite repeat_length).
Qed.

(** [recv] into a zeroed array of [n] bytes, with room asked for less
    than [n]. *)
Lemma recv_zeroed sd (n len : nat) w :
  (len <= n)%nat ->
  recv sd (repeat NUL n) len w =
  match os_recv (w_os w) with
  | None => (Ret (-1, repeat NUL n), snd (log (Recv sd len (-1)) w))
  | Some d =>
      let got := firstn len d in
      (Ret (Z.of_nat (List.length got), received_buffer n got),
       snd ((take_off_wire got ;;
             log (Recv sd len (Z.of_nat (List.length got)))) w))
  end.
Proof.
  intros Hlen. unfold recv, bind at 1, ask.
  destruct (os_recv (w_os w)) as [d|]; [|reflexivity].
  rewrite repeat_length.
  pose proof (firstn_le_length len d) as Hgot.
  replace (List.length (firstn len d) <=? n)%nat with true
    by (symmetry; apply Nat.leb_le; lia).
  unfold overwrite. rewrite skipn_repeat. reflexivity.
Qed.

(** What [receive_message] does, for an array of [buf_size] bytes. *)
Lemma receive_message_spec sd buffer buf_size w :
  1 <= buf_size <= INT_MAX -> List.length buffer = Z.to_nat buf_size ->
  let n := Z.to_nat buf_size in
  Server.receive_message sd buffer buf_size w =
  match os_recv (w_os w) with
  | None =>
      (Ret (-1, repeat NUL n),
       snd ((log (Recv sd (n - 1) (-1)) ;; perror "Error: recv() failed") w))
  | Some d =>
      let got := firstn (n - 1) d in
      let rc := Z.of_nat (List.length got) in
      if rc =? 0 then
        (Ret (0, received_buffer n got),
         snd ((take_off_wire got ;; log (Recv sd (n - 1) rc) ;;
               printf ("Client disconnected before sending data." ++ endl)) w))
      else
        (Ret (rc, received_buffer n got),
         snd ((take_off_wire got ;; log (Recv sd (n - 1) rc) ;;
               printf ("Received " ++ dec rc ++ " bytes" ++ endl) ;;
               printf ("Message: " ++ text (c_str (received_buffer n got)) ++ endl)) w))
  end.
Proof.
  intros Hsize Hlen n. unfold Server.receive_message.
  rewrite !to_size_t_of_int by (unfold INT_MAX in *; lia).
  replace (Z.to_nat (buf_size - 1)) with (n - 1)%nat by (subst n; lia).
  pose proof (memset0_all buffer w) as Hm. rewrite Hlen in Hm. fold n in Hm |- *.
  unfold bind at 1. rewrite Hm.
  unfold bind at 1. rewrite recv_zeroed by lia.
  destruct (os_recv (w_os w)) as [d|]; [|reflexivity].
  pose proof (firstn_le_length (n - 1) d) as Hgot.
  set (got := firstn (n - 1) d) in *. cbv beta iota zeta.
  replace (Z.of_nat (List.length got) <? 0) with false by (symmetry; apply Z.ltb_ge; lia).
  destruct (Z.of_nat (List.length got) =? 0) eqn:Hz; [reflexivity|].
  unfold assign. rewrite Nat2Z.id, received_buffer_length by lia.
  replace (List.length got <? n)%nat with true by (symmetry; apply Nat.ltb_lt; lia).
  unfold bind at 1, ret at 1. cbv beta iota.
  rewrite store_received_buffer by lia.
  rewrite (cstring_terminated (received_buffer n got))
    by (apply received_buffer_terminated; lia).
  reflexivity.
Qed.

(** What [receive_response] does. *)
Lemma receive_response_spec sd w :
  Client.receive_response sd w =
  match os_recv (w_os w) with
  | None =>
      (Ret (-1, repeat NUL 100),
       snd ((log (Recv sd 99 (-1)) ;; perror "Error: recv() failed") w))
  | Some d =>
      let got := firstn 99 d in
      let rc := Z.of_nat (List.length got) in
      if rc =? 0 then
        (Ret (-1, received_buffer 100 got),
         snd ((take_off_wire got ;; log (Recv sd 99 rc) ;;
               printf ("Server closed the connection without responding." ++ endl)) w))
      else
        (Ret (0, received_buffer 100 got),
         snd ((take_off_wire got ;; log (Recv sd 99 rc) ;;
               printf ("Server response: " ++
                       text (c_str (received_buffer 100 got)) ++ endl)) w))
  end.
Proof.
  unfold Client.receive_response.
  change (Z.to_nat Client.BUFFER_SIZE) with 100%nat.
  change (to_size_t (Client.BUFFER_SIZE - 1)) with 99%nat.
  destruct (uninitialised_length 100 w) as (a & Ea & La).
  unfold bind at 1. rewrite Ea.
  pose proof (memset0_all a w) as Hm. rewrite La in Hm.
  unfold bind at 1. rewrite Hm.
  unfold bind at 1. rewrite recv_zeroed by lia.
  destruct (os_recv (w_os w)) as [d|]; [|reflexivity].
  pose proof (firstn_le_length 99 d) as Hgot.
  set (got := firstn 99 d) in *. cbv beta iota zeta.
  replace (Z.of_nat (List.length got) <? 0) with false by (symmetry; apply Z.ltb_ge; lia).
  destruct (Z.of_nat (List.length got) =? 0) eqn:Hz; [reflexivity|].
  unfold assign. rewrite Nat2Z.id, received_buffer_length by lia.
  replace (List.length got <? 100)%nat with true by (symmetry; apply Nat.ltb_lt; lia).
  unfold bind at 1, ret at 1. cbv beta iota.
  rewrite store_received_buffer by lia.
  rewrite (cstring_terminated (received_buffer 100 got))
    by (apply received_buffer_terminated; lia).
  reflexivity.
Qed.

(** ** The receive buffer is a terminated string *)







(** ** How much one receive operation takes *)

(** C6, as the code has it.  Each side asks [recv] for 99 bytes, one
    less than its 100-byte array: of the pending bytes [d] the first 99
    are taken, so a payload of up to 99 bytes (terminator included) is
    received whole, and they are what the start of the array holds. *)
Theorem one_receive_takes_99 sd buffer w d :
  List.length buffer = 100%nat ->
  os_recv (w_os w) = Some d ->
  let got := firstn 99 d in
  let server := Server.receive_message sd buffer Server.BUFFER_SIZE w in
  let client := Client.receive_response sd w in
  (exists b, fst server = Ret (Z.of_nat (List.length got), b) /\
             firstn (List.length got) b = got) /\
  w_received (snd server) = (w_received w ++ got)%list /\
  In (Recv sd 99 (Z.of_nat (List.length got))) (w_trace (snd server)) /\
  (exists v b, fst client = Ret (v, b) /\ firstn (List.length got) b = got) /\
  w_received (snd client) = (w_received w ++ got)%list /\
  In (Recv sd 99 (Z.of_nat (List.length got))) (w_trace (snd client)) /\
  (List.length got <= 99)%nat /\
  ((List.length d <= 99)%nat -> got = d).
Proof.
  intros Hlen Hd got server client.
  assert (firstn (List.length got) (received_buffer 100 got) = got) as Hpre.
  { unfold received_buffer. rewrite firstn_app, Nat.sub_diag, firstn_all.
    simpl. apply app_nil_r. }
  subst server client.
  rewrite (receive_message_spec sd buffer Server.BUFFER_SIZE w)
    by (try exact Hlen; unfold Server.BUFFER_SIZE, INT_MAX; lia).
  rewrite receive_response_spec, Hd.
  change (Z.to_nat Server.BUFFER_SIZE) with 100%nat.
  change (100 - 1)%nat with 99%nat. cbv zeta. fold got.
  destruct (Z.of_nat (List.length got) =? 0) eqn:Hz; simpl;
    (repeat split;
     [ eexists; split; [try reflexivity | exact Hpre]
     | apply in_or_app; right; now left
     | eexists; eexists; split; [reflexivity | exact Hpre]
     | apply in_or_app; right; now left
     | apply firstn_le_length
     | intros Hd99; apply firstn_all2; exact Hd99 ]).
  apply Z.eqb_eq in Hz. now rewrite Hz.
Qed.

Lemma one_receive_takes_99_witness :
  let w := fresh_world (friendly_os (Some (literal "hello"))) [] in
  w_received (snd (Server.receive_message 4 (repeat "?"%char 100) Server.BUFFER_SIZE w))
    = literal "hello" /\
  w_received (snd (Client.receive_response 3 w)) = literal "hello".
Proof.
  intros w.
  destruct (one_receive_takes_99 4 (repeat "?"%char 100) w (literal "hello"))
    as (_ & Hs & _); [reflexivity | reflexivity |].
  destruct (one_receive_takes_99 3 (repeat "?"%char 100) w (literal "hello"))
    as (_ & _ & _ & _ & Hc & _); [reflexivity | reflexivity |].
  split; [exact Hs | exact Hc].
Defined.

(** C6, as stated, fails: of a pending payload of 100 bytes, terminator
    included, one receive operation takes 99 -- the room asked for is one
    less than the capacity of the array -- and the sender's terminator is
    not read. *)
Lemma payload_of_100_bytes_is_cut :
  let payload := (repeat "a"%char 99 ++ [NUL])%list in
  let w := fresh_world (friendly_os (Some payload)) [] in
  let server := Server.receive_message 4 (repeat "?"%char 100) Server.BUFFER_SIZE w in
  let client := Client.receive_response 3 w in
  List.length payload = 100%nat /\
  (exists b, fst server = Ret (99, b)) /\
  w_trace (snd server) = [Recv 4 99 99] /\
  w_received (snd server) = repeat "a"%char 99 /\
  w_received (snd server) <> payload /\
  w_trace (snd client) = [Recv 3 99 99] /\
  w_received (snd client) = repeat "a"%char 99 /\
  w_received (snd client) <> payload.
Proof.
  vm_compute. repeat split; try discriminate.
  eexists. reflexivity.
Qed.

(** ** What the server puts on and takes off its connection *)

Lemma io_printf s : keeps io (printf s).
Proof. intros w. reflexivity. Qed.
Lemma io_fprintf_stderr s : keeps io (fprintf_stderr s).
Proof. intros w. reflexivity. Qed.
Lemma io_set_fds f : keeps io (set_fds f).
Proof. intros w. reflexivity. Qed.
Lemma io_get_fds : keeps io get_fds.
Proof. intros w. reflexivity. Qed.
Lemma io_log c : is_io c = false -> keeps io (log c).
Proof.
  intros H w. unfold io. simpl. rewrite filter_app. simpl. rewrite H.
  apply app_nil_r.
Qed.
Lemma sent_printf s : keeps w_sent (printf s).
Proof. intros w. reflexivity. Qed.
Lemma sent_fprintf_stderr s : keeps w_sent (fprintf_stderr s).
Proof. intros w. reflexivity. Qed.
Lemma sent_set_fds f : keeps w_sent (set_fds f).
Proof. intros w. reflexivity. Qed.
Lemma sent_get_fds : keeps w_sent get_fds.
Proof. intros w. reflexivity. Qed.
Lemma sent_log c : keeps w_sent (log c).
Proof. intros w. reflexivity. Qed.
#[local] Hint Resolve io_printf io_fprintf_stderr io_set_fds io_get_fds
  sent_printf sent_fprintf_stderr sent_set_fds sent_get_fds sent_log : frame.
#[local] Hint Extern 1 (keeps io (log _)) => (apply io_log; reflexivity) : frame.

Ltac quiet := unfold perror, new_fd, socket, setsockopt, bind_, listen, accept, close; frame.

Lemma io_server_parse_arguments argc argv : keeps io (Server.parse_arguments argc argv).
Proof. unfold Server.parse_arguments. quiet. Qed.
Lemma io_create_server_socket port : keeps io (Server.create_server_socket port).
Proof. unfold Server.create_server_socket. quiet. Qed.
Lemma io_accept_client sd : keeps io (Server.accept_client sd).
Proof. unfold Server.accept_client. quiet. Qed.
Lemma io_server_cleanup s c : keeps io (Server.cleanup s c).
Proof. unfold Server.cleanup. quiet. Qed.
Lemma sent_server_parse_arguments argc argv : keeps w_sent (Server.parse_arguments argc argv).
Proof. unfold Server.parse_arguments. quiet. Qed.
Lemma sent_create_server_socket port : keeps w_sent (Server.create_server_socket port).
Proof. unfold Server.create_server_socket. quiet. Qed.
Lemma sent_accept_client sd : keeps w_sent (Server.accept_client sd).
Proof. unfold Server.accept_client. quiet. Qed.
Lemma sent_server_cleanup s c : keeps w_sent (Server.cleanup s c).
Proof. unfold Server.cleanup. quiet. Qed.

Lemma server_parse_arguments_status argc argv :
  returns_or_exits_1 (Server.parse_arguments argc argv).
Proof.
  intros w. unfold Server.parse_arguments. steps.
  destruct (argc <? 2); simpl; [reflexivity|].
  destruct ((_ <=? 0) || _); simpl; trivial.
Qed.

Lemma create_server_socket_status port :
  returns_or_exits_1 (Server.create_server_socket port).
Proof.
  intros w. unfold Server.create_server_socket. steps.
  destruct (os_socket_ok (w_os w)); simpl; [|reflexivity].
  rewrite lowest_free_not_negative. simpl.
  destruct (os_setsockopt_ok (w_os w)); simpl; [|reflexivity].
  destruct (os_bind_ok (w_os w)); simpl; [|reflexivity].
  destruct (os_listen_ok (w_os w)); simpl; trivial.
Qed.

Lemma accept_client_status sd : returns_or_exits_1 (Server.accept_client sd).
Proof.
  intros w. unfold Server.accept_client. steps.
  destruct (os_accept_ok (w_os w)); simpl; [|reflexivity].
  rewrite lowest_free_not_negative. simpl. trivial.
Qed.

Lemma server_cleanup_returns s c w : fst (Server.cleanup s c w) = Ret tt.
Proof.
  unfold Server.cleanup. steps.
  destruct (c >=? 0), (s >=? 0); reflexivity.
Qed.

Lemma response_length : List.length (literal Server.RESPONSE) = 34%nat.
Proof. reflexivity. Qed.

(** What [send_response] does. *)
Lemma send_response_spec sd w :
  Server.send_response sd w =
  if os_send_ok (w_os w) then
    (Ret 0,
     snd ((put_on_wire (literal Server.RESPONSE) ;;
           log (Send sd (literal Server.RESPONSE) 34) ;;
           printf ("Response sent: " ++ Server.RESPONSE ++ endl)) w))
  else
    (Ret (-1),
     snd ((log (Send sd (literal Server.RESPONSE) (-1)) ;;
           perror "Error: send() failed") w)).
Proof.
  unfold Server.send_response, send. steps.
  destruct (os_send_ok (w_os w)); reflexivity.
Qed.

(** From the test on [bytes] to the end of [main]. *)
Lemma server_tail server_sd client_sd bytes x :
  exists w5,
    ((if bytes >? 0 then _ <- Server.send_response client_sd ;; ret tt else ret tt) ;;
     Server.cleanup server_sd client_sd ;; ret 0) x = (Ret 0, w5) /\
    (bytes <= 0 -> io w5 = io x /\ w_sent w5 = w_sent x) /\
    (0 < bytes ->
       (io w5 = (io x ++ [Send client_sd (literal Server.RESPONSE) 34])%list /\
        w_sent w5 = (w_sent x ++ literal Server.RESPONSE)%list) \/
       (io w5 = (io x ++ [Send client_sd (literal Server.RESPONSE) (-1)])%list /\
        w_sent w5 = w_sent x)).
Proof.
  assert (forall y, exists w5,
            (_ <- Server.cleanup server_sd client_sd ;; ret 0) y = (Ret 0, w5) /\
            io w5 = io y /\ w_sent w5 = w_sent y) as Hclean.
  { intros y. unfold bind.
    pose proof (server_cleanup_returns server_sd client_sd y) as C.
    pose proof (io_server_cleanup server_sd client_sd y) as I5.
    pose proof (sent_server_cleanup server_sd client_sd y) as T5.
    destruct (Server.cleanup server_sd client_sd y) as [r5 w5].
    simpl in C, I5, T5. subst r5. exists w5. now repeat split. }
  unfold bind at 1.
  destruct (bytes >? 0) eqn:Hb.
  - unfold bind at 1. rewrite send_response_spec.
    destruct (os_send_ok (w_os x)); cbv beta iota; unfold ret at 1;
      match goal with |- context [bind _ _ ?y] =>
        destruct (Hclean y) as (w5 & E5 & I5 & T5) end;
      exists w5; (split; [exact E5 | split; [lia | intros _]]).
    + left. split; [|exact T5]. rewrite I5. unfold io. simpl.
      rewrite filter_app. reflexivity.
    + right. split; [|exact T5]. rewrite I5. unfold io. simpl.
      rewrite filter_app. reflexivity.
  - unfold ret at 1.
    destruct (Hclean x) as (w5 & E5 & I5 & T5).
    exists w5. split; [exact E5 | split; [now intros _ | lia]].
Qed.

Lemma server_main_exchange argv w o w' :
  run (Server.main argv) w = (o, w') -> server_exchange w o w'.
Proof.
  unfold run, Server.main.
  change (Z.to_nat Server.BUFFER_SIZE) with 100%nat.
  destruct (uninitialised_length 100 w) as (buf0 & E0 & L0).
  unfold bind at 1. rewrite E0.
  unfold bind at 1.
  pose proof (server_parse_arguments_status (Z.of_nat (List.length argv)) argv w) as S1.
  destruct (Server.parse_arguments _ argv w) as [[port | s | ] w1] eqn:E1;
    simpl in S1; [ | subst s | contradiction ];
    pose proof (keeps_run io _ _ _ _ (io_server_parse_arguments _ _) E1) as I1;
    pose proof (keeps_run w_sent _ _ _ _ (sent_server_parse_arguments _ _) E1) as T1.
  2: { intros [= <- <-]. now apply set_up_failed. }
  unfold bind at 1.
  pose proof (create_server_socket_status port w1) as S2.
  destruct (Server.create_server_socket port w1) as [[server_sd | s | ] w2] eqn:E2;
    simpl in S2; [ | subst s | contradiction ];
    pose proof (keeps_run io _ _ _ _ (io_create_server_socket _) E2) as I2;
    pose proof (keeps_run w_sent _ _ _ _ (sent_create_server_socket _) E2) as T2.
  2: { intros [= <- <-]. apply set_up_failed; congruence. }
  unfold bind at 1.
  pose proof (accept_client_status server_sd w2) as S3.
  destruct (Server.accept_client server_sd w2) as [[client_sd | s | ] w3] eqn:E3;
    simpl in S3; [ | subst s | contradiction ];
    pose proof (keeps_run io _ _ _ _ (io_accept_client _) E3) as I3;
    pose proof (keeps_run w_sent _ _ _ _ (sent_accept_client _) E3) as T3.
  2: { intros [= <- <-]. apply set_up_failed; congruence. }
  assert (io w3 = io w) as I by congruence.
  assert (w_sent w3 = w_sent w) as T by congruence.
  clear I1 I2 I3 T1 T2 T3 E1 E2 E3 S1 S2 S3 E0.
  unfold bind at 1.
  rewrite (receive_message_spec client_sd buf0 Server.BUFFER_SIZE w3)
    by (try exact L0; unfold Server.BUFFER_SIZE, INT_MAX; lia).
  change (Z.to_nat Server.BUFFER_SIZE) with 100%nat.
  change (100 - 1)%nat with 99%nat.
  destruct (os_recv (w_os w3)) as [d|].
  - cbv zeta. set (got := firstn 99 d).
    destruct (Z.of_nat (List.length got) =? 0) eqn:Hz; cbv beta iota;
      match goal with |- context [bind _ _ ?y] =>
        destruct (server_tail server_sd client_sd
                    (if Z.of_nat (List.length got) =? 0 then 0
                     else Z.of_nat (List.length got)) y)
          as (w5 & E5 & Hle & Hgt)
      end; rewrite Hz in E5, Hle, Hgt; rewrite E5; intros [= <- <-].
    + destruct Hle as [I5 T5]; [lia|].
      apply (nothing_received _ _ _ client_sd (Z.of_nat (List.length got)));
        [reflexivity | lia | | rewrite T5; exact T].
      rewrite I5. unfold io at 1. simpl. rewrite filter_app. simpl.
      fold (io w3). now rewrite I.
    + assert (0 < Z.of_nat (List.length got)) as Hpos by lia.
      assert (io (snd ((take_off_wire got ;;
                        log (Recv client_sd 99 (Z.of_nat (List.length got))) ;;
                        printf ("Received " ++ dec (Z.of_nat (List.length got)) ++
                                " bytes" ++ endl) ;;
                        printf ("Message: " ++
                                text (c_str (received_buffer 100 got)) ++ endl)) w3))
              = (io w ++ [Recv client_sd 99 (Z.of_nat (List.length got))])%list) as Iy.
      { unfold io at 1. simpl. rewrite filter_app. simpl. fold (io w3). now rewrite I. }
      destruct (Hgt Hpos) as [[I5 T5] | [I5 T5]]; rewrite Iy in I5.
      * apply (answered _ _ _ client_sd (Z.of_nat (List.length got)));
          [reflexivity | exact Hpos | | ].
        -- rewrite I5, <- app_assoc. reflexivity.
        -- rewrite T5. simpl. now rewrite T.
      * apply (answer_failed _ _ _ client_sd (Z.of_nat (List.length got)));
          [reflexivity | exact Hpos | | ].
        -- rewrite I5, <- app_assoc. reflexivity.
        -- rewrite T5. simpl. exact T.
  - cbv beta iota.
    match goal with |- context [bind _ _ ?y] =>
      destruct (server_tail server_sd client_sd (-1) y) as (w5 & E5 & Hle & _)
    end.
    rewrite E5. intros [= <- <-].
    destruct Hle as [I5 T5]; [lia|].
    apply (nothing_received _ _ _ client_sd (-1));
      [reflexivity | lia | | rewrite T5; exact T].
    rewrite I5. unfold io at 1. simpl. rewrite filter_app. simpl.
    fold (io w3). now rewrite I.
Qed.

Lemma in_io c w : In c (w_trace w) -> is_io c = true -> In c (io w).
Proof. intros H I. apply filter_In. now split. Qed.

(** C3. When the server's [recv] returns 0 -- the client connected and
    closed without sending -- the server makes no [send] call at all and
    exits with status 0. *)
Theorem silent_client_gets_no_response argv w o w' sd len :
  w_trace w = [] ->
  run (Server.main argv) w = (o, w') ->
  In (Recv sd len 0) (w_trace w') ->
  o = Exited 0 /\ forall sd' data ret, ~ In (Send sd' data ret) (w_trace w').
Proof.
  intros Hfresh Hrun Hrecv.
  assert (io w = []) as I0 by (unfold io; now rewrite Hfresh).
  apply in_io in Hrecv; [|reflexivity].
  destruct (server_main_exchange argv w o w' Hrun)
    as [Ho I T | sd0 rc Ho Hrc I T | sd0 rc Ho Hrc I T | sd0 rc Ho Hrc I T];
    rewrite I0 in I; simpl in I; rewrite I in Hrecv; simpl in Hrecv.
  - contradiction.
  - split; [exact Ho|]. intros sd' data ret Hsend.
    apply in_io in Hsend; [|reflexivity]. rewrite I in Hsend.
    destruct Hsend as [Hsend | []]. discriminate.
  - destruct Hrecv as [E | [E | []]]; [inversion E; lia | discriminate].
  - destruct Hrecv as [E | [E | []]]; [inversion E; lia | discriminate].
Qed.

Lemma silent_client_gets_no_response_witness :
  let w := fresh_world (friendly_os (Some [])) [] in
  let r := run (Server.main ["server"; "9000"]) w in
  In (Recv 4 99 0) (w_trace (snd r)) /\
  fst r = Exited 0 /\
  forall sd' data ret, ~ In (Send sd' data ret) (w_trace (snd r)).
Proof.
  intros w r.
  assert (In (Recv 4 99 0) (w_trace (snd r))) as H
    by (vm_compute; intuition).
  split; [exact H|].
  exact (silent_client_gets_no_response ["server"; "9000"] w (fst r) (snd r) 4 99%nat
           eq_refl (surjective_pairing r) H).
Defined.

(** C5. When the server's [recv] returned [rc > 0], the [send] and
    [recv] calls of the whole run are that [recv] and one [send], on the
    same socket, of the 34 bytes of ["Server acknowledged your message!"]
    and its terminating null byte; when the [send] succeeds these 34
    bytes are all the server has put on the connection, and when it
    fails nothing is. *)
Theorem response_is_the_fixed_string argv w o w' sd len rc :
  w_trace w = [] -> w_sent w = [] ->
  run (Server.main argv) w = (o, w') ->
  In (Recv sd len rc) (w_trace w') -> 0 < rc ->
  let response := (chars "Server acknowledged your message!" ++ [NUL])%list in
  List.length response = 34%nat /\
  exists ret,
    io w' = [Recv sd len rc; Send sd response ret] /\
    (ret = 34 /\ w_sent w' = response \/ ret = -1 /\ w_sent w' = []).
Proof.
  intros Hfresh Hsent Hrun Hrecv Hpos response.
  split; [reflexivity|].
  assert (io w = []) as I0 by (unfold io; now rewrite Hfresh).
  apply in_io in Hrecv; [|reflexivity].
  destruct (server_main_exchange argv w o w' Hrun)
    as [Ho I T | sd0 rc0 Ho Hrc I T | sd0 rc0 Ho Hrc I T | sd0 rc0 Ho Hrc I T];
    rewrite I0 in I; simpl in I; rewrite I in Hrecv; simpl in Hrecv;
    rewrite Hsent in T; simpl in T.
  - contradiction.
  - destruct Hrecv as [E | []]. inversion E. lia.
  - destruct Hrecv as [E | [E | []]]; [inversion E; subst | discriminate].
    exists 34. split; [exact I | left; now split].
  - destruct Hrecv as [E | [E | []]]; [inversion E; subst | discriminate].
    exists (-1). split; [exact I | right; now split].
Qed.

Lemma response_is_the_fixed_string_witness :
  let w := fresh_world (friendly_os (Some (literal "hello"))) [] in
  let r := run (Server.main ["server"; "9000"]) w in
  In (Recv 4 99 6) (w_trace (snd r)) /\
  exists ret,
    io (snd r) = [Recv 4 99 6; Send 4 (literal Server.RESPONSE) ret] /\
    (ret = 34 /\ w_sent (snd r) = literal Server.RESPONSE \/
     ret = -1 /\ w_sent (snd r) = []).
Proof.
  intros w r.
  assert (In (Recv 4 99 6) (w_trace (snd r))) as H
    by (vm_compute; intuition).
  split; [exact H|].
  apply (response_is_the_fixed_string ["server"; "9000"] w (fst r) (snd r) 4 99%nat 6
           eq_refl eq_refl (surjective_pairing r) H).
  lia.
Defined.

(** ** The address argument and its array *)

(** C10.  [parse_arguments] copies [argv[1]] with [strcpy] into the
    29-byte array of [main]: one byte more than the argument has
    characters is written.  The copy stays inside the array exactly when
    the argument has at most 28 characters; for a longer one the write
    runs past the end of the array, and so does every run of the
    client. *)
Theorem address_must_fit prog ip port rest w serverIP :
  List.length serverIP = 29%nat ->
  let argv := prog :: ip :: port :: rest in
  let argc := Z.of_nat (List.length argv) in
  List.length (literal ip) = S (String.length ip) /\
  (fst (Client.parse_arguments argc argv serverIP w) = Undefined <->
   (28 < String.length ip)%nat) /\
  ((String.length ip <= 28)%nat ->
   strcpy serverIP ip w =
     (Ret (literal ip ++ skipn (S (String.length ip)) serverIP)%list, w)) /\
  ((28 < String.length ip)%nat ->
   strcpy serverIP ip w = (Undefined, w) /\
   run (Client.main argv) w = (Goes_wrong, w)).
Proof.
  intros Hlen argv argc.
  assert (strcpy serverIP ip w =
          if (String.length ip <=? 28)%nat
          then (Ret (literal ip ++ skipn (S (String.length ip)) serverIP)%list, w)
          else (Undefined, w)) as Hcopy.
  { unfold strcpy, overwrite. rewrite literal_length, Hlen.
    change (S (String.length ip) <=? 29)%nat with (String.length ip <=? 28)%nat.
    destruct (String.length ip <=? 28)%nat; reflexivity. }
  assert ((argc <? 3) = false) as Hargc
    by (apply Z.ltb_ge; subst argc argv; simpl List.length; lia).
  split; [apply literal_length|]. split; [|split].
  - unfold Client.parse_arguments. rewrite Hargc.
    unfold bind at 1, ret at 1. unfold bind at 1. simpl nth. rewrite Hcopy.
    destruct (String.length ip <=? 28)%nat eqn:E.
    + apply Nat.leb_le in E. split; [|lia].
      steps. destruct ((_ <=? 0) || _); discriminate.
    + apply Nat.leb_gt in E. split; [lia | reflexivity].
  - intros H. apply Nat.leb_le in H. now rewrite H in Hcopy.
  - intros H. apply Nat.leb_gt in H. rewrite H in Hcopy.
    split; [exact Hcopy|].
    unfold run, Client.main.
    destruct (uninitialised_length 29 w) as (a & Ea & La).
    unfold bind at 1. rewrite Ea.
    unfold bind at 1, Client.parse_arguments. fold argv argc. rewrite Hargc.
    unfold bind at 1, ret at 1. unfold bind at 1. simpl nth.
    unfold strcpy. rewrite literal_length, La.
    change (S (String.length ip) <=? 29)%nat with (String.length ip <=? 28)%nat.
    rewrite H. reflexivity.
Qed.

Lemma address_must_fit_witness :
  let long := "an.address.of.29.characters.." in
  String.length long = 29%nat /\
  run (Client.main ["client"; long; "9000"])
      (fresh_world (friendly_os None) hello_line)
  = (Goes_wrong, fresh_world (friendly_os None) hello_line).
Proof.
  intros long. split; [reflexivity|].
  apply (address_must_fit "client" long "9000" []
           (fresh_world (friendly_os None) hello_line) (repeat NUL 29) eq_refl).
  vm_compute. lia.
Defined.

(** ** One message from the client *)

Lemma read_line_newline k msg rest :
  (List.length msg < k)%nat -> forallb plain msg = true ->
  read_line k (msg ++ NL :: rest)%list = ((msg ++ [NL])%list, rest).
Proof.
  revert k. induction msg as [|c msg IH]; intros k Hk Hp.
  - destruct k; [simpl in Hk; lia|]. reflexivity.
  - destruct k; [simpl in Hk; lia|]. simpl in Hk, Hp |- *.
    apply andb_prop in Hp. destruct Hp as [Hc Hp].
    unfold plain in Hc. apply andb_prop in Hc. destruct Hc as [_ Hc].
    apply negb_true_iff in Hc. rewrite Hc.
    rewrite IH by (trivial; lia). reflexivity.
Qed.

Lemma strcspn_newline msg r :
  forallb plain msg = true ->
  strcspn (msg ++ NL :: r)%list [NL] = Some (List.length msg).
Proof.
  induction msg as [|c msg IH]; intros Hp; [reflexivity|].
  simpl in Hp |- *. apply andb_prop in Hp. destruct Hp as [Hc Hp].
  unfold plain in Hc. apply andb_prop in Hc. destruct Hc as [Hn Hl].
  apply negb_true_iff in Hn, Hl. rewrite Hn, Hl. simpl.
  now rewrite IH.
Qed.

Lemma plain_no_nul msg :
  forallb plain msg = true -> Forall (fun c => is_nul c = false) msg.
Proof.
  intros H. apply Forall_forall. intros c Hc.
  apply (proj1 (forallb_forall _ _) H) in Hc.
  unfold plain in Hc. apply andb_prop in Hc. now apply negb_true_iff.
Qed.

Lemma firstn_terminated (msg r : bytes) :
  firstn (List.length msg + 1) (msg ++ NUL :: r)%list = (msg ++ [NUL])%list.
Proof.
  rewrite firstn_app. replace (List.length msg + 1 - List.length msg)%nat with 1%nat by lia.
  rewrite firstn_all2 by lia. reflexivity.
Qed.

Lemma fgets_line a w msg rest :
  List.length a = 100%nat ->
  (List.length msg <= 98)%nat -> forallb plain msg = true ->
  w_stdin w = (msg ++ NL :: rest)%list ->
  fgets a 100 w =
    (Ret (msg ++ NL :: NUL :: skipn (List.length msg + 2) a)%list,
     snd (set_stdin rest w)).
Proof.
  intros La Hlen Hplain Hin. unfold fgets.
  rewrite Hin, read_line_newline by (trivial; simpl; lia).
  rewrite length_app, La. simpl List.length.
  replace (List.length msg + 1 + 1 <=? 100)%nat with true
    by (symmetry; apply Nat.leb_le; lia).
  unfold overwrite. rewrite !length_app. simpl List.length.
  rewrite <- !app_assoc. simpl.
  replace (List.length msg + 1 + 1)%nat with (List.length msg + 2)%nat by lia.
  destruct msg; reflexivity.
Qed.

Lemma printf_run s w : printf s w = (Ret tt, snd (printf s w)).
Proof. reflexivity. Qed.

Lemma send_spec sd data w :
  send sd data w =
  if os_send_ok (w_os w) then
    (Ret (Z.of_nat (List.length data)),
     snd ((put_on_wire data ;; log (Send sd data (Z.of_nat (List.length data)))) w))
  else (Ret (-1), snd (log (Send sd data (-1)) w)).
Proof. unfold send. steps. destruct (os_send_ok (w_os w)); reflexivity. Qed.

(** What [send_message] does with a line of at most 98 characters. *)
Lemma send_message_line sd w msg rest :
  (List.length msg <= 98)%nat -> forallb plain msg = true ->
  w_stdin w = (msg ++ NL :: rest)%list ->
  exists w',
    Client.send_message sd w = (Ret (status_of (os_send_ok (w_os w))), w') /\
    w_stdin w' = rest /\
    w_sent w' = (w_sent w ++ if os_send_ok (w_os w) then msg ++ [NUL] else [])%list /\
    io w' = (io w ++ [Send sd (msg ++ [NUL])
                        (if os_send_ok (w_os w)
                         then Z.of_nat (List.length msg + 1) else -1)])%list.
Proof.
  intros Hlen Hplain Hin. unfold Client.send_message.
  change (Z.to_nat Client.BUFFER_SIZE) with 100%nat.
  destruct (uninitialised_length 100 w) as (a & Ea & La).
  unfold bind at 1. rewrite Ea. cbv beta iota.
  unfold bind at 1. rewrite printf_run. cbv beta iota.
  set (w1 := snd (printf "Enter a message to send: " w)).
  unfold bind at 1. rewrite (fgets_line a w1 msg rest La Hlen Hplain Hin).
  cbv beta iota.
  unfold bind at 1. rewrite strcspn_newline by exact Hplain.
  unfold defined at 1, ret at 1. cbv beta iota.
  unfold bind at 1, assign. rewrite length_app.
  replace (List.length msg <? _)%nat with true
    by (symmetry; apply Nat.ltb_lt; cbn [List.length]; lia).
  unfold ret at 1. cbv beta iota. rewrite store_at_end.
  set (tail := (NUL :: skipn (List.length msg + 2) a)).
  unfold strlen.
  rewrite (cstring_terminated (msg ++ NUL :: tail)%list) by (apply in_elt).
  rewrite (c_str_no_nul msg tail (plain_no_nul msg Hplain)).
  unfold bind at 1, defined at 1, ret at 1. cbv beta iota.
  unfold bind at 1. rewrite printf_run. cbv beta iota.
  unfold bind at 1. simpl option_map. unfold defined at 1, ret at 1. cbv beta iota.
  unfold bind at 1. rewrite printf_run. cbv beta iota.
  rewrite firstn_terminated.
  unfold bind at 1. rewrite send_spec. subst w1.
  destruct (os_send_ok (w_os w)) eqn:Hok; simpl os_send_ok; simpl w_os;
    rewrite Hok; cbv beta iota.
  - replace (Z.of_nat (List.length (msg ++ [NUL])%list) <? 0) with false
      by (symmetry; apply Z.ltb_ge; lia).
    eexists. split; [reflexivity|]. simpl.
    unfold io. simpl. rewrite filter_app. simpl.
    rewrite !length_app. simpl List.length. auto.
  - change (-1 <? 0) with true. cbv iota.
    eexists. split; [reflexivity|]. simpl.
    unfold io. simpl. rewrite filter_app. simpl.
    rewrite app_nil_r. auto.
Qed.

(** ** A run in which every system call succeeds *)

Lemma all_ok_inv os :
  all_ok os = true ->
  os_socket_ok os = true /\ os_setsockopt_ok os = true /\ os_bind_ok os = true /\
  os_listen_ok os = true /\ os_accept_ok os = true /\ os_connect_ok os = true /\
  os_send_ok os = true.
Proof.
  unfold all_ok. intros H.
  repeat (apply andb_prop in H; destruct H as [H ?]). auto 10.
Qed.

(** Steps that are defined without looking at the part of the world
    they are asked about. *)
#[local] Hint Extern 3 (keeps _ _) => (intros ?; reflexivity) : frame.

Lemma received_fgets b n : keeps w_received (fgets b n).
Proof.
  intros w. unfold fgets. destruct (w_stdin w); [reflexivity|].
  destruct (read_line _ _). destruct (_ <=? _)%nat; reflexivity.
Qed.
#[local] Hint Resolve received_fgets : frame.

Ltac untouched :=
  unfold perror, new_fd, socket, setsockopt, bind_, listen, accept, connect,
    close, send, recv;
  frame.

Lemma stdin_create_client_socket ip port :
  keeps w_stdin (Client.create_client_socket ip port).
Proof. unfold Client.create_client_socket. untouched. Qed.
Lemma sent_create_client_socket ip port :
  keeps w_sent (Client.create_client_socket ip port).
Proof. unfold Client.create_client_socket. untouched. Qed.
Lemma sent_receive_response sd : keeps w_sent (Client.receive_response sd).
Proof. unfold Client.receive_response. untouched. Qed.
Lemma sent_client_cleanup sd : keeps w_sent (Client.cleanup sd).
Proof. unfold Client.cleanup. untouched. Qed.
Lemma received_create_client_socket ip port :
  keeps w_received (Client.create_client_socket ip port).
Proof. unfold Client.create_client_socket. untouched. Qed.
Lemma received_send_message sd : keeps w_received (Client.send_message sd).
Proof. unfold Client.send_message. untouched. Qed.
Lemma received_client_cleanup sd : keeps w_received (Client.cleanup sd).
Proof. unfold Client.cleanup. untouched. Qed.

Lemma received_create_server_socket port :
  keeps w_received (Server.create_server_socket port).
Proof. unfold Server.create_server_socket. untouched. Qed.
Lemma received_accept_client sd : keeps w_received (Server.accept_client sd).
Proof. unfold Server.accept_client. untouched. Qed.
Lemma received_server_cleanup s c : keeps w_received (Server.cleanup s c).
Proof. unfold Server.cleanup. untouched. Qed.

Lemma client_parse_arguments_ok prog ip port more a w :
  List.length a = 29%nat -> (String.length ip <= 28)%nat ->
  bad_port port = false ->
  Client.parse_arguments (Z.of_nat (List.length (prog :: ip :: port :: more)))
    (prog :: ip :: port :: more) a w
  = (Ret (overwrite a (literal ip), atoi port), w).
Proof.
  intros La Hip Hport. unfold Client.parse_arguments.
  replace (Z.of_nat (List.length (prog :: ip :: port :: more)) <? 3) with false
    by (symmetry; apply Z.ltb_ge; simpl List.length; lia).
  unfold strcpy. simpl nth. rewrite literal_length, La.
  replace (S (String.length ip) <=? 29)%nat with true
    by (symmetry; apply Nat.leb_le; lia).
  fold (atoi port). unfold bad_port in Hport. rewrite Hport.
  reflexivity.
Qed.

Lemma server_parse_arguments_ok prog port more w :
  bad_port port = false ->
  Server.parse_arguments (Z.of_nat (List.length (prog :: port :: more)))
    (prog :: port :: more) w
  = (Ret (atoi port), w).
Proof.
  intros Hport. unfold Server.parse_arguments.
  replace (Z.of_nat (List.length (prog :: port :: more)) <? 2) with false
    by (symmetry; apply Z.ltb_ge; simpl List.length; lia).
  simpl nth. unfold bad_port in Hport. rewrite Hport.
  reflexivity.
Qed.

Lemma create_client_socket_ok ip port w :
  os_socket_ok (w_os w) = true -> os_connect_ok (w_os w) = true ->
  In NUL ip ->
  exists sd w', Client.create_client_socket ip port w = (Ret sd, w').
Proof.
  intros Hs Hc Hip. unfold Client.create_client_socket, defined.
  rewrite (cstring_terminated ip Hip). steps. rewrite Hs. simpl.
  rewrite lowest_free_not_negative. simpl. rewrite Hc. simpl. eauto.
Qed.

Lemma create_server_socket_ok port w :
  all_ok (w_os w) = true ->
  exists sd w', Server.create_server_socket port w = (Ret sd, w').
Proof.
  intros H. apply all_ok_inv in H. destruct H as (Hs & Ho & Hb & Hl & _).
  unfold Server.create_server_socket. steps. rewrite Hs. simpl.
  rewrite lowest_free_not_negative. simpl. rewrite Ho. simpl.
  rewrite Hb. simpl. rewrite Hl. simpl. eauto.
Qed.

Lemma accept_client_ok sd w :
  os_accept_ok (w_os w) = true ->
  exists c w', Server.accept_client sd w = (Ret c, w').
Proof.
  intros H. unfold Server.accept_client. steps. rewrite H. simpl.
  rewrite lowest_free_not_negative. simpl. eauto.
Qed.

Lemma client_cleanup_returns sd w : fst (Client.cleanup sd w) = Ret tt.
Proof. unfold Client.cleanup. steps. destruct (sd >=? 0); reflexivity. Qed.

Lemma overwrite_literal_terminated a s : In NUL (overwrite a (literal s)).
Proof.
  unfold overwrite, literal. rewrite <- app_assoc. apply in_or_app. right.
  now left.
Qed.

(** The client, given a line of at most 98 characters and a system in
    which every call succeeds: what it sends and what it receives. *)
Lemma client_run_line prog ip port more msg rest w :
  (String.length ip <= 28)%nat -> bad_port port = false ->
  all_ok (w_os w) = true ->
  (List.length msg <= 98)%nat -> forallb plain msg = true ->
  w_stdin w = (msg ++ NL :: rest)%list ->
  exists w',
    run (Client.main (prog :: ip :: port :: more)) w = (Exited 0, w') /\
    w_sent w' = (w_sent w ++ msg ++ [NUL])%list /\
    w_received w' =
      (w_received w ++ match os_recv (w_os w) with
                       | Some d => firstn 99 d
                       | None => []
                       end)%list.
Proof.
  intros Hip Hport Hok Hlen Hplain Hin.
  destruct (all_ok_inv _ Hok) as (Hs & _ & _ & _ & _ & Hc & Hsend).
  unfold run, Client.main.
  destruct (uninitialised_length 29 w) as (a & Ea & La).
  unfold bind at 1. rewrite Ea. cbv beta iota.
  unfold bind at 1. rewrite client_parse_arguments_ok by assumption.
  cbv beta iota.
  destruct (create_client_socket_ok (overwrite a (literal ip)) (atoi port) w Hs Hc
              (overwrite_literal_terminated a ip)) as (sd & w2 & E2).
  pose proof (keeps_run w_os _ _ _ _ (os_create_client_socket _ _) E2) as O2.
  pose proof (keeps_run w_stdin _ _ _ _ (stdin_create_client_socket _ _) E2) as I2.
  pose proof (keeps_run w_sent _ _ _ _ (sent_create_client_socket _ _) E2) as S2.
  pose proof (keeps_run w_received _ _ _ _ (received_create_client_socket _ _) E2) as R2.
  unfold bind at 1. rewrite E2. cbv beta iota.
  rewrite <- I2 in Hin.
  destruct (send_message_line sd w2 msg rest Hlen Hplain Hin)
    as (w3 & E3 & _ & S3 & _).
  pose proof (keeps_run w_os _ _ _ _ (os_send_message _) E3) as O3.
  pose proof (keeps_run w_received _ _ _ _ (received_send_message _) E3) as R3.
  rewrite O2, Hsend in E3, S3. simpl status_of in E3.
  unfold bind at 1. rewrite E3. cbv beta iota.
  change (0 =? 0) with true. cbv iota.
  unfold bind at 1. unfold bind at 1.
  pose proof (sent_receive_response sd w3) as S4.
  assert (exists v b, fst (Client.receive_response sd w3) = Ret (v, b) /\
            w_received (snd (Client.receive_response sd w3)) =
            (w_received w3 ++ match os_recv (w_os w3) with
                              | Some d => firstn 99 d
                              | None => []
                              end)%list) as (v & b & E4 & R4).
  { rewrite receive_response_spec.
    destruct (os_recv (w_os w3)) as [d|].
    - cbv zeta. destruct (Z.of_nat _ =? 0); simpl; eauto.
    - simpl. rewrite app_nil_r. eauto. }
  destruct (Client.receive_response sd w3) as [r4 w4]. simpl in E4, R4, S4.
  subst r4. cbv beta iota. unfold ret at 1. cbv beta iota.
  unfold bind at 1.
  pose proof (client_cleanup_returns sd w4) as E5.
  pose proof (sent_client_cleanup sd w4) as S5.
  pose proof (received_client_cleanup sd w4) as R5.
  destruct (Client.cleanup sd w4) as [r5 w5]. simpl in E5, S5, R5. subst r5.
  cbv beta iota. unfold ret.
  exists w5. split; [reflexivity|]. split.
  - rewrite S5, S4, S3, S2. reflexivity.
  - rewrite R5, R4, R3, R2, O3, O2. reflexivity.
Qed.

(** The server, given pending bytes and a system in which every call
    succeeds. *)
Lemma server_run_message prog port more d w :
  bad_port port = false -> all_ok (w_os w) = true ->
  os_recv (w_os w) = Some d -> firstn 99 d <> [] ->
  exists w',
    run (Server.main (prog :: port :: more)) w = (Exited 0, w') /\
    w_sent w' = (w_sent w ++ literal Server.RESPONSE)%list /\
    w_received w' = (w_received w ++ firstn 99 d)%list.
Proof.
  intros Hport Hok Hd Hgot.
  destruct (all_ok_inv _ Hok) as (_ & _ & _ & _ & Ha & _ & Hsend).
  unfold run, Server.main.
  change (Z.to_nat Server.BUFFER_SIZE) with 100%nat.
  destruct (uninitialised_length 100 w) as (buf0 & E0 & L0).
  unfold bind at 1. rewrite E0. cbv beta iota.
  unfold bind at 1. rewrite server_parse_arguments_ok by assumption.
  cbv beta iota.
  destruct (create_server_socket_ok (atoi port) w Hok) as (s & w2 & E2).
  pose proof (keeps_run w_os _ _ _ _ (os_create_server_socket _) E2) as O2.
  pose proof (keeps_run w_sent _ _ _ _ (sent_create_server_socket _) E2) as S2.
  pose proof (keeps_run w_received _ _ _ _ (received_create_server_socket _) E2) as R2.
  unfold bind at 1. rewrite E2. cbv beta iota.
  rewrite <- O2 in Ha.
  destruct (accept_client_ok s w2 Ha) as (c & w3 & E3).
  pose proof (keeps_run w_os _ _ _ _ (os_accept_client _) E3) as O3.
  pose proof (keeps_run w_sent _ _ _ _ (sent_accept_client _) E3) as S3.
  pose proof (keeps_run w_received _ _ _ _ (received_accept_client _) E3) as R3.
  unfold bind at 1. rewrite E3. cbv beta iota.
  unfold bind at 1.
  rewrite (receive_message_spec c buf0 Server.BUFFER_SIZE w3)
    by (try exact L0; unfold Server.BUFFER_SIZE, INT_MAX; lia).
  change (Z.to_nat Server.BUFFER_SIZE) with 100%nat.
  change (100 - 1)%nat with 99%nat.
  rewrite O3, O2, Hd. cbv zeta.
  assert (0 < Z.of_nat (List.length (firstn 99 d))) as Hpos.
  { destruct (firstn 99 d); [contradiction | simpl; lia]. }
  replace (Z.of_nat (List.length (firstn 99 d)) =? 0) with false
    by (symmetry; apply Z.eqb_neq; lia).
  cbv beta iota.
  replace (Z.of_nat (List.length (firstn 99 d)) >? 0) with true
    by (symmetry; apply Z.gtb_lt; lia).
  unfold bind at 1. unfold bind at 1.
  rewrite send_response_spec. simpl w_os. rewrite O3, O2, Hsend.
  cbv beta iota. unfold ret at 1. cbv beta iota.
  unfold bind at 1.
  match goal with |- context [Server.cleanup s c ?x] =>
    pose proof (server_cleanup_returns s c x) as E5;
    pose proof (sent_server_cleanup s c x) as S5;
    pose proof (received_server_cleanup s c x) as R5;
    destruct (Server.cleanup s c x) as [r5 w5]
  end.
  simpl in E5, S5, R5. subst r5. cbv beta iota. unfold ret.
  exists w5. split; [reflexivity|]. split.
  - rewrite S5, S3, S2. reflexivity.
  - rewrite R5, R3, R2. reflexivity.
Qed.

(** ** The exchange *)

(** C8.  The scenario of the specification: the server is started on
    port 9000, the client is run with [127.0.0.1 9000], the operator
    enters [hello].  The client sends the 6 bytes of [hello] and its
    terminator, without the newline; the two consoles show the lines
    below. *)
Theorem hello_scenario :
  let wc := fresh_world (friendly_os (Some (literal Server.RESPONSE))) hello_line in
  let ws := fresh_world (friendly_os (Some (literal "hello"))) [] in
  let client := run (Client.main ["./client"; "127.0.0.1"; "9000"]) wc in
  let server := run (Server.main ["./server"; "9000"]) ws in
  os_recv (w_os ws) = Some (w_sent (snd client)) /\
  os_recv (w_os wc) = Some (w_sent (snd server)) /\
  w_stdin wc = (chars "hello" ++ [NL])%list /\
  w_sent (snd client) = (chars "hello" ++ [NUL])%list /\
  List.length (w_sent (snd client)) = 6%nat /\
  w_stdout (snd server) =
    [ "Server is listening on port 9000..." ++ endl;
      "Waiting for a client to connect..." ++ endl;
      "Client connected successfully from 127.0.0.1:50000" ++ endl;
      "Received 6 bytes" ++ endl;
      "Message: hello" ++ endl;
      "Response sent: Server acknowledged your message!" ++ endl;
      "Server shut down. All sockets closed." ++ endl ] /\
  w_stdout (snd client) =
    [ "Connected to server at 127.0.0.1:9000" ++ endl;
      "Enter a message to send: ";
      "You are sending 'hello'" ++ endl;
      "The length of the string is 5 bytes" ++ endl;
      "Sent 6 bytes to the server" ++ endl;
      "Server response: Server acknowledged your message!" ++ endl;
      "Connection closed." ++ endl ] /\
  fst client = Exited 0 /\ fst server = Exited 0.
Proof. vm_compute. repeat split; reflexivity. Qed.

Lemma sockets_closed_before_exit_witness :
  let r := run (Server.main ["server"; "9000"]) (fresh_world accept_fails []) in
  fst r = Exited 1 /\
  w_trace (snd r) =
    [Socket 3; Setsockopt 3 0; Bind 3 9000 0; Listen 3 5 0; Accept 3 (-1); Close 3] /\
  w_fds (snd r) = [0; 1; 2].
Proof.
  intros r. split; [reflexivity|]. split; [reflexivity|].
  apply (sockets_closed_before_exit ["server"; "9000"]
           (fresh_world accept_fails []) 1 (snd r)).
  right. vm_compute. reflexivity.
Defined.

(** * Further properties *)

(** ** Decimal numerals *)

Lemma digits_numeral_acc d (acc : positive) :
  digits (Zpos acc) (chars (NilEmpty.string_of_uint d)) = Zpos (Pos.of_uint_acc d acc).
Proof.
  revert acc. induction d as [| d IH | d IH | d IH | d IH | d IH | d IH
                             | d IH | d IH | d IH | d IH]; intros acc;
    [reflexivity | ..];
    cbn [NilEmpty.string_of_uint chars list_ascii_of_string digits Pos.of_uint_acc];
    change (list_ascii_of_string ?s) with (chars s);
    match goal with
    | |- context [digit_of ?c] =>
        let v := eval vm_compute in (digit_of c) in change (digit_of c) with v
    end; cbv iota;
    match goal with
    | |- digits ?x _ = _ => let p := fresh in
        (replace x with (Zpos (Pos.mul 10 acc)) by lia) ||
        (match goal with |- _ = Zpos (Pos.of_uint_acc _ ?q) =>
           replace x with (Zpos q) by lia end)
    end; apply IH.
Qed.

Lemma digits_numeral d :
  digits 0 (chars (NilEmpty.string_of_uint d)) = Z.of_N (Pos.of_uint d).
Proof.
  induction d as [| d IH | d IH | d IH | d IH | d IH | d IH
                 | d IH | d IH | d IH | d IH];
    [reflexivity | ..];
    cbn [NilEmpty.string_of_uint chars list_ascii_of_string digits Pos.of_uint];
    change (list_ascii_of_string ?s) with (chars s);
    match goal with
    | |- context [digit_of ?c] =>
        let v := eval vm_compute in (digit_of c) in change (digit_of c) with v
    end; cbv iota;
    [ exact IH | .. ];
    match goal with
    | |- digits ?x _ = Z.of_N (N.pos (Pos.of_uint_acc _ ?q)) =>
        change x with (Zpos q); apply digits_numeral_acc
    end.
Qed.

(** A numeral does not start with white space or a sign. *)
Lemma strtol_numeral d :
  d <> Decimal.Nil ->
  strtol (NilEmpty.string_of_uint d) =
    Z.max LONG_MIN (Z.min LONG_MAX (Z.of_N (Pos.of_uint d))).
Proof.
  intros Hd. rewrite <- digits_numeral. unfold strtol.
  destruct d; [contradiction | reflexivity ..].
Qed.

Lemma numeral_of_uint d :
  d <> Decimal.Nil -> NilZero.string_of_uint d = NilEmpty.string_of_uint d.
Proof. destruct d; [contradiction | reflexivity ..]. Qed.

Lemma strtol_dec p : Zpos p <= LONG_MAX -> strtol (dec (Zpos p)) = Zpos p.
Proof.
  intros H. unfold dec. cbn [Z.to_int NilZero.string_of_int].
  pose proof (DecimalPos.Unsigned.to_uint_nonnil p) as Hn.
  rewrite numeral_of_uint, strtol_numeral by exact Hn.
  rewrite DecimalPos.Unsigned.of_to.
  unfold LONG_MIN, LONG_MAX in *. simpl Z.of_N. lia.
Qed.

Lemma atoi_dec p : 1 <= p <= INT_MAX -> atoi (dec p) = p.
Proof.
  intros H. destruct p as [| p | p]; try lia.
  unfold atoi. rewrite strtol_dec by (unfold INT_MAX, LONG_MAX in *; lia).
  unfold to_int, INT_MAX in *. rewrite Z.mod_small by lia. lia.
Qed.

(** ** The system calls of the server *)

Lemma server_parse_arguments_spec argc argv w :
  Server.parse_arguments argc argv w =
  if argc <? 2 then
    (Exit 1, snd (fprintf_stderr ("usage is: server <portnumber>" ++ endl) w))
  else if bad_port (nth 1 argv "") then
    (Exit 1, snd (fprintf_stderr (invalid_port_message (nth 1 argv "")) w))
  else (Ret (atoi (nth 1 argv "")), w).
Proof.
  unfold Server.parse_arguments, bad_port. steps.
  destruct (argc <? 2); simpl; [reflexivity|].
  destruct ((_ <=? 0) || _); reflexivity.
Qed.

Lemma create_server_socket_calls port w :
  let s := lowest_free (w_fds w) in
  let os := w_os w in
  match Server.create_server_socket port w with
  | (Ret sd, w') =>
      sd = s /\ w_fds w' = s :: w_fds w /\
      w_trace w' = (w_trace w ++ set_up s port)%list /\
      os_socket_ok os = true /\ os_setsockopt_ok os = true /\
      os_bind_ok os = true /\ os_listen_ok os = true
  | (Exit st, w') =>
      st = 1 /\ w_fds w' = w_fds w /\
      (os_socket_ok os = false /\ w_trace w' = (w_trace w ++ [Socket (-1)])%list \/
       os_socket_ok os = true /\ os_setsockopt_ok os = false /\
         w_trace w' = (w_trace w ++ [Socket s; Setsockopt s (-1); Close s])%list \/
       os_socket_ok os = true /\ os_setsockopt_ok os = true /\ os_bind_ok os = false /\
         w_trace w' = (w_trace w ++
                       [Socket s; Setsockopt s 0; Bind s port (-1); Close s])%list \/
       os_socket_ok os = true /\ os_setsockopt_ok os = true /\ os_bind_ok os = true /\
         os_listen_ok os = false /\
         w_trace w' = (w_trace w ++
                       [Socket s; Setsockopt s 0; Bind s port 0;
                        Listen s Server.BACKLOG (-1); Close s])%list)
  | (Undefined, _) => False
  end.
Proof.
  intros s os. subst s os. unfold Server.create_server_socket. steps.
  destruct (os_socket_ok (w_os w)); simpl.
  2: { split; [reflexivity|]. split; [reflexivity|]. left. now split. }
  rewrite lowest_free_not_negative. simpl.
  destruct (os_setsockopt_ok (w_os w)); simpl.
  2: { split; [reflexivity|]. split; [apply close_new|].
       right. left. rewrite <- !app_assoc. now repeat split. }
  destruct (os_bind_ok (w_os w)); simpl.
  2: { split; [reflexivity|]. split; [apply close_new|].
       right. right. left. rewrite <- !app_assoc. now repeat split. }
  destruct (os_listen_ok (w_os w)); simpl.
  2: { split; [reflexivity|]. split; [apply close_new|].
       right. right. right. rewrite <- !app_assoc. now repeat split. }
  rewrite <- !app_assoc. now repeat split.
Qed.

Lemma accept_client_calls s w :
  let c := lowest_free (w_fds w) in
  match Server.accept_client s w with
  | (Ret sd, w') =>
      sd = c /\ w_fds w' = c :: w_fds w /\
      w_trace w' = (w_trace w ++ [Accept s c])%list /\
      os_accept_ok (w_os w) = true
  | (Exit st, w') =>
      st = 1 /\ w_fds w' = without s (w_fds w) /\
      w_trace w' = (w_trace w ++ [Accept s (-1); Close s])%list /\
      os_accept_ok (w_os w) = false
  | (Undefined, _) => False
  end.
Proof.
  intros c. subst c. unfold Server.accept_client. steps.
  destruct (os_accept_ok (w_os w)); simpl.
  2: { rewrite <- !app_assoc. now repeat split. }
  rewrite lowest_free_not_negative. simpl. now repeat split.
Qed.

Lemma server_cleanup_calls s c w :
  0 <= s -> 0 <= c ->
  exists w',
    Server.cleanup s c w = (Ret tt, w') /\
    w_trace w' = (w_trace w ++ [Close c; Close s])%list /\
    w_fds w' = without s (without c (w_fds w)).
Proof.
  intros Hs Hc. unfold Server.cleanup. steps.
  apply Z.geb_le in Hs, Hc. rewrite Hs, Hc.
  eexists. split; [reflexivity|]. simpl. rewrite <- !app_assoc. now split.
Qed.

Lemma server_main_run argv w o w' :
  run (Server.main argv) w = (o, w') ->
  let s := lowest_free (w_fds w) in
  let c := lowest_free (s :: w_fds w) in
  exists calls,
    w_trace w' = (w_trace w ++ calls)%list /\
    server_run (w_os w) argv s c o calls.
Proof.
  intros Hrun s c. revert Hrun. unfold run, Server.main.
  change (Z.to_nat Server.BUFFER_SIZE) with 100%nat.
  destruct (uninitialised_length 100 w) as (buf0 & E0 & L0).
  unfold bind at 1. rewrite E0. cbv beta iota.
  unfold bind at 1. rewrite server_parse_arguments_spec.
  destruct (Z.of_nat (List.length argv) <? 2) eqn:Hargc.
  { intros [= <- <-]. exists []. split; [now rewrite app_nil_r|].
    apply rejected_arguments. now rewrite Hargc. }
  destruct (bad_port (nth 1 argv "")) eqn:Hport.
  { intros [= <- <-]. exists []. split; [now rewrite app_nil_r|].
    apply rejected_arguments. now rewrite Hargc, Hport. }
  assert ((Z.of_nat (List.length argv) <? 2) || bad_port (nth 1 argv "") = false)
    as Hargs by (now rewrite Hargc, Hport).
  cbv beta iota.
  set (port := atoi (nth 1 argv "")).
  unfold bind at 1.
  pose proof (create_server_socket_calls port w) as C2. cbv zeta in C2. fold s in C2.
  destruct (Server.create_server_socket port w) as [[sd | st | ] w2] eqn:E2;
    [ | | contradiction ].
  2: { destruct C2 as (-> & _ & [(H1 & T) | [(H1 & H2 & T) | [(H1 & H2 & H3 & T)
                                   | (H1 & H2 & H3 & H4 & T)]]]);
       intros [= <- <-]; eexists; (split; [exact T|]).
       - now apply socket_failed.
       - now apply setsockopt_failed.
       - now apply bind_failed.
       - now apply listen_failed. }
  destruct C2 as (-> & F2 & T2 & H1 & H2 & H3 & H4).
  pose proof (keeps_run w_os _ _ _ _ (os_create_server_socket _) E2) as O2.
  cbv beta iota. unfold bind at 1.
  pose proof (accept_client_calls s w2) as C3. cbv zeta in C3.
  rewrite F2 in C3. fold c in C3. rewrite O2 in C3.
  destruct (Server.accept_client s w2) as [[sd | st | ] w3] eqn:E3;
    [ | | contradiction ].
  2: { destruct C3 as (-> & _ & T3 & H5). intros [= <- <-].
       eexists. split; [rewrite T3, T2, <- app_assoc; reflexivity|].
       now apply accept_failed. }
  destruct C3 as (-> & F3 & T3 & H5).
  pose proof (keeps_run w_os _ _ _ _ (os_accept_client _) E3) as O3.
  assert (w_trace w3 = (w_trace w ++ set_up s port ++ [Accept s c])%list) as T
    by (rewrite T3, T2, <- app_assoc; reflexivity).
  assert (0 <= s) as Hs by (subst s; apply lowest_free_spec).
  assert (0 <= c) as Hc by (subst c; apply lowest_free_spec).
  clear E2 E3 T2 T3 F2 E0.
  cbv beta iota. unfold bind at 1.
  rewrite (receive_message_spec c buf0 Server.BUFFER_SIZE w3)
    by (try exact L0; unfold Server.BUFFER_SIZE, INT_MAX; lia).
  change (Z.to_nat Server.BUFFER_SIZE) with 100%nat.
  change (100 - 1)%nat with 99%nat.
  destruct (os_recv (w_os w3)) as [d|].
  - cbv zeta. set (rc := Z.of_nat (List.length (firstn 99 d))).
    assert (0 <= rc) as Hrc by (subst rc; lia).
    destruct (rc =? 0) eqn:Hz; cbv beta iota.
    + change (0 >? 0) with false. cbv iota.
      unfold bind at 1, ret at 1. cbv beta iota.
      unfold bind at 1.
      match goal with |- context [Server.cleanup s c ?x] =>
        destruct (server_cleanup_calls s c x Hs Hc) as (w5 & E5 & T5 & _)
      end.
      rewrite E5. cbv beta iota. unfold ret. intros [= <- <-].
      eexists. split.
      * rewrite T5. simpl w_trace. rewrite T, <- !app_assoc. reflexivity.
      * apply Z.eqb_eq in Hz.
        apply (no_message _ _ _ _ rc); auto. lia.
    + replace (rc >? 0) with true
        by (symmetry; apply Z.gtb_lt; apply Z.eqb_neq in Hz; lia).
      unfold bind at 1. unfold bind at 1.
      rewrite send_response_spec. simpl w_os. rewrite O3, O2.
      destruct (os_send_ok (w_os w)) eqn:Hsend; cbv beta iota;
        unfold ret at 1; cbv beta iota; unfold bind at 1;
        match goal with |- context [Server.cleanup s c ?x] =>
          destruct (server_cleanup_calls s c x Hs Hc) as (w5 & E5 & T5 & _)
        end;
        rewrite E5; cbv beta iota; unfold ret; intros [= <- <-];
        eexists; (split;
          [ rewrite T5; simpl w_trace; rewrite T, <- !app_assoc; reflexivity | ]);
        pose proof (message (w_os w) argv s c rc Hargs H1 H2 H3 H4 H5) as M;
        rewrite Hsend in M; apply M; apply Z.eqb_neq in Hz; lia.
  - cbv beta iota. change (-1 >? 0) with false. cbv iota.
    unfold bind at 1, ret at 1. cbv beta iota.
    unfold bind at 1.
    match goal with |- context [Server.cleanup s c ?x] =>
      destruct (server_cleanup_calls s c x Hs Hc) as (w5 & E5 & T5 & _)
    end.
    rewrite E5. cbv beta iota. unfold ret. intros [= <- <-].
    eexists. split.
    + rewrite T5. simpl w_trace. rewrite T, <- !app_assoc. reflexivity.
    + apply (no_message _ _ _ _ (-1)); auto. lia.
Qed.

(** X1.  The system calls of any run of the server, from first to last,
    and its exit status, are one of the eight sequences of [server_run]:
    [socket], [setsockopt], [bind] to the port of the command line,
    [listen] with backlog 5, [accept], [recv], [send], then [close] of
    the accepted and of the listening socket; the first call to fail
    ends the set-up, followed only by [close] of the listening socket
    and exit status 1; once a client is accepted the status is 0, and
    [send] is called exactly when [recv] returned more than 0. *)
Theorem server_system_calls argv w :
  let s := lowest_free (w_fds w) in
  let c := lowest_free (s :: w_fds w) in
  let r := run (Server.main argv) w in
  exists calls,
    w_trace (snd r) = (w_trace w ++ calls)%list /\
    server_run (w_os w) argv s c (fst r) calls.
Proof.
  exact (server_main_run argv w _ _ (surjective_pairing (run (Server.main argv) w))).
Qed.

(** X2.  The server never runs into undefined behaviour, whatever its
    arguments and whatever the system answers, and its exit status is 1
    exactly when an argument is missing or invalid or one of [socket],
    [setsockopt], [bind], [listen], [accept] fails; a failed [recv], a
    client that sent nothing and a failed [send] all end in status 0. *)
Theorem server_exit_status argv w :
  fst (run (Server.main argv) w) =
  Exited (if (Z.of_nat (List.length argv) <? 2) || bad_port (nth 1 argv "")
             || negb (os_socket_ok (w_os w)) || negb (os_setsockopt_ok (w_os w))
             || negb (os_bind_ok (w_os w)) || negb (os_listen_ok (w_os w))
             || negb (os_accept_ok (w_os w))
          then 1 else 0).
Proof.
  destruct (server_main_run argv w _ _ (surjective_pairing _)) as (calls & _ & R).
  destruct R;
    repeat match goal with
           | H : _ = true |- _ => rewrite H
           | H : _ = false |- _ => rewrite H
           end;
    cbn [orb negb]; rewrite ?orb_true_r; reflexivity.
Qed.

Lemma server_run_balanced os argv fds o calls sd :
  let s := lowest_free fds in
  let c := lowest_free (s :: fds) in
  server_run os argv s c o calls -> 0 <= sd ->
  List.length (List.filter (closes sd) calls) = List.length (List.filter (opens sd) calls) /\
  (List.length (List.filter (closes sd) calls) <= 1)%nat.
Proof.
  intros s c R Hsd.
  assert (c <> s) as Hcs.
  { intros E. apply (proj2 (lowest_free_spec (s :: fds))). fold c. rewrite E.
    now left. }
  assert (0 <= s) as Hs by apply lowest_free_spec.
  assert (0 <= c) as Hc by apply lowest_free_spec.
  destruct R; unfold set_up; cbn [app List.filter closes opens];
    repeat match goal with
           | |- context [?x =? sd] => destruct (Z.eqb_spec x sd); try lia
           end;
    cbn [List.length]; split; congruence || lia.
Qed.

(** X3.  In every run of the server, a descriptor handed out by
    [socket] or [accept] is closed exactly once, and no other descriptor
    is closed: for each descriptor the [close] calls are as many as the
    calls that returned it, and at most one. *)
Theorem server_closes_what_it_opened argv w o w' calls sd :
  run (Server.main argv) w = (o, w') ->
  w_trace w' = (w_trace w ++ calls)%list ->
  0 <= sd ->
  List.length (List.filter (closes sd) calls) = List.length (List.filter (opens sd) calls) /\
  (List.length (List.filter (closes sd) calls) <= 1)%nat.
Proof.
  intros Hrun Htrace Hsd.
  destruct (server_main_run argv w o w' Hrun) as (calls' & T & R).
  rewrite T in Htrace. apply app_inv_head in Htrace. subst calls'.
  exact (server_run_balanced _ _ _ _ _ sd R Hsd).
Qed.

Lemma server_closes_what_it_opened_witness :
  let calls := [Socket 3; Setsockopt 3 0; Bind 3 9000 0; Listen 3 5 0;
                Accept 3 4; Recv 4 99 0; Close 4; Close 3] in
  List.length (List.filter (closes 4) calls) = List.length (List.filter (opens 4) calls) /\
  (List.length (List.filter (closes 4) calls) <= 1)%nat.
Proof.
  intros calls.
  apply (server_closes_what_it_opened ["server"; "9000"]
           (fresh_world (friendly_os (Some [])) [])
           (fst (run (Server.main ["server"; "9000"])
                     (fresh_world (friendly_os (Some [])) [])))
           (snd (run (Server.main ["server"; "9000"])
                     (fresh_world (friendly_os (Some [])) [])))).
  - vm_compute. reflexivity.
  - vm_compute. reflexivity.
  - lia.
Defined.

(** ** What the client sends *)

Lemma strcspn_plain_prefix b :
  strcspn b [NL] =
  if forallb plain b then None else Some (List.length (plain_prefix b)).
Proof.
  induction b as [|c b IH]; [reflexivity|].
  cbn [strcspn forallb plain_prefix existsb].
  unfold plain at 1 3.
  destruct (is_nul c); cbn [negb andb orb]; [reflexivity|].
  destruct (Ascii.eqb c NL); cbn [negb andb orb]; [reflexivity|].
  rewrite IH. destruct (forallb plain b); reflexivity.
Qed.

Lemma plain_prefix_plain b : forallb plain (plain_prefix b) = true.
Proof.
  induction b as [|c b IH]; [reflexivity|]. simpl.
  destruct (plain c) eqn:E; [|reflexivity]. simpl. now rewrite E, IH.
Qed.

Lemma plain_prefix_split b :
  forallb plain b = false ->
  exists x rest, b = (plain_prefix b ++ x :: rest)%list.
Proof.
  induction b as [|c b IH]; [discriminate|]. simpl.
  destruct (plain c) eqn:E; simpl.
  - intros H. destruct (IH H) as (x & rest & Hb).
    exists x, rest. now rewrite <- Hb.
  - intros _. now exists c, b.
Qed.

Lemma plain_prefix_length b : (List.length (plain_prefix b) <= List.length b)%nat.
Proof.
  induction b as [|c b IH]; simpl; [lia|].
  destruct (plain c); simpl; lia.
Qed.

Lemma plain_prefix_app_stop l x r :
  plain x = false -> plain_prefix (l ++ x :: r)%list = plain_prefix l.
Proof.
  intros Hx. induction l as [|c l IH]; simpl.
  - now rewrite Hx.
  - destruct (plain c); [now rewrite IH | reflexivity].
Qed.

Lemma read_line_length k inp : (List.length (fst (read_line k inp)) <= k)%nat.
Proof.
  revert inp. induction k as [|k IH]; intros inp; [simpl; lia|].
  destruct inp as [|c r]; [simpl; lia|]. simpl.
  destruct (Ascii.eqb c NL); [simpl; lia|].
  specialize (IH r). destruct (read_line k r). simpl in *. lia.
Qed.

(** [fgets] stops after a newline, which is not part of the message:
    the message is cut from the first [k] characters of the input. *)
Lemma read_line_plain_prefix k inp :
  plain_prefix (fst (read_line k inp)) = plain_prefix (firstn k inp).
Proof.
  revert inp. induction k as [|k IH]; intros inp; [reflexivity|].
  destruct inp as [|c r]; [reflexivity|]. simpl.
  destruct (Ascii.eqb c NL) eqn:E.
  - simpl. unfold plain. rewrite E, andb_false_r. reflexivity.
  - specialize (IH r). destruct (read_line k r). simpl in *.
    now rewrite IH.
Qed.

Lemma line_buffer_length w : List.length (line_buffer w) = 100%nat.
Proof.
  unfold line_buffer.
  assert (List.length (firstn 100 (os_indeterminate (w_os w) ++ repeat NUL 100)%list)
          = 100%nat) as La
    by (rewrite length_firstn, length_app, repeat_length; lia).
  destruct (w_stdin w) as [|c r]; [exact La|].
  pose proof (read_line_length 99 (c :: r)) as Hl.
  revert Hl. generalize (fst (read_line 99 (c :: r))). intros l Hl.
  unfold overwrite. rewrite length_app, length_skipn, La, length_app.
  simpl List.length. lia.
Qed.

(** With input left, the message is cut from the input. *)
Lemma line_buffer_message w :
  w_stdin w <> [] ->
  forallb plain (line_buffer w) = false /\
  plain_prefix (line_buffer w) = plain_prefix (firstn 99 (w_stdin w)).
Proof.
  intros Hin. unfold line_buffer.
  destruct (w_stdin w) as [|c r] eqn:E; [contradiction|].
  unfold overwrite.
  pose proof (read_line_plain_prefix 99 (c :: r)) as Hp. revert Hp.
  generalize (fst (read_line 99 (c :: r))). intros l Hp.
  match goal with |- context [skipn ?n ?a] => generalize (skipn n a) end.
  intros t.
  replace ((l ++ [NUL]) ++ t)%list with (l ++ NUL :: t)%list
    by (rewrite <- app_assoc; reflexivity).
  split.
  - rewrite forallb_app. simpl. apply andb_false_r.
  - rewrite plain_prefix_app_stop by reflexivity. exact Hp.
Qed.

Lemma fgets_line_buffer a w :
  a = firstn 100 (os_indeterminate (w_os w) ++ repeat NUL 100)%list ->
  exists w1,
    fgets a 100 w = (Ret (line_buffer w), w1) /\
    w_stdin w1 = unread w /\ w_os w1 = w_os w /\ w_stdout w1 = w_stdout w /\
    w_stderr w1 = w_stderr w /\ w_trace w1 = w_trace w /\ w_sent w1 = w_sent w.
Proof.
  intros ->. unfold fgets, line_buffer, unread.
  destruct (w_stdin w) as [|c r] eqn:E.
  - exists w. now repeat split.
  - pose proof (read_line_length 99 (c :: r)) as Hl.
    change (100 - 1)%nat with 99%nat.
    destruct (read_line 99 (c :: r)) as [l rest]. simpl fst in *. simpl snd.
    rewrite length_firstn, length_app, repeat_length.
    replace (List.length l + 1 <=? _)%nat with true
      by (symmetry; apply Nat.leb_le; lia).
    eexists. split; [reflexivity|]. now repeat split.
Qed.

(** What [send_message] does when the array holds a terminator or a
    newline after [fgets]: it sends the characters before it. *)
Lemma send_message_sends sd w :
  forallb plain (line_buffer w) = false ->
  let m := plain_prefix (line_buffer w) in
  let ok := os_send_ok (w_os w) in
  exists w',
    Client.send_message sd w = (Ret (status_of ok), w') /\
    w_stdin w' = unread w /\
    w_trace w' = (w_trace w ++ [Send sd (m ++ [NUL])
                                  (if ok then Z.of_nat (List.length m + 1) else -1)])%list /\
    w_sent w' = (w_sent w ++ if ok then m ++ [NUL] else [])%list /\
    w_stdout w' =
      (w_stdout w ++
       ["Enter a message to send: ";
        ("You are sending '" ++ text m ++ "'" ++ endl)%string;
        ("The length of the string is " ++ dec (Z.of_nat (List.length m)) ++
         " bytes" ++ endl)%string]
       ++ if ok
          then [("Sent " ++ dec (Z.of_nat (List.length m + 1)) ++
                 " bytes to the server" ++ endl)%string]
          else [])%list /\
    w_stderr w' =
      (w_stderr w ++ if ok then []
                     else [("Error: send() failed: " ++ os_strerror (w_os w) ++
                            endl)%string])%list.
Proof.
  intros Hstop m ok. unfold Client.send_message.
  change (Z.to_nat Client.BUFFER_SIZE) with 100%nat.
  unfold bind at 1.
  change (uninitialised 100 w)
    with (Ret (firstn 100 (os_indeterminate (w_os w) ++ repeat NUL 100)%list), w).
  cbv beta iota.
  unfold bind at 1. rewrite printf_run. cbv beta iota.
  set (w1 := snd (printf "Enter a message to send: " w)).
  destruct (fgets_line_buffer _ w1 eq_refl)
    as (w2 & E2 & I2 & O2 & U2 & R2 & T2 & S2).
  change (line_buffer w1) with (line_buffer w) in E2.
  change (unread w1) with (unread w) in I2.
  unfold bind at 1.
  change (w_os w1) with (w_os w) in E2. rewrite E2. cbv beta iota.
  unfold bind at 1. rewrite strcspn_plain_prefix, Hstop.
  unfold defined at 1, ret at 1. cbv beta iota. fold m.
  destruct (plain_prefix_split _ Hstop) as (x & rest & Hb). fold m in Hb.
  unfold bind at 1, assign.
  pose proof (f_equal (@List.length byte) Hb) as Hlen.
  rewrite length_app in Hlen. cbn [List.length] in Hlen.
  replace (List.length m <? List.length (line_buffer w))%nat with true
    by (symmetry; apply Nat.ltb_lt; lia).
  clear Hlen.
  unfold ret at 1. cbv beta iota. rewrite Hb, store_at_end.
  pose proof (plain_prefix_plain (line_buffer w)) as Hm. fold m in Hm.
  unfold strlen.
  rewrite (cstring_terminated (m ++ NUL :: rest)%list) by (apply in_elt).
  rewrite (c_str_no_nul m rest (plain_no_nul m Hm)).
  unfold bind at 1, defined at 1, ret at 1. cbv beta iota.
  unfold bind at 1. rewrite printf_run. cbv beta iota.
  unfold bind at 1. simpl option_map. unfold defined at 1, ret at 1. cbv beta iota.
  unfold bind at 1. rewrite printf_run. cbv beta iota.
  rewrite firstn_terminated.
  unfold bind at 1. rewrite send_spec. simpl w_os. rewrite O2.
  change (w_os w1) with (w_os w). fold ok.
  destruct ok eqn:Hok; cbv beta iota.
  - replace (Z.of_nat (List.length (m ++ [NUL])%list) <? 0) with false
      by (symmetry; apply Z.ltb_ge; lia).
    eexists. split; [reflexivity|]. simpl.
    rewrite I2, R2, T2, S2, U2. subst w1. simpl.
    rewrite !length_app. simpl List.length. rewrite <- !app_assoc.
    rewrite app_nil_r. repeat split.
  - change (-1 <? 0) with true. cbv iota.
    eexists. split; [reflexivity|]. simpl.
    rewrite I2, R2, T2, S2, U2, O2. subst w1. simpl.
    rewrite <- !app_assoc. rewrite !app_nil_r. repeat split.
Qed.

(** When the array holds neither, [strcspn] reads past its end. *)
Lemma send_message_wrong sd w :
  forallb plain (line_buffer w) = true ->
  exists w', Client.send_message sd w = (Undefined, w') /\ w_trace w' = w_trace w.
Proof.
  intros Hplain. unfold Client.send_message.
  change (Z.to_nat Client.BUFFER_SIZE) with 100%nat.
  unfold bind at 1.
  change (uninitialised 100 w)
    with (Ret (firstn 100 (os_indeterminate (w_os w) ++ repeat NUL 100)%list), w).
  cbv beta iota.
  unfold bind at 1. rewrite printf_run. cbv beta iota.
  set (w1 := snd (printf "Enter a message to send: " w)).
  destruct (fgets_line_buffer _ w1 eq_refl)
    as (w2 & E2 & I2 & O2 & U2 & R2 & T2 & S2).
  change (line_buffer w1) with (line_buffer w) in E2.
  unfold bind at 1.
  change (w_os w1) with (w_os w) in E2. rewrite E2. cbv beta iota.
  unfold bind at 1. rewrite strcspn_plain_prefix, Hplain.
  exists w2. split; [reflexivity | exact T2].
Qed.

(** ** The system calls of the client *)

Lemma client_parse_arguments_spec argc argv a w :
  List.length a = 29%nat ->
  Client.parse_arguments argc argv a w =
  if argc <? 3 then
    (Exit 1, snd (fprintf_stderr ("usage is: client <ipaddr> <portnumber>" ++ endl) w))
  else if (String.length (nth 1 argv "") <=? 28)%nat then
    if bad_port (nth 2 argv "") then
      (Exit 1, snd (fprintf_stderr (invalid_port_message (nth 2 argv "")) w))
    else (Ret (overwrite a (literal (nth 1 argv "")), atoi (nth 2 argv "")), w)
  else (Undefined, w).
Proof.
  intros La. unfold Client.parse_arguments, strcpy, bad_port, atoi.
  rewrite literal_length, La.
  change (S (String.length (nth 1 argv "")) <=? 29)%nat
    with (String.length (nth 1 argv "") <=? 28)%nat.
  steps.
  destruct (argc <? 3); simpl; [reflexivity|].
  destruct (_ <=? 28)%nat; simpl; [|reflexivity].
  destruct ((_ <=? 0) || _); reflexivity.
Qed.

Lemma c_str_terminated_prefix (l t : bytes) :
  c_str ((l ++ [NUL]) ++ t)%list = c_str (l ++ [NUL])%list.
Proof.
  induction l as [|c l IH]; simpl; [reflexivity|].
  destruct (is_nul c); [reflexivity | now rewrite IH].
Qed.

Lemma create_client_socket_calls ip port w :
  In NUL ip ->
  let s := lowest_free (w_fds w) in
  let os := w_os w in
  let addr := text (c_str ip) in
  match Client.create_client_socket ip port w with
  | (Ret sd, w') =>
      sd = s /\ w_fds w' = s :: w_fds w /\
      w_trace w' = (w_trace w ++ [Socket s; Connect s addr port 0])%list /\
      os_socket_ok os = true /\ os_connect_ok os = true
  | (Exit st, w') =>
      st = 1 /\ w_fds w' = w_fds w /\
      (os_socket_ok os = false /\ w_trace w' = (w_trace w ++ [Socket (-1)])%list \/
       os_socket_ok os = true /\ os_connect_ok os = false /\
         w_trace w' = (w_trace w ++ [Socket s; Connect s addr port (-1); Close s])%list)
  | (Undefined, _) => False
  end.
Proof.
  intros Hip s os addr. subst s os addr.
  unfold Client.create_client_socket, defined.
  rewrite (cstring_terminated ip Hip). steps.
  destruct (os_socket_ok (w_os w)); simpl.
  2: { split; [reflexivity|]. split; [reflexivity|]. left. now split. }
  rewrite lowest_free_not_negative. simpl.
  destruct (os_connect_ok (w_os w)); simpl.
  - rewrite <- !app_assoc. now repeat split.
  - split; [reflexivity|]. split; [apply close_new|].
    right. rewrite <- !app_assoc. now repeat split.
Qed.

Lemma client_cleanup_calls s w :
  0 <= s ->
  exists w',
    Client.cleanup s w = (Ret tt, w') /\
    w_trace w' = (w_trace w ++ [Close s])%list /\
    w_fds w' = without s (w_fds w).
Proof.
  intros Hs. unfold Client.cleanup. steps.
  apply Z.geb_le in Hs. rewrite Hs.
  eexists. split; [reflexivity|]. simpl. now split.
Qed.

Lemma client_main_run argv w o w' :
  run (Client.main argv) w = (o, w') ->
  exists calls,
    w_trace w' = (w_trace w ++ calls)%list /\
    client_run w argv (lowest_free (w_fds w)) o calls.
Proof.
  set (s := lowest_free (w_fds w)).
  unfold run, Client.main.
  destruct (uninitialised_length 29 w) as (a & Ea & La).
  unfold bind at 1. rewrite Ea. cbv beta iota.
  unfold bind at 1. rewrite (client_parse_arguments_spec _ _ _ _ La).
  destruct (Z.of_nat (List.length argv) <? 3) eqn:Hargc.
  { intros [= <- <-]. exists []. split; [now rewrite app_nil_r|].
    now apply usage_error. }
  destruct (String.length (nth 1 argv "") <=? 28)%nat eqn:Hip.
  2: { intros [= <- <-]. exists []. split; [now rewrite app_nil_r|].
       apply address_overflow; [exact Hargc | now apply Nat.leb_gt]. }
  destruct (bad_port (nth 2 argv "")) eqn:Hport.
  { intros [= <- <-]. exists []. split; [now rewrite app_nil_r|].
    apply port_rejected; [exact Hargc | now apply Nat.leb_le | exact Hport]. }
  assert (client_arguments_ok argv = true) as Hargs
    by (unfold client_arguments_ok; now rewrite Hargc, Hip, Hport).
  cbv beta iota.
  set (ip := overwrite a (literal (nth 1 argv ""))).
  set (port := atoi (nth 2 argv "")).
  assert (text (c_str ip) = address_of argv) as Haddr.
  { unfold address_of, ip, overwrite, literal. now rewrite c_str_terminated_prefix. }
  unfold bind at 1.
  pose proof (create_client_socket_calls ip port w
                (overwrite_literal_terminated a _)) as C2.
  cbv zeta in C2. fold s in C2. rewrite Haddr in C2.
  destruct (Client.create_client_socket ip port w) as [[sd | st | ] w2] eqn:E2;
    [ | | contradiction ].
  2: { destruct C2 as (-> & _ & [(H1 & T) | (H1 & H2 & T)]);
       intros [= <- <-]; eexists; (split; [exact T|]).
       - now apply client_socket_failed.
       - now apply connect_failed. }
  destruct C2 as (-> & F2 & T2 & H1 & H2).
  pose proof (keeps_run w_os _ _ _ _ (os_create_client_socket _ _) E2) as O2.
  pose proof (keeps_run w_stdin _ _ _ _ (stdin_create_client_socket _ _) E2) as I2.
  assert (line_buffer w2 = line_buffer w) as Hbuf
    by (unfold line_buffer; now rewrite O2, I2).
  assert (0 <= s) as Hs by (subst s; apply lowest_free_spec).
  cbv beta iota. unfold bind at 1.
  destruct (forallb plain (line_buffer w)) eqn:Hplain.
  { destruct (send_message_wrong s w2) as (w3 & E3 & T3);
      [now rewrite Hbuf|].
    rewrite E3. intros [= <- <-].
    eexists. split; [rewrite T3; exact T2|].
    now apply no_line. }
  destruct (send_message_sends s w2) as (w3 & E3 & _ & T3 & _);
    [now rewrite Hbuf|].
  rewrite O2 in E3. rewrite Hbuf, O2 in T3.
  pose proof (keeps_run w_os _ _ _ _ (os_send_message _) E3) as O3.
  rewrite E3. cbv beta iota.
  destruct (os_send_ok (w_os w)) eqn:Hsend; simpl status_of.
  - change (0 =? 0) with true. cbv iota.
    unfold bind at 1. unfold bind at 1.
    rewrite receive_response_spec, O3, O2.
    destruct (os_recv (w_os w)) as [d|] eqn:Hd.
    + cbv zeta.
      destruct (Z.of_nat (List.length (firstn 99 d)) =? 0); cbv beta iota;
        unfold ret at 1; cbv beta iota; unfold bind at 1;
        match goal with |- context [Client.cleanup s ?x] =>
          destruct (client_cleanup_calls s x Hs) as (w5 & E5 & T5 & _)
        end;
        rewrite E5; cbv beta iota; unfold ret; intros [= <- <-];
        eexists; (split;
          [ rewrite T5; simpl w_trace; rewrite T3, T2, <- !app_assoc; reflexivity | ]);
        apply exchanged; auto; now rewrite Hd.
    + cbv beta iota. unfold ret at 1. cbv beta iota. unfold bind at 1.
      match goal with |- context [Client.cleanup s ?x] =>
        destruct (client_cleanup_calls s x Hs) as (w5 & E5 & T5 & _)
      end.
      rewrite E5. cbv beta iota. unfold ret. intros [= <- <-].
      eexists. split.
      * rewrite T5. simpl w_trace. rewrite T3, T2, <- !app_assoc. reflexivity.
      * apply exchanged; auto. now rewrite Hd.
  - change (-1 =? 0) with false. cbv iota.
    unfold bind at 1, ret at 1. cbv beta iota. unfold bind at 1.
    destruct (client_cleanup_calls s w3 Hs) as (w5 & E5 & T5 & _).
    rewrite E5. cbv beta iota. unfold ret. intros [= <- <-].
    eexists. split.
    + rewrite T5, T3, T2, <- !app_assoc. reflexivity.
    + now apply send_failed.
Qed.

(** X4.  The system calls of any run of the client, from first to last,
    and the way it ends, are one of the eight cases of [client_run]:
    nothing before the arguments are accepted; then [socket], [connect]
    to the address and port of the command line, one [send] of the
    message with its terminator, one [recv] for 99 bytes only if the
    [send] succeeded, and [close]; a failed [socket] or [connect] ends
    the run with status 1 after [close] of what was opened. *)
Theorem client_system_calls argv w :
  let r := run (Client.main argv) w in
  exists calls,
    w_trace (snd r) = (w_trace w ++ calls)%list /\
    client_run w argv (lowest_free (w_fds w)) (fst r) calls.
Proof.
  exact (client_main_run argv w _ _ (surjective_pairing (run (Client.main argv) w))).
Qed.

(** X5.  The client stays within its arrays whenever the address
    argument has at most 28 characters and standard input is not at its
    end: whatever the other arguments, the input and the answers of the
    system, the run ends in an exit. *)
Theorem client_is_memory_safe argv w :
  (String.length (nth 1 argv "") <= 28)%nat ->
  w_stdin w <> [] ->
  exists status, fst (run (Client.main argv) w) = Exited status.
Proof.
  intros Hip Hin.
  destruct (client_main_run argv w _ _ (surjective_pairing _)) as (calls & _ & R).
  destruct (line_buffer_message w Hin) as [Hstop _].
  destruct R; try (eexists; reflexivity); try lia; congruence.
Qed.

Lemma client_is_memory_safe_witness :
  exists status,
    fst (run (Client.main ["client"; "127.0.0.1"; "9000"])
             (fresh_world send_fails hello_line)) = Exited status.
Proof.
  apply client_is_memory_safe.
  - simpl. lia.
  - discriminate.
Defined.

(** X6.  In every run of the client that ends in an exit, the socket it
    was given is closed exactly once and nothing else is closed: for
    each descriptor the [close] calls are as many as the [socket] calls
    that returned it, and at most one. *)
Theorem client_closes_what_it_opened argv w status w' calls sd :
  run (Client.main argv) w = (Exited status, w') ->
  w_trace w' = (w_trace w ++ calls)%list ->
  0 <= sd ->
  List.length (List.filter (closes sd) calls) = List.length (List.filter (opens sd) calls) /\
  (List.length (List.filter (closes sd) calls) <= 1)%nat.
Proof.
  intros Hrun Htrace Hsd.
  destruct (client_main_run argv w _ w' Hrun) as (calls' & T & R).
  rewrite T in Htrace. apply app_inv_head in Htrace. subst calls'.
  assert (0 <= lowest_free (w_fds w)) as Hs by apply lowest_free_spec.
  inversion R; subst; cbn [app List.filter closes opens];
    repeat match goal with
           | |- context [?x =? sd] => destruct (Z.eqb_spec x sd); try lia
           end;
    cbn [List.length]; split; congruence || lia.
Qed.

Lemma client_closes_what_it_opened_witness :
  let calls := [Socket 3; Connect 3 "127.0.0.1" 9000 (-1); Close 3] in
  List.length (List.filter (closes 3) calls) = List.length (List.filter (opens 3) calls) /\
  (List.length (List.filter (closes 3) calls) <= 1)%nat.
Proof.
  intros calls.
  pose (os := {| os_socket_ok := true; os_setsockopt_ok := true; os_bind_ok := true;
                 os_listen_ok := true; os_accept_ok := true; os_connect_ok := false;
                 os_send_ok := true; os_recv := None;
                 os_peer_addr := ""; os_peer_port := 0;
                 os_strerror := "Connection refused"; os_indeterminate := [] |}).
  apply (client_closes_what_it_opened ["client"; "127.0.0.1"; "9000"]
           (fresh_world os hello_line) 1
           (snd (run (Client.main ["client"; "127.0.0.1"; "9000"])
                     (fresh_world os hello_line)))).
  - vm_compute. reflexivity.
  - vm_compute. reflexivity.
  - lia.
Defined.

(** X7.  With input left, [send_message] never goes wrong and sends the
    first line of the input, cut at 99 characters and at the first null
    byte, followed by one null byte -- at most 100 bytes; what [fgets]
    did not read stays in the input. *)
Theorem message_is_the_first_line sd w :
  w_stdin w <> [] ->
  let m := plain_prefix (firstn 99 (w_stdin w)) in
  let ok := os_send_ok (w_os w) in
  exists w',
    Client.send_message sd w = (Ret (if ok then 0 else -1), w') /\
    w_trace w' = (w_trace w ++ [Send sd (m ++ [NUL])
                                  (if ok then Z.of_nat (List.length m + 1) else -1)])%list /\
    w_sent w' = (w_sent w ++ if ok then m ++ [NUL] else [])%list /\
    w_stdin w' = snd (read_line 99 (w_stdin w)) /\
    (List.length (m ++ [NUL]) <= 100)%nat.
Proof.
  intros Hin m ok.
  destruct (line_buffer_message w Hin) as [Hstop Hm].
  destruct (send_message_sends sd w Hstop) as (w' & E & I & T & S & _).
  rewrite Hm in T, S. fold m ok in T, S. fold ok in E.
  exists w'. split; [exact E|]. split; [exact T|]. split; [exact S|]. split.
  - rewrite I. unfold unread. destruct (w_stdin w); [contradiction | reflexivity].
  - rewrite length_app. simpl List.length.
    pose proof (plain_prefix_length (firstn 99 (w_stdin w))) as H1.
    pose proof (firstn_le_length 99 (w_stdin w)) as H2. fold m in H1. lia.
Qed.

Lemma message_is_the_first_line_witness :
  exists w',
    Client.send_message 3 (fresh_world send_fails hello_line) = (Ret (-1), w') /\
    w_trace w' = [Send 3 (chars "hello" ++ [NUL])%list (-1)].
Proof.
  destruct (message_is_the_first_line 3 (fresh_world send_fails hello_line))
    as (w' & E & T & _); [discriminate|].
  exists w'. split; [exact E | exact T].
Defined.

Lemma plain_prefix_all g : forallb plain g = true -> plain_prefix g = g.
Proof.
  induction g as [|c g IH]; [reflexivity|]. simpl.
  intros H. apply andb_prop in H. destruct H as [Hc Hg].
  now rewrite Hc, IH.
Qed.

Lemma forallb_plain_firstn k g :
  forallb plain g = true -> forallb plain (firstn k g) = true.
Proof.
  revert g. induction k as [|k IH]; intros g; [reflexivity|].
  destruct g as [|c g]; [reflexivity|]. simpl.
  intros H. apply andb_prop in H. destruct H as [Hc Hg].
  now rewrite Hc, IH.
Qed.

(** X8.  At the end of input [fgets] stores nothing and its result is
    not looked at: what [send_message] sends is what its uninitialised
    array happens to hold.  If the array starts with the plain bytes [g]
    (fewer than 100) followed by null bytes, [g] and a null byte are
    sent; if all its 100 bytes are plain, [strcspn] reads past its end. *)
Theorem end_of_input_sends_the_array sd w g :
  w_stdin w = [] ->
  os_indeterminate (w_os w) = g ->
  forallb plain g = true ->
  ((List.length g < 100)%nat ->
   exists w',
     Client.send_message sd w = (Ret (if os_send_ok (w_os w) then 0 else -1), w') /\
     w_trace w' = (w_trace w ++ [Send sd (g ++ [NUL])
                                   (if os_send_ok (w_os w)
                                    then Z.of_nat (List.length g + 1) else -1)])%list) /\
  ((100 <= List.length g)%nat ->
   exists w', Client.send_message sd w = (Undefined, w') /\ w_trace w' = w_trace w).
Proof.
  intros Hin Hg Hplain.
  assert (line_buffer w = firstn 100 (g ++ repeat NUL 100)%list) as Hb
    by (unfold line_buffer; now rewrite Hin, Hg).
  split; intros Hlen.
  - assert (exists t, line_buffer w = (g ++ NUL :: t)%list) as (t & Hb').
    { rewrite Hb, firstn_app, firstn_all2 by lia.
      destruct (100 - List.length g)%nat as [|k] eqn:E; [lia|].
      eexists. reflexivity. }
    assert (forallb plain (line_buffer w) = false) as Hstop
      by (rewrite Hb', forallb_app; simpl; apply andb_false_r).
    destruct (send_message_sends sd w Hstop) as (w' & E & _ & T & _).
    rewrite Hb', plain_prefix_app_stop, (plain_prefix_all g Hplain) in T
      by reflexivity.
    exists w'. split; [exact E | exact T].
  - apply send_message_wrong.
    rewrite Hb, firstn_app.
    replace (100 - List.length g)%nat with 0%nat by lia.
    simpl firstn at 2. rewrite app_nil_r.
    now apply forallb_plain_firstn.
Qed.

Lemma end_of_input_sends_the_array_witness :
  exists w',
    Client.send_message 3 (fresh_world (friendly_os None) []) = (Ret 0, w') /\
    w_trace w' = [Send 3 (chars "?!" ++ [NUL])%list 3].
Proof.
  destruct (end_of_input_sends_the_array 3 (fresh_world (friendly_os None) [])
              (chars "?!") eq_refl eq_refl eq_refl) as [H _].
  destruct H as (w' & E & T); [simpl; lia|].
  exists w'. split; [exact E | exact T].
Defined.

(** ** Runs in which every call succeeds, in full *)

Lemma create_client_socket_world ip port w :
  os_socket_ok (w_os w) = true -> os_connect_ok (w_os w) = true ->
  In NUL ip ->
  let s := lowest_free (w_fds w) in
  Client.create_client_socket ip port w =
  (Ret s,
   snd ((set_fds (cons s) ;; log (Socket s) ;;
         log (Connect s (text (c_str ip)) port 0) ;;
         printf ("Connected to server at " ++ text (c_str ip) ++ ":" ++
                 dec port ++ endl)) w)).
Proof.
  intros Hs Hc Hip s. subst s. unfold Client.create_client_socket, defined.
  rewrite (cstring_terminated ip Hip). steps. rewrite Hs. simpl.
  rewrite lowest_free_not_negative. simpl. rewrite Hc. reflexivity.
Qed.

Lemma client_cleanup_world s w :
  0 <= s ->
  Client.cleanup s w =
  (Ret tt, snd ((close s ;; printf ("Connection closed." ++ endl)) w)).
Proof.
  intros Hs. unfold Client.cleanup. steps.
  apply Z.geb_le in Hs. rewrite Hs. reflexivity.
Qed.

Lemma create_server_socket_world port w :
  all_ok (w_os w) = true ->
  let s := lowest_free (w_fds w) in
  Server.create_server_socket port w =
  (Ret s,
   snd ((set_fds (cons s) ;; log (Socket s) ;; log (Setsockopt s 0) ;;
         log (Bind s port 0) ;; log (Listen s Server.BACKLOG 0) ;;
         printf ("Server is listening on port " ++ dec port ++ "..." ++ endl)) w)).
Proof.
  intros H s. subst s. apply all_ok_inv in H.
  destruct H as (Hs & Ho & Hb & Hl & _).
  unfold Server.create_server_socket. steps. rewrite Hs. simpl.
  rewrite lowest_free_not_negative. simpl. rewrite Ho. simpl.
  rewrite Hb. simpl. rewrite Hl. reflexivity.
Qed.

Lemma accept_client_world s w :
  os_accept_ok (w_os w) = true ->
  let c := lowest_free (w_fds w) in
  Server.accept_client s w =
  (Ret c,
   snd ((printf ("Waiting for a client to connect..." ++ endl) ;;
         set_fds (cons c) ;; log (Accept s c) ;;
         printf ("Client connected successfully from " ++ os_peer_addr (w_os w) ++
                 ":" ++ dec (os_peer_port (w_os w)) ++ endl)) w)).
Proof.
  intros H c. subst c. unfold Server.accept_client. steps. rewrite H. simpl.
  rewrite lowest_free_not_negative. reflexivity.
Qed.

Lemma server_cleanup_world s c w :
  0 <= s -> 0 <= c ->
  Server.cleanup s c w =
  (Ret tt,
   snd ((close c ;; close s ;;
         printf ("Server shut down. All sockets closed." ++ endl)) w)).
Proof.
  intros Hs Hc. unfold Server.cleanup. steps.
  apply Z.geb_le in Hs, Hc. rewrite Hs, Hc. reflexivity.
Qed.

(** The string in the array after a receive operation: the bytes taken,
    up to their first null byte. *)
Lemma c_str_received_buffer n got :
  (List.length got < n)%nat ->
  c_str (received_buffer n got) = c_str (got ++ [NUL])%list.
Proof.
  intros H. unfold received_buffer.
  destruct (n - List.length got)%nat eqn:E; [lia|]. simpl repeat.
  change (got ++ NUL :: repeat NUL n0)%list
    with (got ++ [NUL] ++ repeat NUL n0)%list.
  rewrite app_assoc. apply c_str_terminated_prefix.
Qed.

(** The client, with input left and every call but [recv] succeeding:
    what it sends, receives and prints. *)
Lemma client_run_input argv w :
  client_arguments_ok argv = true ->
  os_socket_ok (w_os w) = true -> os_connect_ok (w_os w) = true ->
  os_send_ok (w_os w) = true ->
  w_stdin w <> [] ->
  let m := plain_prefix (firstn 99 (w_stdin w)) in
  exists w',
    run (Client.main argv) w = (Exited 0, w') /\
    w_sent w' = (w_sent w ++ m ++ [NUL])%list /\
    w_received w' =
      (w_received w ++ match os_recv (w_os w) with
                       | Some d => firstn 99 d
                       | None => []
                       end)%list /\
    w_stdout w' = (w_stdout w ++ client_console argv m (os_recv (w_os w)))%list.
Proof.
  intros Hargs Hs Hc Hsend Hin m.
  unfold client_arguments_ok in Hargs.
  apply andb_prop in Hargs. destruct Hargs as [Hargs Hport].
  apply andb_prop in Hargs. destruct Hargs as [Hargc Hip].
  apply negb_true_iff in Hargc, Hport.
  unfold run, Client.main.
  destruct (uninitialised_length 29 w) as (a & Ea & La).
  unfold bind at 1. rewrite Ea. cbv beta iota.
  unfold bind at 1.
  rewrite (client_parse_arguments_spec _ _ _ _ La), Hargc, Hip, Hport.
  cbv beta iota.
  set (ip := overwrite a (literal (nth 1 argv ""))).
  assert (text (c_str ip) = address_of argv) as Haddr.
  { unfold address_of, ip, overwrite, literal. now rewrite c_str_terminated_prefix. }
  unfold bind at 1.
  rewrite (create_client_socket_world ip _ w Hs Hc
             (overwrite_literal_terminated a _)).
  cbv beta iota zeta. rewrite Haddr.
  set (s := lowest_free (w_fds w)).
  assert (0 <= s) as Hpos by (subst s; apply lowest_free_spec).
  unfold bind at 1.
  match goal with |- context [Client.send_message s ?x] => set (w2 := x) end.
  destruct (line_buffer_message w Hin) as [Hstop Hm].
  destruct (send_message_sends s w2 Hstop) as (w3 & E3 & _ & _ & S3 & U3 & _).
  change (line_buffer w2) with (line_buffer w) in S3, U3.
  change (w_os w2) with (w_os w) in E3, S3, U3.
  rewrite Hm in S3, U3. fold m in S3, U3. rewrite Hsend in E3, S3, U3.
  pose proof (keeps_run w_os _ _ _ _ (os_send_message _) E3) as O3.
  pose proof (keeps_run w_received _ _ _ _ (received_send_message _) E3) as R3.
  change (w_os w2) with (w_os w) in O3.
  change (w_received w2) with (w_received w) in R3.
  change (w_sent w2) with (w_sent w) in S3.
  rewrite E3. cbv beta iota. simpl status_of.
  change (0 =? 0) with true. cbv iota.
  unfold bind at 1. unfold bind at 1.
  rewrite receive_response_spec, O3.
  unfold client_console, response_lines.
  destruct (os_recv (w_os w)) as [d|].
  - cbv zeta.
    pose proof (firstn_le_length 99 d) as Hgot.
    rewrite (c_str_received_buffer 100 (firstn 99 d)) by lia.
    destruct (Z.of_nat (List.length (firstn 99 d)) =? 0); cbv beta iota;
      unfold ret at 1; cbv beta iota; unfold bind at 1;
      rewrite client_cleanup_world by exact Hpos; cbv beta iota; unfold ret;
      eexists; (split; [reflexivity|]); simpl;
      rewrite S3, R3, U3; subst w2; simpl;
      rewrite <- ?app_assoc; simpl; repeat split.
  - cbv beta iota. unfold ret at 1. cbv beta iota. unfold bind at 1.
    rewrite client_cleanup_world by exact Hpos. cbv beta iota. unfold ret.
    eexists. split; [reflexivity|]. simpl.
    rewrite S3, R3, U3. subst w2. simpl.
    rewrite <- ?app_assoc, ?app_nil_r. simpl. repeat split.
Qed.

(** The server, with valid arguments and every call but [recv]
    succeeding: what it receives, sends and prints. *)
Lemma server_run_pending argv w :
  (Z.of_nat (List.length argv) <? 2) || bad_port (nth 1 argv "") = false ->
  all_ok (w_os w) = true ->
  let got := match os_recv (w_os w) with
             | Some d => firstn 99 d
             | None => []
             end in
  exists w',
    run (Server.main argv) w = (Exited 0, w') /\
    w_received w' = (w_received w ++ got)%list /\
    w_sent w' = (w_sent w ++ match got with
                             | [] => []
                             | _ => literal Server.RESPONSE
                             end)%list /\
    w_stdout w' = (w_stdout w ++ server_console (w_os w) argv)%list.
Proof.
  intros Hargs Hok got.
  apply orb_false_iff in Hargs. destruct Hargs as [Hargc Hport].
  destruct (all_ok_inv _ Hok) as (_ & _ & _ & _ & Ha & _ & Hsend).
  unfold run, Server.main.
  change (Z.to_nat Server.BUFFER_SIZE) with 100%nat.
  destruct (uninitialised_length 100 w) as (buf0 & E0 & L0).
  unfold bind at 1. rewrite E0. cbv beta iota.
  unfold bind at 1. rewrite server_parse_arguments_spec, Hargc, Hport.
  cbv beta iota.
  unfold bind at 1. rewrite (create_server_socket_world _ w Hok).
  cbv beta iota zeta.
  set (s := lowest_free (w_fds w)).
  assert (0 <= s) as Hs by (subst s; apply lowest_free_spec).
  unfold bind at 1. rewrite accept_client_world by exact Ha.
  cbv beta iota zeta. simpl w_fds. simpl w_os.
  set (c := lowest_free (s :: w_fds w)).
  assert (0 <= c) as Hc by (subst c; apply lowest_free_spec).
  unfold bind at 1.
  rewrite (receive_message_spec c buf0 Server.BUFFER_SIZE)
    by (try exact L0; unfold Server.BUFFER_SIZE, INT_MAX; lia).
  change (Z.to_nat Server.BUFFER_SIZE) with 100%nat.
  change (100 - 1)%nat with 99%nat. simpl w_os.
  unfold server_console, message_lines. subst got.
  destruct (os_recv (w_os w)) as [d|].
  - cbv zeta.
    pose proof (firstn_le_length 99 d) as Hgot. revert Hgot.
    generalize (firstn 99 d). intros got Hgot.
    rewrite (c_str_received_buffer 100 got) by lia.
    destruct (Z.of_nat (List.length got) =? 0) eqn:Hz; cbv beta iota.
    + change (0 >? 0) with false. cbv iota.
      unfold bind at 1, ret at 1. cbv beta iota. unfold bind at 1.
      rewrite server_cleanup_world by assumption. cbv beta iota. unfold ret.
      assert (got = []) as ->
        by (destruct got; [reflexivity | simpl in Hz; lia]).
      eexists. split; [reflexivity|]. simpl.
      rewrite <- ?app_assoc, ?app_nil_r. simpl. repeat split.
    + replace (Z.of_nat (List.length got) >? 0) with true
        by (symmetry; apply Z.gtb_lt; apply Z.eqb_neq in Hz; lia).
      unfold bind at 1. unfold bind at 1.
      rewrite send_response_spec. simpl w_os. rewrite Hsend.
      cbv beta iota. unfold ret at 1. cbv beta iota. unfold bind at 1.
      rewrite server_cleanup_world by assumption. cbv beta iota. unfold ret.
      eexists. split; [reflexivity|]. simpl.
      rewrite <- ?app_assoc. simpl.
      destruct got; [simpl in Hz; discriminate|].
      repeat split.
  - cbv beta iota. change (-1 >? 0) with false. cbv iota.
    unfold bind at 1, ret at 1. cbv beta iota. unfold bind at 1.
    rewrite server_cleanup_world by assumption. cbv beta iota. unfold ret.
    eexists. split; [reflexivity|]. simpl.
    rewrite <- ?app_assoc, ?app_nil_r. simpl. repeat split.
Qed.

(** X9.  The console of the client.  With accepted arguments, input
    left and [socket], [connect] and [send] succeeding, the client exits
    with status 0 having printed, in this order: the address and port it
    connected to, the prompt, the message (the first line, cut at 99
    characters), its length, the number of bytes sent (one more), then
    the server's answer up to its first null byte -- or that the server
    closed, or nothing when [recv] failed -- and the closing line. *)
Theorem client_console_of_a_run argv w :
  client_arguments_ok argv = true ->
  os_socket_ok (w_os w) = true -> os_connect_ok (w_os w) = true ->
  os_send_ok (w_os w) = true ->
  w_stdin w <> [] ->
  let r := run (Client.main argv) w in
  fst r = Exited 0 /\
  w_stdout (snd r) =
    (w_stdout w ++
     client_console argv (plain_prefix (firstn 99 (w_stdin w))) (os_recv (w_os w)))%list.
Proof.
  intros Hargs Hs Hc Hsend Hin r.
  destruct (client_run_input argv w Hargs Hs Hc Hsend Hin) as (w' & E & _ & _ & U).
  subst r. rewrite E. split; [reflexivity | exact U].
Qed.

Lemma client_console_of_a_run_witness :
  w_stdout (snd (run (Client.main ["client"; "localhost"; "80"])
                     (fresh_world (friendly_os (Some [])) (chars "hi")))) =
  [ "Connected to server at localhost:80" ++ endl;
    "Enter a message to send: ";
    "You are sending 'hi'" ++ endl;
    "The length of the string is 2 bytes" ++ endl;
    "Sent 3 bytes to the server" ++ endl;
    "Server closed the connection without responding." ++ endl;
    "Connection closed." ++ endl ].
Proof.
  destruct (client_console_of_a_run ["client"; "localhost"; "80"]
              (fresh_world (friendly_os (Some [])) (chars "hi"))
              eq_refl eq_refl eq_refl eq_refl)
    as [_ H]; [discriminate | exact H].
Defined.

(** X10.  The console of the server.  With valid arguments and every
    call of the set-up and [send] succeeding, the server exits with
    status 0 having printed, in this order: the port it listens on, that
    it waits, the address and port of the client, then the number of
    bytes received, the message up to its first null byte and the
    response sent -- or that the client disconnected, or nothing when
    [recv] failed -- and the closing line. *)
Theorem server_console_of_a_run argv w :
  (Z.of_nat (List.length argv) <? 2) || bad_port (nth 1 argv "") = false ->
  all_ok (w_os w) = true ->
  let r := run (Server.main argv) w in
  fst r = Exited 0 /\
  w_stdout (snd r) = (w_stdout w ++ server_console (w_os w) argv)%list.
Proof.
  intros Hargs Hok r.
  destruct (server_run_pending argv w Hargs Hok) as (w' & E & _ & _ & U).
  subst r. rewrite E. split; [reflexivity | exact U].
Qed.

Lemma server_console_of_a_run_witness :
  w_stdout (snd (run (Server.main ["server"; "80"])
                     (fresh_world (friendly_os (Some (chars "hi"))) []))) =
  [ "Server is listening on port 80..." ++ endl;
    "Waiting for a client to connect..." ++ endl;
    "Client connected successfully from 127.0.0.1:50000" ++ endl;
    "Received 2 bytes" ++ endl;
    "Message: hi" ++ endl;
    "Response sent: Server acknowledged your message!" ++ endl;
    "Server shut down. All sockets closed." ++ endl ].
Proof.
  destruct (server_console_of_a_run ["server"; "80"]
              (fresh_world (friendly_os (Some (chars "hi"))) [])
              eq_refl eq_refl)
    as [_ H].
  exact H.
Defined.

(** X11.  A line of 99 characters or more is cut without notice: the
    client sends its first 99 characters and a null byte, 100 bytes; a
    server that finds these 100 bytes takes the 99 characters, without
    the terminator, reports 99 bytes and the 99 characters as the
    message, and answers as usual. *)
Theorem long_line_is_cut ip port pre rest wc ws :
  List.length pre = 99%nat -> forallb plain pre = true ->
  (String.length ip <= 28)%nat -> bad_port port = false ->
  all_ok (w_os wc) = true -> all_ok (w_os ws) = true ->
  w_stdin wc = (pre ++ rest)%list ->
  w_sent wc = [] -> w_sent ws = [] -> w_received ws = [] ->
  let client := run (Client.main ["client"; ip; port]) wc in
  let server := run (Server.main ["server"; port]) ws in
  os_recv (w_os ws) = Some (w_sent (snd client)) ->
  w_sent (snd client) = (pre ++ [NUL])%list /\
  List.length (w_sent (snd client)) = 100%nat /\
  w_received (snd server) = pre /\
  In ("Received 99 bytes" ++ endl) (w_stdout (snd server)) /\
  In ("Message: " ++ text pre ++ endl) (w_stdout (snd server)) /\
  w_sent (snd server) = literal Server.RESPONSE.
Proof.
  intros Hlen Hplain Hip Hport Hokc Hoks Hin Sc Ss Rs client server.
  destruct (all_ok_inv _ Hokc) as (Hs & _ & _ & _ & _ & Hc & Hsend).
  assert (client_arguments_ok ["client"; ip; port] = true) as Hargs.
  { unfold client_arguments_ok. simpl nth. rewrite Hport.
    apply Nat.leb_le in Hip. now rewrite Hip. }
  assert (w_stdin wc <> []) as Hne
    by (rewrite Hin; destruct pre; [discriminate Hlen | discriminate]).
  destruct (client_run_input _ wc Hargs Hs Hc Hsend Hne) as (wc' & Ec & Sc' & _).
  assert (firstn 99 (pre ++ rest)%list = pre) as Hfirst.
  { rewrite firstn_app, Hlen, firstn_all2 by lia. simpl. apply app_nil_r. }
  rewrite Hin, Hfirst, (plain_prefix_all pre Hplain), Sc, app_nil_l in Sc'.
  subst client. rewrite Ec. simpl snd. rewrite Sc'. intros Link.
  assert ((Z.of_nat (List.length ["server"; port]) <? 2) || bad_port (nth 1 ["server"; port] "")
          = false) as Hsargs by (simpl; exact Hport).
  destruct (server_run_pending _ ws Hsargs Hoks) as (ws' & Es & Rs' & Ss' & Us).
  subst server. rewrite Es. simpl snd.
  assert (firstn 99 (pre ++ [NUL])%list = pre) as Hgot.
  { rewrite firstn_app, Hlen, firstn_all2 by lia. simpl. apply app_nil_r. }
  rewrite Link, Hgot in Rs', Ss'. rewrite Rs, app_nil_l in Rs'.
  rewrite Ss, app_nil_l in Ss'.
  unfold server_console, message_lines in Us. rewrite Link, Hgot, Hlen in Us.
  change (Z.of_nat 99 =? 0) with false in Us. cbv iota in Us.
  rewrite (c_str_no_nul pre [] (plain_no_nul pre Hplain)) in Us.
  split; [reflexivity|]. split; [rewrite length_app, Hlen; reflexivity|].
  split; [exact Rs'|]. rewrite Us.
  split; [| split].
  - apply in_or_app. right. apply in_or_app. right. apply in_or_app. left.
    now left.
  - apply in_or_app. right. apply in_or_app. right. apply in_or_app. left.
    right. now left.
  - rewrite Ss'. destruct pre; [discriminate Hlen | reflexivity].
Qed.

Lemma long_line_is_cut_witness :
  let pre := repeat "a"%char 99 in
  let wc := fresh_world (friendly_os None) (pre ++ chars "and more")%list in
  let ws := fresh_world (friendly_os (Some (pre ++ [NUL])%list)) [] in
  w_sent (snd (run (Client.main ["client"; "127.0.0.1"; "9000"]) wc)) = (pre ++ [NUL])%list /\
  w_received (snd (run (Server.main ["server"; "9000"]) ws)) = pre.
Proof.
  intros pre wc ws.
  destruct (long_line_is_cut "127.0.0.1" "9000" pre (chars "and more") wc ws)
    as (H1 & _ & H2 & _); try reflexivity.
  - simpl. lia.
  - split; [exact H1 | exact H2].
Defined.

(** ** Arguments *)

(** X12.  Without its arguments a program prints its usage line on
    standard error and exits with status 1: the client when fewer than
    two arguments follow its name, the server when none does.  Nothing
    else happens: no system call is made, and the client does not touch
    the address it was not given. *)
Theorem missing_arguments_print_usage argv w :
  ((List.length argv < 3)%nat ->
   run (Client.main argv) w =
     (Exited 1,
      snd (fprintf_stderr ("usage is: client <ipaddr> <portnumber>" ++ endl) w))) /\
  ((List.length argv < 2)%nat ->
   run (Server.main argv) w =
     (Exited 1, snd (fprintf_stderr ("usage is: server <portnumber>" ++ endl) w))).
Proof.
  split; intros Hargc.
  - unfold run, Client.main.
    destruct (uninitialised_length 29 w) as (a & Ea & La).
    unfold bind at 1. rewrite Ea. cbv beta iota.
    unfold bind at 1. rewrite (client_parse_arguments_spec _ _ _ _ La).
    replace (Z.of_nat (List.length argv) <? 3) with true
      by (symmetry; apply Z.ltb_lt; lia).
    reflexivity.
  - unfold run, Server.main.
    change (Z.to_nat Server.BUFFER_SIZE) with 100%nat.
    destruct (uninitialised_length 100 w) as (a & Ea & La).
    unfold bind at 1. rewrite Ea. cbv beta iota.
    unfold bind at 1. rewrite server_parse_arguments_spec.
    replace (Z.of_nat (List.length argv) <? 2) with true
      by (symmetry; apply Z.ltb_lt; lia).
    reflexivity.
Qed.

Lemma missing_arguments_print_usage_witness :
  let w := fresh_world (friendly_os None) [] in
  fst (run (Client.main ["client"; "127.0.0.1"]) w) = Exited 1 /\
  w_stderr (snd (run (Server.main ["server"]) w)) =
    ["usage is: server <portnumber>" ++ endl].
Proof.
  intros w.
  destruct (missing_arguments_print_usage ["client"; "127.0.0.1"] w) as [Hc _].
  destruct (missing_arguments_print_usage ["server"] w) as [_ Hs].
  rewrite Hc, Hs by (simpl; lia). split; reflexivity.
Defined.

Lemma bad_port_dec p : 1 <= p <= 65535 -> bad_port (dec p) = false.
Proof.
  intros H. unfold bad_port.
  rewrite atoi_dec by (unfold INT_MAX; lia).
  apply orb_false_iff. split; lia.
Qed.

(** X13.  A port written in decimal is the port used: for every [p] in
    1..65535, given the numeral of [p] as its port argument the server
    binds its socket to port [p] and the client connects to port [p]
    (every call of the set-up succeeding). *)
Theorem decimal_port_is_used p ip w :
  1 <= p <= 65535 -> (String.length ip <= 28)%nat ->
  all_ok (w_os w) = true ->
  let s := lowest_free (w_fds w) in
  atoi (dec p) = p /\
  In (Bind s p 0) (w_trace (snd (run (Server.main ["server"; dec p]) w))) /\
  In (Connect s (address_of ["client"; ip; dec p]) p 0)
     (w_trace (snd (run (Client.main ["client"; ip; dec p]) w))).
Proof.
  intros Hp Hip Hok s.
  destruct (all_ok_inv _ Hok) as (H1 & H2 & H3 & H4 & H5 & H6 & H7).
  assert (atoi (dec p) = p) as Hatoi by (apply atoi_dec; unfold INT_MAX; lia).
  pose proof (bad_port_dec p Hp) as Hb.
  split; [exact Hatoi|]. split.
  - destruct (server_main_run ["server"; dec p] w _ _ (surjective_pairing _))
      as (calls & T & R).
    fold s in R. rewrite T. apply in_or_app. right.
    inversion R; subst; simpl nth in *; rewrite ?Hatoi; unfold set_up;
      try congruence; try (simpl in *; congruence); simpl; auto.
  - destruct (client_main_run ["client"; ip; dec p] w _ _ (surjective_pairing _))
      as (calls & T & R).
    fold s in R. rewrite T. apply in_or_app. right.
    inversion R; subst; simpl nth in *; rewrite ?Hatoi;
      try congruence; try lia;
      try match goal with
          | H : (_ <? _) = true |- _ => vm_compute in H; discriminate
          end;
      simpl; auto.
Qed.

Lemma decimal_port_is_used_witness :
  In (Bind 3 8080 0)
     (w_trace (snd (run (Server.main ["server"; "8080"])
                        (fresh_world (friendly_os None) [])))).
Proof.
  destruct (decimal_port_is_used 8080 "127.0.0.1" (fresh_world (friendly_os None) []))
    as (_ & H & _); [lia | simpl; lia | reflexivity |].
  exact H.
Defined.

(** ** Standard error *)

Lemma create_server_socket_stderr port w :
  let os := w_os w in
  w_stderr (snd (Server.create_server_socket port w)) =
  (w_stderr w ++
   if negb (os_socket_ok os) then [perror_line os "Error: socket() failed"]
   else if negb (os_setsockopt_ok os) then [perror_line os "Error: setsockopt() failed"]
   else if negb (os_bind_ok os) then [perror_line os "Error: bind() failed"]
   else if negb (os_listen_ok os) then [perror_line os "Error: listen() failed"]
   else [])%list.
Proof.
  intros os. subst os. unfold Server.create_server_socket, perror_line. steps.
  destruct (os_socket_ok (w_os w)); simpl; [|reflexivity].
  rewrite lowest_free_not_negative. simpl.
  destruct (os_setsockopt_ok (w_os w)); simpl; [|reflexivity].
  destruct (os_bind_ok (w_os w)); simpl; [|reflexivity].
  destruct (os_listen_ok (w_os w)); simpl; [|reflexivity].
  now rewrite app_nil_r.
Qed.

Lemma accept_client_stderr s w :
  w_stderr (snd (Server.accept_client s w)) =
  (w_stderr w ++
   if negb (os_accept_ok (w_os w)) then [perror_line (w_os w) "Error: accept() failed"]
   else [])%list.
Proof.
  unfold Server.accept_client, perror_line. steps.
  destruct (os_accept_ok (w_os w)); simpl; [|reflexivity].
  rewrite lowest_free_not_negative. simpl. now rewrite app_nil_r.
Qed.

Lemma create_client_socket_stderr ip port w :
  In NUL ip ->
  let os := w_os w in
  w_stderr (snd (Client.create_client_socket ip port w)) =
  (w_stderr w ++
   if negb (os_socket_ok os) then [perror_line os "Error: socket() failed"]
   else if negb (os_connect_ok os) then [perror_line os "Error: connect() failed"]
   else [])%list.
Proof.
  intros Hip os. subst os. unfold Client.create_client_socket, defined, perror_line.
  rewrite (cstring_terminated ip Hip). steps.
  destruct (os_socket_ok (w_os w)); simpl; [|reflexivity].
  rewrite lowest_free_not_negative. simpl.
  destruct (os_connect_ok (w_os w)); simpl; [|reflexivity].
  now rewrite app_nil_r.
Qed.

Lemma server_main_stderr argv w :
  w_stderr (snd (run (Server.main argv) w)) =
  (w_stderr w ++ server_errors (w_os w) argv)%list.
Proof.
  unfold run, Server.main, server_errors.
  change (Z.to_nat Server.BUFFER_SIZE) with 100%nat.
  destruct (uninitialised_length 100 w) as (buf0 & E0 & L0).
  unfold bind at 1. rewrite E0. cbv beta iota.
  unfold bind at 1. rewrite server_parse_arguments_spec.
  destruct (Z.of_nat (List.length argv) <? 2); [reflexivity|].
  destruct (bad_port (nth 1 argv "")); [reflexivity|].
  cbv beta iota.
  set (port := atoi (nth 1 argv "")).
  unfold bind at 1.
  pose proof (create_server_socket_calls port w) as C2. cbv zeta in C2.
  pose proof (create_server_socket_stderr port w) as U2. cbv zeta in U2.
  destruct (Server.create_server_socket port w) as [[sd | st | ] w2] eqn:E2;
    [ | | contradiction ]; simpl snd in U2.
  2: { simpl snd. rewrite U2.
       destruct C2 as (_ & _ & [(H1 & _) | [(H1 & H2 & _) | [(H1 & H2 & H3 & _)
                                   | (H1 & H2 & H3 & H4 & _)]]]);
         rewrite ?H1, ?H2, ?H3, ?H4; reflexivity. }
  destruct C2 as (-> & F2 & _ & H1 & H2 & H3 & H4).
  rewrite H1, H2, H3, H4 in U2 |- *. cbn [negb] in U2 |- *. rewrite app_nil_r in U2.
  pose proof (keeps_run w_os _ _ _ _ (os_create_server_socket _) E2) as O2.
  set (s := lowest_free (w_fds w)) in *.
  cbv beta iota. unfold bind at 1.
  pose proof (accept_client_calls s w2) as C3. cbv zeta in C3.
  pose proof (accept_client_stderr s w2) as U3. rewrite O2, U2 in U3.
  destruct (Server.accept_client s w2) as [[sd | st | ] w3] eqn:E3;
    [ | | contradiction ]; simpl snd in U3.
  2: { simpl snd. rewrite U3. destruct C3 as (_ & _ & _ & H5).
       rewrite O2 in H5. now rewrite H5. }
  destruct C3 as (-> & _ & _ & H5). rewrite O2 in H5.
  rewrite H5 in U3 |- *. cbn [negb] in U3 |- *. rewrite app_nil_r in U3.
  pose proof (keeps_run w_os _ _ _ _ (os_accept_client _) E3) as O3.
  rewrite O2 in O3.
  set (c := lowest_free (w_fds w2)) in *.
  assert (0 <= s) as Hs by (subst s; apply lowest_free_spec).
  assert (0 <= c) as Hc by (subst c; apply lowest_free_spec).
  cbv beta iota. unfold bind at 1.
  rewrite (receive_message_spec c buf0 Server.BUFFER_SIZE w3)
    by (try exact L0; unfold Server.BUFFER_SIZE, INT_MAX; lia).
  change (Z.to_nat Server.BUFFER_SIZE) with 100%nat.
  change (100 - 1)%nat with 99%nat. rewrite O3.
  destruct (os_recv (w_os w)) as [d|].
  - cbv zeta. generalize (firstn 99 d). intros got.
    destruct (Z.of_nat (List.length got) =? 0) eqn:Hz; cbv beta iota.
    + change (0 >? 0) with false. cbv iota.
      unfold bind at 1, ret at 1. cbv beta iota. unfold bind at 1.
      rewrite server_cleanup_world by assumption. cbv beta iota. unfold ret.
      simpl. rewrite U3, ?Hz. simpl. rewrite ?app_nil_r. reflexivity.
    + replace (Z.of_nat (List.length got) >? 0) with true
        by (symmetry; apply Z.gtb_lt; apply Z.eqb_neq in Hz; lia).
      unfold bind at 1. unfold bind at 1.
      rewrite send_response_spec. simpl w_os. rewrite O3.
      destruct (os_send_ok (w_os w)); cbv beta iota; unfold ret at 1;
        cbv beta iota; unfold bind at 1;
        rewrite server_cleanup_world by assumption; cbv beta iota; unfold ret;
        simpl; rewrite U3, ?O3, ?Hz; simpl; rewrite ?app_nil_r; reflexivity.
  - cbv beta iota. change (-1 >? 0) with false. cbv iota.
    unfold bind at 1, ret at 1. cbv beta iota. unfold bind at 1.
    rewrite server_cleanup_world by assumption. cbv beta iota. unfold ret.
    simpl. rewrite U3, O3. reflexivity.
Qed.

(** X14.  What the server reports.  A run of the server writes on
    standard error one line for the first thing that fails -- the usage
    line, the invalid-port line, or the [perror] line of the failed
    call, [recv] and [send] included -- and nothing when nothing
    fails. *)
Theorem server_reports_the_first_failure argv w :
  w_stderr (snd (run (Server.main argv) w)) =
    (w_stderr w ++ server_errors (w_os w) argv)%list /\
  (List.length (server_errors (w_os w) argv) <= 1)%nat /\
  (fst (run (Server.main argv) w) = Exited 1 ->
   List.length (server_errors (w_os w) argv) = 1%nat).
Proof.
  split; [apply server_main_stderr|].
  destruct (server_main_run argv w _ _ (surjective_pairing _)) as (calls & _ & R).
  unfold server_errors.
  destruct R;
    repeat match goal with
           | H : _ || _ = false |- _ =>
               apply orb_false_iff in H; destruct H
           | H : _ || _ = true |- _ =>
               apply orb_true_iff in H; destruct H
           | H : _ = true |- _ => rewrite H
           | H : _ = false |- _ => rewrite H
           end;
    cbn [negb andb];
    repeat match goal with
           | |- context [if ?b then _ else _] => destruct b
           | |- context [match ?o with Some _ => _ | None => _ end] => destruct o
           end;
    simpl; split; auto; try lia; intros; try discriminate; try reflexivity.
Qed.

Lemma send_message_wrong_quiet sd w :
  forallb plain (line_buffer w) = true ->
  w_stderr (snd (Client.send_message sd w)) = w_stderr w.
Proof.
  intros Hplain. unfold Client.send_message.
  change (Z.to_nat Client.BUFFER_SIZE) with 100%nat.
  unfold bind at 1.
  change (uninitialised 100 w)
    with (Ret (firstn 100 (os_indeterminate (w_os w) ++ repeat NUL 100)%list), w).
  cbv beta iota.
  unfold bind at 1. rewrite printf_run. cbv beta iota.
  set (w1 := snd (printf "Enter a message to send: " w)).
  destruct (fgets_line_buffer _ w1 eq_refl)
    as (w2 & E2 & I2 & O2 & U2 & R2 & T2 & S2).
  change (line_buffer w1) with (line_buffer w) in E2.
  unfold bind at 1.
  change (w_os w1) with (w_os w) in E2. rewrite E2. cbv beta iota.
  unfold bind at 1. rewrite strcspn_plain_prefix, Hplain.
  exact R2.
Qed.

Lemma client_main_stderr argv w :
  w_stderr (snd (run (Client.main argv) w)) =
  (w_stderr w ++ client_errors w argv)%list.
Proof.
  unfold run, Client.main, client_errors.
  destruct (uninitialised_length 29 w) as (a & Ea & La).
  unfold bind at 1. rewrite Ea. cbv beta iota.
  unfold bind at 1. rewrite (client_parse_arguments_spec _ _ _ _ La).
  destruct (Z.of_nat (List.length argv) <? 3); [reflexivity|].
  destruct (String.length (nth 1 argv "") <=? 28)%nat;
    [| simpl; now rewrite app_nil_r].
  destruct (bad_port (nth 2 argv "")); [reflexivity|].
  cbv beta iota. cbn [negb].
  set (ip := overwrite a (literal (nth 1 argv ""))).
  set (port := atoi (nth 2 argv "")).
  unfold bind at 1.
  pose proof (create_client_socket_calls ip port w
                (overwrite_literal_terminated a _)) as C2. cbv zeta in C2.
  pose proof (create_client_socket_stderr ip port w
                (overwrite_literal_terminated a _)) as U2. cbv zeta in U2.
  destruct (Client.create_client_socket ip port w) as [[sd | st | ] w2] eqn:E2;
    [ | | contradiction ]; simpl snd in U2.
  2: { simpl snd. rewrite U2.
       destruct C2 as (_ & _ & [(H1 & _) | (H1 & H2 & _)]);
         rewrite ?H1, ?H2; reflexivity. }
  destruct C2 as (-> & _ & _ & H1 & H2).
  rewrite H1, H2 in U2 |- *. cbn [negb] in U2 |- *. rewrite app_nil_r in U2.
  pose proof (keeps_run w_os _ _ _ _ (os_create_client_socket _ _) E2) as O2.
  pose proof (keeps_run w_stdin _ _ _ _ (stdin_create_client_socket _ _) E2) as I2.
  assert (line_buffer w2 = line_buffer w) as Hbuf
    by (unfold line_buffer; now rewrite O2, I2).
  set (s := lowest_free (w_fds w)) in *.
  assert (0 <= s) as Hs by (subst s; apply lowest_free_spec).
  cbv beta iota. unfold bind at 1.
  destruct (forallb plain (line_buffer w)) eqn:Hplain.
  { pose proof (send_message_wrong_quiet s w2) as Q. rewrite Hbuf in Q.
    specialize (Q Hplain).
    destruct (send_message_wrong s w2) as (w3 & E3 & _); [now rewrite Hbuf|].
    rewrite E3 in Q |- *. simpl in Q |- *. rewrite Q, U2. now rewrite app_nil_r. }
  destruct (send_message_sends s w2) as (w3 & E3 & _ & _ & _ & _ & U3);
    [now rewrite Hbuf|].
  rewrite O2, U2 in U3. rewrite O2 in E3.
  pose proof (keeps_run w_os _ _ _ _ (os_send_message _) E3) as O3.
  rewrite O2 in O3.
  rewrite E3. cbv beta iota.
  destruct (os_send_ok (w_os w)) eqn:Hsend; simpl status_of; cbn [negb].
  - change (0 =? 0) with true. cbv iota.
    unfold bind at 1. unfold bind at 1.
    rewrite receive_response_spec, O3.
    destruct (os_recv (w_os w)) as [d|].
    + cbv zeta. generalize (firstn 99 d). intros got.
      destruct (Z.of_nat (List.length got) =? 0); cbv beta iota;
        unfold ret at 1; cbv beta iota; unfold bind at 1;
        rewrite client_cleanup_world by exact Hs; cbv beta iota; unfold ret;
        simpl; rewrite U3; reflexivity.
    + cbv beta iota. unfold ret at 1. cbv beta iota. unfold bind at 1.
      rewrite client_cleanup_world by exact Hs. cbv beta iota. unfold ret.
      simpl. rewrite U3, O3, app_nil_r. reflexivity.
  - change (-1 =? 0) with false. cbv iota.
    unfold bind at 1, ret at 1. cbv beta iota. unfold bind at 1.
    rewrite client_cleanup_world by exact Hs. cbv beta iota. unfold ret.
    simpl. rewrite U3. reflexivity.
Qed.

(** X15.  What the client reports.  A run of the client writes on
    standard error one line for the first thing that fails -- the usage
    line, the invalid-port line, or the [perror] line of the failed
    [socket], [connect], [send] or [recv] -- and nothing when nothing
    fails; a server that closes without answering is reported on
    standard output, not here. *)
Theorem client_reports_the_first_failure argv w :
  w_stderr (snd (run (Client.main argv) w)) =
    (w_stderr w ++ client_errors w argv)%list /\
  (List.length (client_errors w argv) <= 1)%nat /\
  (fst (run (Client.main argv) w) = Exited 1 ->
   List.length (client_errors w argv) = 1%nat).
Proof.
  split; [apply client_main_stderr|].
  destruct (client_main_run argv w _ _ (surjective_pairing _)) as (calls & _ & R).
  unfold client_errors.
  destruct R;
    repeat match goal with
           | H : client_arguments_ok _ = true |- _ =>
               unfold client_arguments_ok in H;
               apply andb_prop in H; destruct H as [H ?];
               apply andb_prop in H; destruct H as [? ?]
           | H : negb _ = true |- _ => apply negb_true_iff in H
           | H : (_ <= 28)%nat |- _ => apply Nat.leb_le in H
           | H : (28 < _)%nat |- _ => apply Nat.leb_gt in H
           | H : _ = true |- _ => rewrite H
           | H : _ = false |- _ => rewrite H
           end;
    cbn [negb andb];
    repeat match goal with
           | |- context [match ?o with Some _ => _ | None => _ end] => destruct o
           end;
    simpl; split; auto; try lia; intros; try discriminate; try reflexivity.
Qed.

Lemma server_reports_the_first_failure_witness :
  let r := run (Server.main ["server"; "9000"]) (fresh_world accept_fails []) in
  fst r = Exited 1 /\
  w_stderr (snd r) = ["Error: accept() failed: Too many open files" ++ endl] /\
  List.length (server_errors accept_fails ["server"; "9000"]) = 1%nat.
Proof.
  intros r.
  destruct (server_reports_the_first_failure ["server"; "9000"]
              (fresh_world accept_fails [])) as (H1 & _ & H3).
  split; [reflexivity|]. split; [exact H1 | apply H3; reflexivity].
Defined.

Lemma client_reports_the_first_failure_witness :
  let w := fresh_world (friendly_os None) hello_line in
  let r := run (Client.main ["client"; "127.0.0.1"; "0"]) w in
  fst r = Exited 1 /\
  w_stderr (snd r) = [invalid_port_message "0"] /\
  List.length (client_errors w ["client"; "127.0.0.1"; "0"]) = 1%nat.
Proof.
  intros w r.
  destruct (client_reports_the_first_failure ["client"; "127.0.0.1"; "0"] w)
    as (H1 & _ & H3).
  split; [reflexivity|]. split; [exact H1 | apply H3; reflexivity].
Defined.

(** * The exit status of the client and the round trip

    Both rest on the descriptions of whole runs above. *)

(** C4, as the code has it.  Whenever the run of the client ends in an
    exit, the status is 1 when an argument is missing, the port is
    invalid, [socket] failed or [connect] failed, and 0 in every other
    case: a failed [send], a failed [recv] and a server that closed
    without answering included.  The run does end in an exit when an
    argument is missing, and when the address argument has at most 28
    characters and either one of these four failures occurs or standard
    input is not at its end. *)
Theorem client_exit_status argv w :
  let failed :=
    (Z.of_nat (List.length argv) <? 3) || bad_port (nth 2 argv "")
    || negb (os_socket_ok (w_os w)) || negb (os_connect_ok (w_os w)) in
  (forall st w',
     run (Client.main argv) w = (Exited st, w') ->
     st = if failed then 1 else 0) /\
  ((Z.of_nat (List.length argv) <? 3) = true \/
   (String.length (nth 1 argv "") <= 28)%nat /\
   (failed = true \/ w_stdin w <> []) ->
   fst (run (Client.main argv) w) = Exited (if failed then 1 else 0)).
Proof.
  intros failed.
  assert (forall st w',
            run (Client.main argv) w = (Exited st, w') ->
            st = if failed then 1 else 0) as Hstatus.
  { intros st w' H. pose proof (client_main_result argv w) as R.
    apply run_inv in H. destruct H as [H | H]; rewrite H in R; simpl in R;
      destruct R as [-> R]; subst failed; rewrite R; reflexivity. }
  split; [exact Hstatus|].
  intros Hsafe.
  destruct (client_main_run argv w _ _ (surjective_pairing _)) as (calls & _ & R).
  destruct (run (Client.main argv) w) as [o w'] eqn:E. simpl fst in *.
  destruct o as [st|].
  - now rewrite (Hstatus st w' eq_refl).
  - exfalso. inversion R; subst.
    + destruct Hsafe as [H3 | [Hip _]]; [congruence | lia].
    + unfold client_arguments_ok in *.
      apply andb_prop in H. destruct H as [H Hport].
      apply andb_prop in H. destruct H as [Hargc Hip].
      apply negb_true_iff in Hargc. apply negb_true_iff in Hport.
      destruct Hsafe as [H3 | [_ [Hf | Hin]]].
      * congruence.
      * subst failed. rewrite Hargc, Hport, H0, H1 in Hf. discriminate.
      * destruct (line_buffer_message w Hin) as [Hstop _]. congruence.
Qed.

Lemma client_exit_status_witness :
  fst (run (Client.main ["client"; "127.0.0.1"; "9000"])
           (fresh_world send_fails hello_line)) = Exited 0.
Proof.
  destruct (client_exit_status ["client"; "127.0.0.1"; "9000"]
              (fresh_world send_fails hello_line)) as [_ H].
  apply H. right. split.
  - simpl. lia.
  - right. discriminate.
Defined.

Lemma first_line_of msg rest :
  (List.length msg <= 98)%nat -> forallb plain msg = true ->
  plain_prefix (firstn 99 (msg ++ NL :: rest)%list) = msg.
Proof.
  intros Hlen Hplain.
  rewrite firstn_app, (firstn_all2 msg) by lia.
  destruct (99 - List.length msg)%nat as [|k] eqn:E; [lia|].
  cbn [firstn]. rewrite plain_prefix_app_stop by reflexivity.
  now apply plain_prefix_all.
Qed.

(** C1.  The operator enters a line [msg] of [L <= 98] characters; every
    system call of both programs succeeds; what one side has put on the
    connection is what the other side's [recv] finds.  Then the client
    transmits the [L + 1] bytes of [msg] and its terminator; the server
    takes exactly these bytes off the connection, [receive_message]
    leaves them at the start of its array, followed by null bytes only,
    and the server's console shows [L + 1] bytes received and [msg] as
    the message; the server transmits the fixed response with its
    terminator; the client takes exactly these bytes off the
    connection, [receive_response] leaves them at the start of its
    array, and the client's console shows the response. *)
Theorem round_trip ip port msg rest wc ws :
  (List.length msg <= 98)%nat -> forallb plain msg = true ->
  (String.length ip <= 28)%nat -> bad_port port = false ->
  all_ok (w_os wc) = true -> all_ok (w_os ws) = true ->
  w_stdin wc = (msg ++ NL :: rest)%list ->
  w_sent wc = [] -> w_received wc = [] ->
  w_sent ws = [] -> w_received ws = [] ->
  let client := run (Client.main ["client"; ip; port]) wc in
  let server := run (Server.main ["server"; port]) ws in
  os_recv (w_os ws) = Some (w_sent (snd client)) ->
  os_recv (w_os wc) = Some (w_sent (snd server)) ->
  let L := List.length msg in
  w_sent (snd client) = (msg ++ [NUL])%list /\
  List.length (w_sent (snd client)) = (L + 1)%nat /\
  w_received (snd server) = (msg ++ [NUL])%list /\
  (forall w sd buffer,
     w_os w = w_os ws -> List.length buffer = 100%nat ->
     fst (Server.receive_message sd buffer Server.BUFFER_SIZE w) =
       Ret (Z.of_nat (L + 1), ((msg ++ [NUL]) ++ repeat NUL (99 - L))%list)) /\
  w_stdout (snd server) =
    (w_stdout ws ++
     [ ("Server is listening on port " ++ dec (atoi port) ++ "..." ++ endl)%string;
       ("Waiting for a client to connect..." ++ endl)%string;
       ("Client connected successfully from " ++ os_peer_addr (w_os ws) ++ ":" ++
        dec (os_peer_port (w_os ws)) ++ endl)%string;
       ("Received " ++ dec (Z.of_nat (L + 1)) ++ " bytes" ++ endl)%string;
       ("Message: " ++ text msg ++ endl)%string;
       ("Response sent: Server acknowledged your message!" ++ endl)%string;
       ("Server shut down. All sockets closed." ++ endl)%string ])%list /\
  w_sent (snd server) = literal Server.RESPONSE /\
  w_received (snd client) = literal Server.RESPONSE /\
  (forall w sd,
     w_os w = w_os wc ->
     fst (Client.receive_response sd w) =
       Ret (0, (literal Server.RESPONSE ++ repeat NUL 66)%list)) /\
  w_stdout (snd client) =
    (w_stdout wc ++
     [ ("Connected to server at " ++ address_of ["client"; ip; port] ++ ":" ++
        dec (atoi port) ++ endl)%string;
       "Enter a message to send: ";
       ("You are sending '" ++ text msg ++ "'" ++ endl)%string;
       ("The length of the string is " ++ dec (Z.of_nat L) ++ " bytes" ++ endl)%string;
       ("Sent " ++ dec (Z.of_nat (L + 1)) ++ " bytes to the server" ++ endl)%string;
       ("Server response: Server acknowledged your message!" ++ endl)%string;
       ("Connection closed." ++ endl)%string ])%list /\
  fst client = Exited 0 /\ fst server = Exited 0.
Proof.
  intros Hlen Hplain Hip Hport Hokc Hoks Hin Sc Rc Ss Rs client server.
  destruct (all_ok_inv _ Hokc) as (Hs & _ & _ & _ & _ & Hc & Hsend).
  assert (client_arguments_ok ["client"; ip; port] = true) as Hargs.
  { unfold client_arguments_ok. simpl nth. rewrite Hport.
    apply Nat.leb_le in Hip. now rewrite Hip. }
  assert (w_stdin wc <> []) as Hne
    by (rewrite Hin; destruct msg; discriminate).
  destruct (client_run_input _ wc Hargs Hs Hc Hsend Hne)
    as (wc' & Ec & Sc' & Rc' & Uc).
  rewrite Hin, (first_line_of msg rest Hlen Hplain) in Sc', Uc.
  rewrite Sc, app_nil_l in Sc'. rewrite Rc, app_nil_l in Rc'.
  subst client. rewrite Ec. simpl fst. simpl snd. rewrite Sc'.
  intros Link1.
  assert ((Z.of_nat (List.length ["server"; port]) <? 2)
          || bad_port (nth 1 ["server"; port] "") = false) as Hsargs
    by (simpl; exact Hport).
  destruct (server_run_pending _ ws Hsargs Hoks) as (ws' & Es & Rs' & Ss' & Us).
  assert (firstn 99 (msg ++ [NUL])%list = (msg ++ [NUL])%list) as Hwhole
    by (apply firstn_all2; rewrite length_app; simpl; lia).
  assert (List.length (msg ++ [NUL])%list = (List.length msg + 1)%nat) as Hlen1
    by (rewrite length_app; reflexivity).
  assert ((Z.of_nat (List.length msg + 1) =? 0) = false) as Hnz
    by (apply Z.eqb_neq; lia).
  rewrite Link1, Hwhole in Rs', Ss'.
  rewrite Rs, app_nil_l in Rs'. rewrite Ss, app_nil_l in Ss'.
  assert (w_sent ws' = literal Server.RESPONSE) as Ss''
    by (rewrite Ss'; destruct msg; reflexivity).
  unfold server_console, message_lines in Us.
  rewrite Link1, Hwhole, Hlen1, Hnz in Us.
  replace ((msg ++ [NUL]) ++ [NUL])%list with (msg ++ NUL :: [NUL])%list in Us
    by (rewrite <- app_assoc; reflexivity).
  rewrite (c_str_no_nul msg [NUL] (plain_no_nul msg Hplain)) in Us.
  subst server. rewrite Es. simpl fst. simpl snd. rewrite Ss''.
  intros Link2 L. subst L.
  rewrite Link2 in Rc', Uc.
  split; [reflexivity|]. split; [exact Hlen1|]. split; [exact Rs'|].
  split.
  { intros w sd buffer Hos Hbuf.
    rewrite (receive_message_spec sd buffer Server.BUFFER_SIZE w)
      by (try exact Hbuf; unfold Server.BUFFER_SIZE, INT_MAX; lia).
    change (Z.to_nat Server.BUFFER_SIZE) with 100%nat.
    change (100 - 1)%nat with 99%nat.
    rewrite Hos, Link1. cbv zeta. rewrite Hwhole, Hlen1, Hnz. simpl fst.
    unfold received_buffer. rewrite Hlen1.
    replace (100 - (List.length msg + 1))%nat with (99 - List.length msg)%nat by lia.
    reflexivity. }
  split; [exact Us|]. split; [reflexivity|]. split; [exact Rc'|].
  split.
  { intros w sd Hos. rewrite receive_response_spec, Hos, Link2. reflexivity. }
  split; [exact Uc|]. split; reflexivity.
Qed.

Lemma round_trip_witness :
  let wc := fresh_world (friendly_os (Some (literal Server.RESPONSE))) hello_line in
  let ws := fresh_world (friendly_os (Some (literal "hello"))) [] in
  w_sent (snd (run (Client.main ["client"; "127.0.0.1"; "9000"]) wc)) = literal "hello" /\
  w_received (snd (run (Server.main ["server"; "9000"]) ws)) = literal "hello" /\
  fst (Server.receive_message 4 (repeat "?"%char 100) Server.BUFFER_SIZE ws) =
    Ret (6, (literal "hello" ++ repeat NUL 94)%list) /\
  In ("Message: hello" ++ endl)
     (w_stdout (snd (run (Server.main ["server"; "9000"]) ws))) /\
  w_sent (snd (run (Server.main ["server"; "9000"]) ws)) = literal Server.RESPONSE /\
  w_received (snd (run (Client.main ["client"; "127.0.0.1"; "9000"]) wc))
    = literal Server.RESPONSE.
Proof.
  intros wc ws.
  destruct (round_trip "127.0.0.1" "9000" (chars "hello") [] wc ws)
    as (H1 & _ & H2 & H3 & H4 & H5 & H6 & _);
    try reflexivity.
  - simpl. lia.
  - simpl. lia.
  - split; [exact H1|]. split; [exact H2|].
    split; [exact (H3 ws 4 (repeat "?"%char 100) eq_refl eq_refl)|].
    split; [rewrite H4; simpl; tauto|].
    split; [exact H5 | exact H6].
Defined.
